(** * radioserver: the client frame parser and the server session registry

    A shallow embedding of
    - [protocol/protocol.go]: version packing, the wire header, constants;
    - [client/radioclient.go]: [parseMessage], [parseHeader], [parseBody],
      [handleNewMessage] and the message handlers;
    - [server/rpcCalls.go]: [Provision], [Destroy], [Tune], [RXIQ].

    Unsigned Go integers are [Z] with the wrap-around written out, byte
    slices are [list byte], the registry map is a [gmap]. *)

From Stdlib Require Import ZArith Lia List Bool.
From Stdlib Require Import Strings.Byte.
From stdpp Require Import gmap strings list fin_maps.
Import ListNotations.
Open Scope Z_scope.

(** ** Machine integers *)

Definition wrap32 (z : Z) : Z := z mod 2 ^ 32.
Definition wrap64 (z : Z) : Z := z mod 2 ^ 64.

(** [uint32(len(buffer))]: the conversion truncates. *)
Definition len32 {A} (l : list A) : Z := wrap32 (Z.of_nat (length l)).

Definition u8 (b : byte) : Z := Z.of_N (Byte.to_N b).

Definition byte_of_Z (z : Z) : byte :=
  match Byte.of_N (Z.to_N (z mod 256)) with
  | Some b => b
  | None => x00
  end.

(** Little-endian value of a byte string, as [encoding/binary] reads it. *)
Fixpoint le (bs : list byte) : Z :=
  match bs with
  | [] => 0
  | b :: bs' => u8 b + 256 * le bs'
  end.

(** Little-endian encoding of [z] on [n] bytes. *)
Fixpoint le_bytes (n : nat) (z : Z) : list byte :=
  match n with
  | O => []
  | S k => byte_of_Z z :: le_bytes k (z / 256)
  end.

(** [int16(u)] for a 16-bit pattern [u]. *)
Definition int16 (u : Z) : Z := if u <? 2 ^ 15 then u else u - 2 ^ 16.

(** ** protocol/protocol.go *)

Module Protocol.

Record Version := { Major : Z; Minor : Z; Hash : Z }.

Definition GenProtocolVersion (version : Version) : Z :=
  wrap64 (Z.lor (Z.lor (wrap64 (Z.shiftl (Major version) 40))
                       (wrap64 (Z.shiftl (Minor version) 32)))
                (Hash version)).

Definition SplitProtocolVersion (protocol : Z) : Version :=
  {| Major := wrap32 (Z.land (Z.shiftr (Z.land protocol (Z.shiftl 255 40)) 40) 255);
     Minor := wrap32 (Z.land (Z.shiftr (Z.land protocol (Z.shiftl 255 32)) 32) 255);
     Hash := wrap32 (Z.land protocol 4294967295) |}.

Definition CurrentProtocolVersion : Version := {| Major := 0; Minor := 1; Hash := 0 |}.

(** Internal parser states ([GettingHeader], [ReadingData]; the client
    refers to them as [ParserAcquiringHeader] and [ParserReadingData]). *)
Definition ParserAcquiringHeader : Z := 0.
Definition ParserReadingData : Z := 1.

(** Message types ([TypeNone] ... [TypeCommand]; [MsgType...] in the client). *)
Definition MsgTypeNone : Z := 0.
Definition MsgTypeDeviceInfo : Z := 1.
Definition MsgTypeClientSync : Z := 2.
Definition MsgTypeReadSetting : Z := 4.
Definition MsgTypeIQ : Z := 5.
Definition MsgTypeSmartIQ : Z := 6.
Definition MsgTypeCombined : Z := 7.
Definition MsgTypeCommand : Z := 8.

Record MessageHeader := {
  PacketNumber : Z;
  ProtocolVersion : Z;
  MessageType : Z;
  Reserved : Z;
  BodySize : Z
}.

Record ClientSync := {
  AllowControl : Z;
  Gains : list Z;
  DeviceCenterFrequency : Z;
  IQCenterFrequency : Z;
  SmartCenterFrequency : Z;
  MinimumIQCenterFrequency : Z;
  MaximumIQCenterFrequency : Z;
  MinimumSmartFrequency : Z;
  MaximumSmartFrequency : Z
}.

(** [binary.Size(MessageHeader{})]: 4 + 8 + 4 + 4 + 4. *)
Definition MessageHeaderSize : Z := 24.

Definition MaxMessageBodySize : Z := Z.shiftl 1 20.

(** [binary.Read(buf, LittleEndian, &header)]: the fields in declaration
    order; [None] when fewer than [MessageHeaderSize] bytes are there. *)
Definition readMessageHeader (bs : list byte) : option MessageHeader :=
  if Z.of_nat (length bs) <? MessageHeaderSize then None
  else Some {| PacketNumber := le (take 4 bs);
               ProtocolVersion := le (take 8 (drop 4 bs));
               MessageType := le (take 4 (drop 12 bs));
               Reserved := le (take 4 (drop 16 bs));
               BodySize := le (take 4 (drop 20 bs)) |}.

Definition writeMessageHeader (h : MessageHeader) : list byte :=
  le_bytes 4 (PacketNumber h) ++ le_bytes 8 (ProtocolVersion h) ++
  le_bytes 4 (MessageType h) ++ le_bytes 4 (Reserved h) ++ le_bytes 4 (BodySize h).

Definition u32At (i : nat) (bs : list byte) : Z := le (take 4 (drop (4 * i) bs)).

(** [binary.Read] of a [ClientSync]: eleven 32-bit words. *)
Definition readClientSync (bs : list byte) : option ClientSync :=
  if Z.of_nat (length bs) <? 44 then None
  else Some {| AllowControl := u32At 0 bs;
               Gains := [u32At 1 bs; u32At 2 bs; u32At 3 bs];
               DeviceCenterFrequency := u32At 4 bs;
               IQCenterFrequency := u32At 5 bs;
               SmartCenterFrequency := u32At 6 bs;
               MinimumIQCenterFrequency := u32At 7 bs;
               MaximumIQCenterFrequency := u32At 8 bs;
               MinimumSmartFrequency := u32At 9 bs;
               MaximumSmartFrequency := u32At 10 bs |}.


(** Status values, command identifiers and setting identifiers. *)
Definition Invalid : Z := 0.
Definition OK : Z := 1.
Definition Error : Z := 2.

Definition CmdHello : Z := 0.
Definition CmdGetSetting : Z := 1.
Definition CmdSetSetting : Z := 2.
Definition CmdPing : Z := 3.

Definition SettingStreamingMode : Z := 0.
Definition SettingStreamingEnabled : Z := 1.
Definition SettingGains : Z := 2.
Definition SettingIqFrequency : Z := 3.
Definition SettingIqDecimation : Z := 4.
Definition SettingDigitalGain : Z := 5.
Definition SettingSmartFrequency : Z := 6.
Definition SettingSmartDecimation : Z := 7.

Definition SettingNames : gmap Z string :=
  list_to_map
    [(SettingStreamingMode, "Streaming Mode"); (SettingStreamingEnabled, "Streaming Enabled");
     (SettingGains, "Gain"); (SettingDigitalGain, "Digital Gain");
     (SettingIqFrequency, "IQ Frequency"); (SettingIqDecimation, "IQ Decimation");
     (SettingSmartFrequency, "Smart Frequency"); (SettingSmartDecimation, "Smart Decimation")].

Definition PossibleSettings : list Z :=
  [SettingStreamingMode; SettingStreamingEnabled; SettingGains; SettingDigitalGain;
   SettingIqFrequency; SettingIqDecimation; SettingSmartFrequency; SettingSmartDecimation].

Definition GlobalAffectedSettings : list Z := [SettingGains].

(** [for _, v := range l { if setting == v { return true } }; return false] *)
Fixpoint rangeFinds (setting : Z) (l : list Z) : bool :=
  match l with
  | [] => false
  | v :: l' => if setting =? v then true else rangeFinds setting l'
  end.

Definition IsSettingPossible (setting : Z) : bool := rangeFinds setting PossibleSettings.

Definition SettingAffectsGlobal (setting : Z) : bool := rangeFinds setting GlobalAffectedSettings.

(** [v.ToUint64()] *)
Definition ToUint64 (v : Version) : Z := GenProtocolVersion v.

(** The fields of a header fit their widths. *)
Definition validHeader (h : MessageHeader) : Prop :=
  0 <= PacketNumber h < 2 ^ 32 /\ 0 <= ProtocolVersion h < 2 ^ 64 /\
  0 <= MessageType h < 2 ^ 32 /\ 0 <= Reserved h < 2 ^ 32 /\ 0 <= BodySize h < 2 ^ 32.

End Protocol.

(** ** client/radioclient.go *)

Module Client.
Import Protocol.

(** The fields of the upstream [DeviceInfo] record the client reads. *)
Record DeviceInfo := {
  DeviceType : Z;
  DeviceSerial : Z;
  MaximumSampleRate : Z;
  MinimumFrequency : Z;
  MaximumFrequency : Z;
  DecimationStages : Z;
  MaximumGainValue : Z
}.

Record ComplexInt16 := { Real : Z; Imag : Z }.

(** What the parser makes visible outside the client: a call of
    [callback.OnData] with its tag and payload ([None] for [nil]), or the
    [log.Printf] line of a sequence gap. *)
Inductive Event :=
| OnData (kind : Z) (data : option (list ComplexInt16))
| LogLost (gap : Z).

(** Names the client takes from packages that are not part of this
    repository's sources: the stream and device constants, the two sample
    tags, and the wire layout of [DeviceInfo] (its [binary.Read]). *)
Record Upstream := {
  StreamTypeIQ : Z;
  StreamTypeSmartIQ : Z;
  StreamTypeCombined : Z;
  DeviceInvalid : Z;
  SamplesComplex32 : Z;
  SmartSamplesComplex32 : Z;
  readDeviceInfo : list byte -> option DeviceInfo
}.

(** [RadioClient], restricted to the fields the parser, the handlers and
    [cleanup] touch. [callback] is [true] when a [Callback] is set (not
    [nil]); [trace] collects the events, newest last. *)
Record RadioClient := {
  callback : bool;
  terminated : bool;
  routineRunning : bool;
  gotDeviceInfo : bool;
  gotSyncInfo : bool;
  streamingMode : Z;
  gain : Z;
  parserPhase : Z;
  deviceInfo : DeviceInfo;
  header : MessageHeader;
  lastSequenceNumber : Z;
  droppedBuffers : Z;
  downStreamBytes : Z;
  parserPosition : Z;
  bodyBuffer : list byte;
  headerBuffer : list byte;
  Streaming : bool;
  CanControl : bool;
  MinimumTunableFrequency : Z;
  MaximumTunableFrequency : Z;
  DeviceCenterFrequency : Z;
  SmartCenterFrequency : Z;
  trace : list Event
}.

Definition set_callback (v : bool) (f : RadioClient) : RadioClient :=
  {| callback := v; terminated := terminated f; routineRunning := routineRunning f;
     gotDeviceInfo := gotDeviceInfo f; gotSyncInfo := gotSyncInfo f;
     streamingMode := streamingMode f; gain := gain f; parserPhase := parserPhase f;
     deviceInfo := deviceInfo f; header := header f;
     lastSequenceNumber := lastSequenceNumber f; droppedBuffers := droppedBuffers f;
     downStreamBytes := downStreamBytes f; parserPosition := parserPosition f;
     bodyBuffer := bodyBuffer f; headerBuffer := headerBuffer f; Streaming := Streaming f;
     CanControl := CanControl f; MinimumTunableFrequency := MinimumTunableFrequency f;
     MaximumTunableFrequency := MaximumTunableFrequency f;
     DeviceCenterFrequency := DeviceCenterFrequency f;
     SmartCenterFrequency := SmartCenterFrequency f; trace := trace f |}.
Definition set_terminated (v : bool) (f : RadioClient) : RadioClient :=
  {| callback := callback f; terminated := v; routineRunning := routineRunning f;
     gotDeviceInfo := gotDeviceInfo f; gotSyncInfo := gotSyncInfo f;
     streamingMode := streamingMode f; gain := gain f; parserPhase := parserPhase f;
     deviceInfo := deviceInfo f; header := header f;
     lastSequenceNumber := lastSequenceNumber f; droppedBuffers := droppedBuffers f;
     downStreamBytes := downStreamBytes f; parserPosition := parserPosition f;
     bodyBuffer := bodyBuffer f; headerBuffer := headerBuffer f; Streaming := Streaming f;
     CanControl := CanControl f; MinimumTunableFrequency := MinimumTunableFrequency f;
     MaximumTunableFrequency := MaximumTunableFrequency f;
     DeviceCenterFrequency := DeviceCenterFrequency f;
     SmartCenterFrequency := SmartCenterFrequency f; trace := trace f |}.
Definition set_routineRunning (v : bool) (f : RadioClient) : RadioClient :=
  {| callback := callback f; terminated := terminated f; routineRunning := v;
     gotDeviceInfo := gotDeviceInfo f; gotSyncInfo := gotSyncInfo f;
     streamingMode := streamingMode f; gain := gain f; parserPhase := parserPhase f;
     deviceInfo := deviceInfo f; header := header f;
     lastSequenceNumber := lastSequenceNumber f; droppedBuffers := droppedBuffers f;
     downStreamBytes := downStreamBytes f; parserPosition := parserPosition f;
     bodyBuffer := bodyBuffer f; headerBuffer := headerBuffer f; Streaming := Streaming f;
     CanControl := CanControl f; MinimumTunableFrequency := MinimumTunableFrequency f;
     MaximumTunableFrequency := MaximumTunableFrequency f;
     DeviceCenterFrequency := DeviceCenterFrequency f;
     SmartCenterFrequency := SmartCenterFrequency f; trace := trace f |}.
Definition set_gotDeviceInfo (v : bool) (f : RadioClient) : RadioClient :=
  {| callback := callback f; terminated := terminated f; routineRunning := routineRunning f;
     gotDeviceInfo := v; gotSyncInfo := gotSyncInfo f; streamingMode := streamingMode f;
     gain := gain f; parserPhase := parserPhase f; deviceInfo := deviceInfo f;
     header := header f; lastSequenceNumber := lastSequenceNumber f;
     droppedBuffers := droppedBuffers f; downStreamBytes := downStreamBytes f;
     parserPosition := parserPosition f; bodyBuffer := bodyBuffer f;
     headerBuffer := headerBuffer f; Streaming := Streaming f; CanControl := CanControl f;
     MinimumTunableFrequency := MinimumTunableFrequency f;
     MaximumTunableFrequency := MaximumTunableFrequency f;
     DeviceCenterFrequency := DeviceCenterFrequency f;
     SmartCenterFrequency := SmartCenterFrequency f; trace := trace f |}.
Definition set_gotSyncInfo (v : bool) (f : RadioClient) : RadioClient :=
  {| callback := callback f; terminated := terminated f; routineRunning := routineRunning f;
     gotDeviceInfo := gotDeviceInfo f; gotSyncInfo := v; streamingMode := streamingMode f;
     gain := gain f; parserPhase := parserPhase f; deviceInfo := deviceInfo f;
     header := header f; lastSequenceNumber := lastSequenceNumber f;
     droppedBuffers := droppedBuffers f; downStreamBytes := downStreamBytes f;
     parserPosition := parserPosition f; bodyBuffer := bodyBuffer f;
     headerBuffer := headerBuffer f; Streaming := Streaming f; CanControl := CanControl f;
     MinimumTunableFrequency := MinimumTunableFrequency f;
     MaximumTunableFrequency := MaximumTunableFrequency f;
     DeviceCenterFrequency := DeviceCenterFrequency f;
     SmartCenterFrequency := SmartCenterFrequency f; trace := trace f |}.
Definition set_streamingMode (v : Z) (f : RadioClient) : RadioClient :=
  {| callback := callback f; terminated := terminated f; routineRunning := routineRunning f;
     gotDeviceInfo := gotDeviceInfo f; gotSyncInfo := gotSyncInfo f; streamingMode := v;
     gain := gain f; parserPhase := parserPhase f; deviceInfo := deviceInfo f;
     header := header f; lastSequenceNumber := lastSequenceNumber f;
     droppedBuffers := droppedBuffers f; downStreamBytes := downStreamBytes f;
     parserPosition := parserPosition f; bodyBuffer := bodyBuffer f;
     headerBuffer := headerBuffer f; Streaming := Streaming f; CanControl := CanControl f;
     MinimumTunableFrequency := MinimumTunableFrequency f;
     MaximumTunableFrequency := MaximumTunableFrequency f;
     DeviceCenterFrequency := DeviceCenterFrequency f;
     SmartCenterFrequency := SmartCenterFrequency f; trace := trace f |}.
Definition set_gain (v : Z) (f : RadioClient) : RadioClient :=
  {| callback := callback f; terminated := terminated f; routineRunning := routineRunning f;
     gotDeviceInfo := gotDeviceInfo f; gotSyncInfo := gotSyncInfo f;
     streamingMode := streamingMode f; gain := v; parserPhase := parserPhase f;
     deviceInfo := deviceInfo f; header := header f;
     lastSequenceNumber := lastSequenceNumber f; droppedBuffers := droppedBuffers f;
     downStreamBytes := downStreamBytes f; parserPosition := parserPosition f;
     bodyBuffer := bodyBuffer f; headerBuffer := headerBuffer f; Streaming := Streaming f;
     CanControl := CanControl f; MinimumTunableFrequency := MinimumTunableFrequency f;
     MaximumTunableFrequency := MaximumTunableFrequency f;
     DeviceCenterFrequency := DeviceCenterFrequency f;
     SmartCenterFrequency := SmartCenterFrequency f; trace := trace f |}.
Definition set_parserPhase (v : Z) (f : RadioClient) : RadioClient :=
  {| callback := callback f; terminated := terminated f; routineRunning := routineRunning f;
     gotDeviceInfo := gotDeviceInfo f; gotSyncInfo := gotSyncInfo f;
     streamingMode := streamingMode f; gain := gain f; parserPhase := v;
     deviceInfo := deviceInfo f; header := header f;
     lastSequenceNumber := lastSequenceNumber f; droppedBuffers := droppedBuffers f;
     downStreamBytes := downStreamBytes f; parserPosition := parserPosition f;
     bodyBuffer := bodyBuffer f; headerBuffer := headerBuffer f; Streaming := Streaming f;
     CanControl := CanControl f; MinimumTunableFrequency := MinimumTunableFrequency f;
     MaximumTunableFrequency := MaximumTunableFrequency f;
     DeviceCenterFrequency := DeviceCenterFrequency f;
     SmartCenterFrequency := SmartCenterFrequency f; trace := trace f |}.
Definition set_deviceInfo (v : DeviceInfo) (f : RadioClient) : RadioClient :=
  {| callback := callback f; terminated := terminated f; routineRunning := routineRunning f;
     gotDeviceInfo := gotDeviceInfo f; gotSyncInfo := gotSyncInfo f;
     streamingMode := streamingMode f; gain := gain f; parserPhase := parserPhase f;
     deviceInfo := v; header := header f; lastSequenceNumber := lastSequenceNumber f;
     droppedBuffers := droppedBuffers f; downStreamBytes := downStreamBytes f;
     parserPosition := parserPosition f; bodyBuffer := bodyBuffer f;
     headerBuffer := headerBuffer f; Streaming := Streaming f; CanControl := CanControl f;
     MinimumTunableFrequency := MinimumTunableFrequency f;
     MaximumTunableFrequency := MaximumTunableFrequency f;
     DeviceCenterFrequency := DeviceCenterFrequency f;
     SmartCenterFrequency := SmartCenterFrequency f; trace := trace f |}.
Definition set_header (v : MessageHeader) (f : RadioClient) : RadioClient :=
  {| callback := callback f; terminated := terminated f; routineRunning := routineRunning f;
     gotDeviceInfo := gotDeviceInfo f; gotSyncInfo := gotSyncInfo f;
     streamingMode := streamingMode f; gain := gain f; parserPhase := parserPhase f;
     deviceInfo := deviceInfo f; header := v; lastSequenceNumber := lastSequenceNumber f;
     droppedBuffers := droppedBuffers f; downStreamBytes := downStreamBytes f;
     parserPosition := parserPosition f; bodyBuffer := bodyBuffer f;
     headerBuffer := headerBuffer f; Streaming := Streaming f; CanControl := CanControl f;
     MinimumTunableFrequency := MinimumTunableFrequency f;
     MaximumTunableFrequency := MaximumTunableFrequency f;
     DeviceCenterFrequency := DeviceCenterFrequency f;
     SmartCenterFrequency := SmartCenterFrequency f; trace := trace f |}.
Definition set_lastSequenceNumber (v : Z) (f : RadioClient) : RadioClient :=
  {| callback := callback f; terminated := terminated f; routineRunning := routineRunning f;
     gotDeviceInfo := gotDeviceInfo f; gotSyncInfo := gotSyncInfo f;
     streamingMode := streamingMode f; gain := gain f; parserPhase := parserPhase f;
     deviceInfo := deviceInfo f; header := header f; lastSequenceNumber := v;
     droppedBuffers := droppedBuffers f; downStreamBytes := downStreamBytes f;
     parserPosition := parserPosition f; bodyBuffer := bodyBuffer f;
     headerBuffer := headerBuffer f; Streaming := Streaming f; CanControl := CanControl f;
     MinimumTunableFrequency := MinimumTunableFrequency f;
     MaximumTunableFrequency := MaximumTunableFrequency f;
     DeviceCenterFrequency := DeviceCenterFrequency f;
     SmartCenterFrequency := SmartCenterFrequency f; trace := trace f |}.
Definition set_droppedBuffers (v : Z) (f : RadioClient) : RadioClient :=
  {| callback := callback f; terminated := terminated f; routineRunning := routineRunning f;
     gotDeviceInfo := gotDeviceInfo f; gotSyncInfo := gotSyncInfo f;
     streamingMode := streamingMode f; gain := gain f; parserPhase := parserPhase f;
     deviceInfo := deviceInfo f; header := header f;
     lastSequenceNumber := lastSequenceNumber f; droppedBuffers := v;
     downStreamBytes := downStreamBytes f; parserPosition := parserPosition f;
     bodyBuffer := bodyBuffer f; headerBuffer := headerBuffer f; Streaming := Streaming f;
     CanControl := CanControl f; MinimumTunableFrequency := MinimumTunableFrequency f;
     MaximumTunableFrequency := MaximumTunableFrequency f;
     DeviceCenterFrequency := DeviceCenterFrequency f;
     SmartCenterFrequency := SmartCenterFrequency f; trace := trace f |}.
Definition set_downStreamBytes (v : Z) (f : RadioClient) : RadioClient :=
  {| callback := callback f; terminated := terminated f; routineRunning := routineRunning f;
     gotDeviceInfo := gotDeviceInfo f; gotSyncInfo := gotSyncInfo f;
     streamingMode := streamingMode f; gain := gain f; parserPhase := parserPhase f;
     deviceInfo := deviceInfo f; header := header f;
     lastSequenceNumber := lastSequenceNumber f; droppedBuffers := droppedBuffers f;
     downStreamBytes := v; parserPosition := parserPosition f; bodyBuffer := bodyBuffer f;
     headerBuffer := headerBuffer f; Streaming := Streaming f; CanControl := CanControl f;
     MinimumTunableFrequency := MinimumTunableFrequency f;
     MaximumTunableFrequency := MaximumTunableFrequency f;
     DeviceCenterFrequency := DeviceCenterFrequency f;
     SmartCenterFrequency := SmartCenterFrequency f; trace := trace f |}.
Definition set_parserPosition (v : Z) (f : RadioClient) : RadioClient :=
  {| callback := callback f; terminated := terminated f; routineRunning := routineRunning f;
     gotDeviceInfo := gotDeviceInfo f; gotSyncInfo := gotSyncInfo f;
     streamingMode := streamingMode f; gain := gain f; parserPhase := parserPhase f;
     deviceInfo := deviceInfo f; header := header f;
     lastSequenceNumber := lastSequenceNumber f; droppedBuffers := droppedBuffers f;
     downStreamBytes := downStreamBytes f; parserPosition := v; bodyBuffer := bodyBuffer f;
     headerBuffer := headerBuffer f; Streaming := Streaming f; CanControl := CanControl f;
     MinimumTunableFrequency := MinimumTunableFrequency f;
     MaximumTunableFrequency := MaximumTunableFrequency f;
     DeviceCenterFrequency := DeviceCenterFrequency f;
     SmartCenterFrequency := SmartCenterFrequency f; trace := trace f |}.
Definition set_bodyBuffer (v : list byte) (f : RadioClient) : RadioClient :=
  {| callback := callback f; terminated := terminated f; routineRunning := routineRunning f;
     gotDeviceInfo := gotDeviceInfo f; gotSyncInfo := gotSyncInfo f;
     streamingMode := streamingMode f; gain := gain f; parserPhase := parserPhase f;
     deviceInfo := deviceInfo f; header := header f;
     lastSequenceNumber := lastSequenceNumber f; droppedBuffers := droppedBuffers f;
     downStreamBytes := downStreamBytes f; parserPosition := parserPosition f; bodyBuffer := v;
     headerBuffer := headerBuffer f; Streaming := Streaming f; CanControl := CanControl f;
     MinimumTunableFrequency := MinimumTunableFrequency f;
     MaximumTunableFrequency := MaximumTunableFrequency f;
     DeviceCenterFrequency := DeviceCenterFrequency f;
     SmartCenterFrequency := SmartCenterFrequency f; trace := trace f |}.
Definition set_headerBuffer (v : list byte) (f : RadioClient) : RadioClient :=
  {| callback := callback f; terminated := terminated f; routineRunning := routineRunning f;
     gotDeviceInfo := gotDeviceInfo f; gotSyncInfo := gotSyncInfo f;
     streamingMode := streamingMode f; gain := gain f; parserPhase := parserPhase f;
     deviceInfo := deviceInfo f; header := header f;
     lastSequenceNumber := lastSequenceNumber f; droppedBuffers := droppedBuffers f;
     downStreamBytes := downStreamBytes f; parserPosition := parserPosition f;
     bodyBuffer := bodyBuffer f; headerBuffer := v; Streaming := Streaming f;
     CanControl := CanControl f; MinimumTunableFrequency := MinimumTunableFrequency f;
     MaximumTunableFrequency := MaximumTunableFrequency f;
     DeviceCenterFrequency := DeviceCenterFrequency f;
     SmartCenterFrequency := SmartCenterFrequency f; trace := trace f |}.
Definition set_Streaming (v : bool) (f : RadioClient) : RadioClient :=
  {| callback := callback f; terminated := terminated f; routineRunning := routineRunning f;
     gotDeviceInfo := gotDeviceInfo f; gotSyncInfo := gotSyncInfo f;
     streamingMode := streamingMode f; gain := gain f; parserPhase := parserPhase f;
     deviceInfo := deviceInfo f; header := header f;
     lastSequenceNumber := lastSequenceNumber f; droppedBuffers := droppedBuffers f;
     downStreamBytes := downStreamBytes f; parserPosition := parserPosition f;
     bodyBuffer := bodyBuffer f; headerBuffer := headerBuffer f; Streaming := v;
     CanControl := CanControl f; MinimumTunableFrequency := MinimumTunableFrequency f;
     MaximumTunableFrequency := MaximumTunableFrequency f;
     DeviceCenterFrequency := DeviceCenterFrequency f;
     SmartCenterFrequency := SmartCenterFrequency f; trace := trace f |}.
Definition set_CanControl (v : bool) (f : RadioClient) : RadioClient :=
  {| callback := callback f; terminated := terminated f; routineRunning := routineRunning f;
     gotDeviceInfo := gotDeviceInfo f; gotSyncInfo := gotSyncInfo f;
     streamingMode := streamingMode f; gain := gain f; parserPhase := parserPhase f;
     deviceInfo := deviceInfo f; header := header f;
     lastSequenceNumber := lastSequenceNumber f; droppedBuffers := droppedBuffers f;
     downStreamBytes := downStreamBytes f; parserPosition := parserPosition f;
     bodyBuffer := bodyBuffer f; headerBuffer := headerBuffer f; Streaming := Streaming f;
     CanControl := v; MinimumTunableFrequency := MinimumTunableFrequency f;
     MaximumTunableFrequency := MaximumTunableFrequency f;
     DeviceCenterFrequency := DeviceCenterFrequency f;
     SmartCenterFrequency := SmartCenterFrequency f; trace := trace f |}.
Definition set_MinimumTunableFrequency (v : Z) (f : RadioClient) : RadioClient :=
  {| callback := callback f; terminated := terminated f; routineRunning := routineRunning f;
     gotDeviceInfo := gotDeviceInfo f; gotSyncInfo := gotSyncInfo f;
     streamingMode := streamingMode f; gain := gain f; parserPhase := parserPhase f;
     deviceInfo := deviceInfo f; header := header f;
     lastSequenceNumber := lastSequenceNumber f; droppedBuffers := droppedBuffers f;
     downStreamBytes := downStreamBytes f; parserPosition := parserPosition f;
     bodyBuffer := bodyBuffer f; headerBuffer := headerBuffer f; Streaming := Streaming f;
     CanControl := CanControl f; MinimumTunableFrequency := v;
     MaximumTunableFrequency := MaximumTunableFrequency f;
     DeviceCenterFrequency := DeviceCenterFrequency f;
     SmartCenterFrequency := SmartCenterFrequency f; trace := trace f |}.
Definition set_MaximumTunableFrequency (v : Z) (f : RadioClient) : RadioClient :=
  {| callback := callback f; terminated := terminated f; routineRunning := routineRunning f;
     gotDeviceInfo := gotDeviceInfo f; gotSyncInfo := gotSyncInfo f;
     streamingMode := streamingMode f; gain := gain f; parserPhase := parserPhase f;
     deviceInfo := deviceInfo f; header := header f;
     lastSequenceNumber := lastSequenceNumber f; droppedBuffers := droppedBuffers f;
     downStreamBytes := downStreamBytes f; parserPosition := parserPosition f;
     bodyBuffer := bodyBuffer f; headerBuffer := headerBuffer f; Streaming := Streaming f;
     CanControl := CanControl f; MinimumTunableFrequency := MinimumTunableFrequency f;
     MaximumTunableFrequency := v; DeviceCenterFrequency := DeviceCenterFrequency f;
     SmartCenterFrequency := SmartCenterFrequency f; trace := trace f |}.
Definition set_DeviceCenterFrequency (v : Z) (f : RadioClient) : RadioClient :=
  {| callback := callback f; terminated := terminated f; routineRunning := routineRunning f;
     gotDeviceInfo := gotDeviceInfo f; gotSyncInfo := gotSyncInfo f;
     streamingMode := streamingMode f; gain := gain f; parserPhase := parserPhase f;
     deviceInfo := deviceInfo f; header := header f;
     lastSequenceNumber := lastSequenceNumber f; droppedBuffers := droppedBuffers f;
     downStreamBytes := downStreamBytes f; parserPosition := parserPosition f;
     bodyBuffer := bodyBuffer f; headerBuffer := headerBuffer f; Streaming := Streaming f;
     CanControl := CanControl f; MinimumTunableFrequency := MinimumTunableFrequency f;
     MaximumTunableFrequency := MaximumTunableFrequency f; DeviceCenterFrequency := v;
     SmartCenterFrequency := SmartCenterFrequency f; trace := trace f |}.
Definition set_SmartCenterFrequency (v : Z) (f : RadioClient) : RadioClient :=
  {| callback := callback f; terminated := terminated f; routineRunning := routineRunning f;
     gotDeviceInfo := gotDeviceInfo f; gotSyncInfo := gotSyncInfo f;
     streamingMode := streamingMode f; gain := gain f; parserPhase := parserPhase f;
     deviceInfo := deviceInfo f; header := header f;
     lastSequenceNumber := lastSequenceNumber f; droppedBuffers := droppedBuffers f;
     downStreamBytes := downStreamBytes f; parserPosition := parserPosition f;
     bodyBuffer := bodyBuffer f; headerBuffer := headerBuffer f; Streaming := Streaming f;
     CanControl := CanControl f; MinimumTunableFrequency := MinimumTunableFrequency f;
     MaximumTunableFrequency := MaximumTunableFrequency f;
     DeviceCenterFrequency := DeviceCenterFrequency f; SmartCenterFrequency := v;
     trace := trace f |}.
Definition set_trace (v : list Event) (f : RadioClient) : RadioClient :=
  {| callback := callback f; terminated := terminated f; routineRunning := routineRunning f;
     gotDeviceInfo := gotDeviceInfo f; gotSyncInfo := gotSyncInfo f;
     streamingMode := streamingMode f; gain := gain f; parserPhase := parserPhase f;
     deviceInfo := deviceInfo f; header := header f;
     lastSequenceNumber := lastSequenceNumber f; droppedBuffers := droppedBuffers f;
     downStreamBytes := downStreamBytes f; parserPosition := parserPosition f;
     bodyBuffer := bodyBuffer f; headerBuffer := headerBuffer f; Streaming := Streaming f;
     CanControl := CanControl f; MinimumTunableFrequency := MinimumTunableFrequency f;
     MaximumTunableFrequency := MaximumTunableFrequency f;
     DeviceCenterFrequency := DeviceCenterFrequency f;
     SmartCenterFrequency := SmartCenterFrequency f; trace := v |}.

(** *** Outcomes

    A Go function of the client either returns, panics, or does not come
    back; the receiver is mutated in place, so the state is threaded
    through and is still there when the call panics. *)
Inductive Outcome (A : Type) :=
| Ok (a : A)
| Panicked (msg : string)
| Diverged.
Arguments Ok {A} a.
Arguments Panicked {A} msg.
Arguments Diverged {A}.

Definition M (A : Type) : Type := RadioClient -> Outcome A * RadioClient.

Definition ret {A} (a : A) : M A := fun f => (Ok a, f).
Definition panic {A} (msg : string) : M A := fun f => (Panicked msg, f).
Definition diverge {A} : M A := fun f => (Diverged, f).
Definition bind {A B} (m : M A) (k : A -> M B) : M B :=
  fun f => match m f with
           | (Ok a, f') => k a f'
           | (Panicked msg, f') => (Panicked msg, f')
           | (Diverged, f') => (Diverged, f')
           end.
Definition modify (g : RadioClient -> RadioClient) : M unit := fun f => (Ok tt, g f).
Definition when (b : bool) (m : M unit) : M unit := if b then m else ret tt.

Notation "x <- m ;; k" := (bind m (fun x => k))
  (at level 100, m at next level, right associativity).
Notation "m ;;; k" := (bind m (fun _ => k))
  (at level 100, right associativity).

(** [len(buffer) > 0] *)
Definition nonEmpty {A} (l : list A) : bool :=
  match l with [] => false | _ :: _ => true end.

(** [min] of the client. *)
Definition min (a b : Z) : Z := if a <? b then a else b.

(** [for i := 0; i < toWrite; i++ { dst[i+pos] = src[i] }]; the flag is
    [false] when an index leaves [dst] (Go panics there, with the earlier
    bytes already written). *)
Fixpoint copyLoop (dst : list byte) (pos i : Z) (src : list byte) : list byte * bool :=
  match src with
  | [] => (dst, true)
  | b :: src' =>
      let idx := wrap32 (i + pos) in
      if idx <? Z.of_nat (length dst)
      then copyLoop (<[Z.to_nat idx := b]> dst) pos (i + 1) src'
      else (dst, false)
  end.

(** [buffer[consumed:]] *)
Definition reslice (consumed : Z) (buffer : list byte) : M (list byte) :=
  if Z.of_nat (length buffer) <? consumed
  then panic "slice bounds out of range"
  else ret (drop (Z.to_nat consumed) buffer).

(** The loop of [parseHeader]. Every round that does not return copies at
    least one byte, except when [toWrite] is 0 with the header incomplete:
    then nothing changes and the Go loop spins. [n] bounds the rounds and
    [S (length buffer)] is enough. *)
Fixpoint parseHeaderLoop (n : nat) (buffer : list byte) (consumed : Z) : M Z :=
  match n with
  | O => diverge
  | S n' =>
      match buffer with
      | [] => ret consumed
      | _ :: _ => fun f =>
          let toWrite := min (wrap32 (MessageHeaderSize - parserPosition f)) (len32 buffer) in
          let (hb, ok) := copyLoop (headerBuffer f) (parserPosition f) 0
                                   (take (Z.to_nat toWrite) buffer) in
          let f1 := set_headerBuffer hb f in
          if negb ok then (Panicked "index out of range", f1) else
          let buffer' := drop (Z.to_nat toWrite) buffer in
          let consumed' := wrap32 (consumed + toWrite) in
          let f2 := set_parserPosition (wrap32 (parserPosition f1 + toWrite)) f1 in
          if parserPosition f2 =? MessageHeaderSize then
            let f3 := set_parserPosition 0 f2 in
            match readMessageHeader (headerBuffer f3) with
            | None => (Panicked "unexpected EOF", f3)
            | Some h =>
                let f4 := set_header h f3 in
                let f5 := if 0 <? BodySize h
                          then set_parserPhase ParserReadingData f4 else f4 in
                (Ok consumed', f5)
            end
          else if toWrite =? 0 then (Diverged, f2)
          else parseHeaderLoop n' buffer' consumed' f2
      end
  end.

Definition parseHeader (buffer : list byte) : M Z :=
  parseHeaderLoop (S (length buffer)) buffer 0.

(** The loop of [parseBody], of the same shape. *)
Fixpoint parseBodyLoop (n : nat) (buffer : list byte) (consumed : Z) : M Z :=
  match n with
  | O => diverge
  | S n' =>
      match buffer with
      | [] => ret consumed
      | _ :: _ => fun f =>
          let toWrite := min (wrap32 (BodySize (header f) - parserPosition f)) (len32 buffer) in
          let (bb, ok) := copyLoop (bodyBuffer f) (parserPosition f) 0
                                   (take (Z.to_nat toWrite) buffer) in
          let f1 := set_bodyBuffer bb f in
          if negb ok then (Panicked "index out of range", f1) else
          let buffer' := drop (Z.to_nat toWrite) buffer in
          let consumed' := wrap32 (consumed + toWrite) in
          let f2 := set_parserPosition (wrap32 (parserPosition f1 + toWrite)) f1 in
          if parserPosition f2 =? BodySize (header f2) then
            (Ok consumed', set_parserPhase ParserAcquiringHeader (set_parserPosition 0 f2))
          else if toWrite =? 0 then (Diverged, f2)
          else parseBodyLoop n' buffer' consumed' f2
      end
  end.

Definition parseBody (buffer : list byte) : M Z :=
  parseBodyLoop (S (length buffer)) buffer 0.

(** [binary.Read(buf, LittleEndian, &tmp)] into [n] 16-bit integers: all
    [2 * n] bytes are read first; when the buffer is shorter the call
    fails and [tmp] keeps its zeros (the client ignores the error). *)
Fixpoint le16s (n : nat) (bs : list byte) : list Z :=
  match n with
  | O => []
  | S k => int16 (le (take 2 bs)) :: le16s k (drop 2 bs)
  end.

Definition readInt16s (n : nat) (bs : list byte) : list Z :=
  if (length bs <? 2 * n)%nat then replicate n 0 else le16s n bs.

(** The bytes of a sequence of 16-bit integers, little-endian. *)
Definition encodeInt16s (ints : list Z) : list byte := concat (map (le_bytes 2) ints).

(** The body of [processIQ] and [processSmartIQ] under [callback != nil]. *)
Definition decodeSamples (f : RadioClient) : list ComplexInt16 :=
  let sampleCount := BodySize (header f) / 4 in
  let tmp := readInt16s (Z.to_nat (wrap32 (sampleCount * 2))) (bodyBuffer f) in
  map (fun i => {| Real := nth (Z.to_nat (wrap32 (i * 2))) tmp 0;
                   Imag := nth (Z.to_nat (wrap32 (i * 2 + 1))) tmp 0 |})
      (seqZ 0 sampleCount).

Definition emit (e : Event) : M unit := modify (fun f => set_trace (trace f ++ [e]) f).

Section WithUpstream.
Context (up : Upstream).

Definition processDeviceInfo : M unit := fun f =>
  match readDeviceInfo up (bodyBuffer f) with
  | None => (Panicked "unexpected EOF", f)
  | Some dInfo => (Ok tt, set_gotDeviceInfo true (set_deviceInfo dInfo f))
  end.

Definition processClientSync : M unit := fun f =>
  match readClientSync (bodyBuffer f) with
  | None => (Panicked "unexpected EOF", f)
  | Some clientSync =>
      let f1 := set_CanControl (negb (AllowControl clientSync =? 0)) f in
      let f2 := set_gain (nth 0 (Gains clientSync) 0) f1 in
      let f3 := set_DeviceCenterFrequency (Protocol.DeviceCenterFrequency clientSync) f2 in
      let f4 := set_SmartCenterFrequency (Protocol.SmartCenterFrequency clientSync) f3 in
      let f5 :=
        if (streamingMode f4 =? StreamTypeCombined up) || (streamingMode f4 =? StreamTypeSmartIQ up)
        then set_MaximumTunableFrequency (MaximumSmartFrequency clientSync)
               (set_MinimumTunableFrequency (MinimumSmartFrequency clientSync) f4)
        else if streamingMode f4 =? StreamTypeIQ up
        then set_MaximumTunableFrequency (MaximumIQCenterFrequency clientSync)
               (set_MinimumTunableFrequency (MinimumIQCenterFrequency clientSync) f4)
        else f4 in
      let f6 := set_gotSyncInfo true f5 in
      when (callback f6) (emit (OnData MsgTypeClientSync None)) f6
  end.

Definition processIQ : M unit := fun f =>
  when (callback f) (emit (OnData (SamplesComplex32 up) (Some (decodeSamples f)))) f.

Definition processReadSetting : M unit := ret tt.

Definition processSmartIQ : M unit := fun f =>
  when (callback f) (emit (OnData (SmartSamplesComplex32 up) (Some (decodeSamples f)))) f.

Definition handleNewMessage : M unit := fun f =>
  if terminated f then (Ok tt, f) else
  let t := MessageType (header f) in
  if t =? MsgTypeDeviceInfo then processDeviceInfo f
  else if t =? MsgTypeClientSync then processClientSync f
  else if t =? MsgTypeIQ then processIQ f
  else if t =? MsgTypeSmartIQ then processSmartIQ f
  else if t =? MsgTypeReadSetting then processReadSetting f
  else (Ok tt, f).

(** [parseMessage], lines 221-224: the loop around [parseHeader]. *)
Fixpoint acquireLoop (fuel : nat) (buffer : list byte) : M (list byte) :=
  match fuel with
  | O => diverge
  | S k => fun f =>
      if (parserPhase f =? ParserReadingData) && nonEmpty buffer
      then (consumed <- parseHeader buffer ;;
            buffer' <- reslice consumed buffer ;;
            acquireLoop k buffer') f
      else (Ok buffer, f)
  end.

(** [parseMessage], lines 226-241: the checks of a fresh header and the
    allocation of the body buffer. *)
Definition checkHeader : M unit := fun f =>
  if parserPhase f =? ParserReadingData then
    let clientMajor := Major CurrentProtocolVersion in
    let clientMinor := Minor CurrentProtocolVersion in
    let serverVersion := SplitProtocolVersion (ProtocolVersion (header f)) in
    if negb (clientMajor =? Major serverVersion) || negb (clientMinor =? Minor serverVersion)
    then (Panicked "Server is running an unsupported protocol version.", f)
    else if MaxMessageBodySize <? BodySize (header f)
    then (Panicked "Server sent more than expected body size.", f)
    else (Ok tt, set_bodyBuffer (replicate (Z.to_nat (BodySize (header f))) x00) f)
  else (Ok tt, f).

(** [parseMessage], lines 248-256: the sequence accounting and the dispatch
    of a frame whose body is complete. *)
Definition frameDone : M unit := fun f =>
  if parserPhase f =? ParserAcquiringHeader then
    let gap := wrap32 (PacketNumber (header f) - lastSequenceNumber f - 1) in
    let f1 := set_lastSequenceNumber (PacketNumber (header f)) f in
    let f2 := set_droppedBuffers (wrap32 (droppedBuffers f1 + gap)) f1 in
    (when (0 <? gap) (emit (LogLost gap)) ;;; handleNewMessage) f2
  else (Ok tt, f).

(** The outer loop of [parseMessage]; [fuel] bounds its rounds. *)
Fixpoint parseLoop (fuel : nat) (buffer : list byte) : M unit :=
  match fuel with
  | O => diverge
  | S k => fun f =>
      if nonEmpty buffer && negb (terminated f) then
        (buffer1 <- (fun f1 =>
                       if parserPhase f1 =? ParserAcquiringHeader
                       then (b <- acquireLoop fuel buffer ;; checkHeader ;;; ret b) f1
                       else (Ok buffer, f1)) ;;
         buffer2 <- (fun f2 =>
                       if parserPhase f2 =? ParserReadingData
                       then (consumed <- parseBody buffer1 ;;
                             b <- reslice consumed buffer1 ;;
                             frameDone ;;; ret b) f2
                       else (Ok buffer1, f2)) ;;
         parseLoop k buffer2) f
      else (Ok tt, f)
  end.

Definition parseMessage (fuel : nat) (buffer : list byte) : M unit :=
  modify (fun f => set_downStreamBytes (wrap64 (downStreamBytes f + 1)) f) ;;;
  parseLoop fuel buffer.

(** *** The header loop as the specification words it

    Step 1 of the frame parser in the specification reads: while in
    [AcquiringHeader], copy the available bytes into the header
    accumulator. That is the loop of lines 221-224 with
    [ParserAcquiringHeader] in its guard; [acquireLoop_spec],
    [parseLoop_spec] and [parseMessage_spec] differ from [acquireLoop],
    [parseLoop] and [parseMessage] in that constant only and are there for
    comparison. *)
Fixpoint acquireLoop_spec (fuel : nat) (buffer : list byte) : M (list byte) :=
  match fuel with
  | O => diverge
  | S k => fun f =>
      if (parserPhase f =? ParserAcquiringHeader) && nonEmpty buffer
      then (consumed <- parseHeader buffer ;;
            buffer' <- reslice consumed buffer ;;
            acquireLoop_spec k buffer') f
      else (Ok buffer, f)
  end.

Fixpoint parseLoop_spec (fuel : nat) (buffer : list byte) : M unit :=
  match fuel with
  | O => diverge
  | S k => fun f =>
      if nonEmpty buffer && negb (terminated f) then
        (buffer1 <- (fun f1 =>
                       if parserPhase f1 =? ParserAcquiringHeader
                       then (b <- acquireLoop_spec fuel buffer ;; checkHeader ;;; ret b) f1
                       else (Ok buffer, f1)) ;;
         buffer2 <- (fun f2 =>
                       if parserPhase f2 =? ParserReadingData
                       then (consumed <- parseBody buffer1 ;;
                             b <- reslice consumed buffer1 ;;
                             frameDone ;;; ret b) f2
                       else (Ok buffer1, f2)) ;;
         parseLoop_spec k buffer2) f
      else (Ok tt, f)
  end.

Definition parseMessage_spec (fuel : nat) (buffer : list byte) : M unit :=
  modify (fun f => set_downStreamBytes (wrap64 (downStreamBytes f + 1)) f) ;;;
  parseLoop_spec fuel buffer.

Definition cleanup (f : RadioClient) : RadioClient :=
  let d := deviceInfo f in
  let f := set_deviceInfo {| DeviceType := DeviceInvalid up; DeviceSerial := 0;
                             MaximumSampleRate := 0; MinimumFrequency := 0;
                             MaximumFrequency := 0;
                             DecimationStages := DecimationStages d;
                             MaximumGainValue := MaximumGainValue d |} f in
  let f := set_gain 0 f in
  let f := set_CanControl false f in
  let f := set_gotDeviceInfo false f in
  let f := set_gotSyncInfo false f in
  let f := set_lastSequenceNumber 4294967295 f in
  let f := set_droppedBuffers 0 f in
  let f := set_downStreamBytes 0 f in
  let f := set_parserPhase ParserAcquiringHeader f in
  let f := set_parserPosition 0 f in
  let f := set_Streaming false f in
  set_terminated true f.

Definition MakeRadioClient : RadioClient :=
  cleanup
    {| callback := false; terminated := false; routineRunning := false;
       gotDeviceInfo := false; gotSyncInfo := false;
       streamingMode := StreamTypeIQ up; gain := 0;
       parserPhase := ParserAcquiringHeader;
       deviceInfo := {| DeviceType := 0; DeviceSerial := 0; MaximumSampleRate := 0;
                        MinimumFrequency := 0; MaximumFrequency := 0;
                        DecimationStages := 0; MaximumGainValue := 0 |};
       header := {| PacketNumber := 0; ProtocolVersion := 0; MessageType := 0;
                    Reserved := 0; BodySize := 0 |};
       lastSequenceNumber := 0; droppedBuffers := 0; downStreamBytes := 0;
       parserPosition := 0; bodyBuffer := [];
       headerBuffer := replicate (Z.to_nat MessageHeaderSize) x00;
       Streaming := false; CanControl := false;
       MinimumTunableFrequency := 0; MaximumTunableFrequency := 0;
       DeviceCenterFrequency := 0; SmartCenterFrequency := 0; trace := [] |}.

Definition SetCallback (f : RadioClient) : RadioClient := set_callback true f.

(** The state in which [threadLoop] first calls [parseMessage]: [Connect]
    has run [cleanup] and cleared [terminated], [threadLoop] has reset the
    phase and the cursor. *)
Definition connected (f : RadioClient) : RadioClient :=
  set_parserPosition 0
    (set_parserPhase ParserAcquiringHeader
       (set_routineRunning true
          (set_gotDeviceInfo false
             (set_gotSyncInfo false (set_terminated false (cleanup f)))))).

End WithUpstream.

(** *** The control side: commands and the public setters

    [splice dst k src] is [dst] with [src] written from index [k] on. *)
Definition splice (dst : list byte) (k : nat) (src : list byte) : list byte :=
  take k dst ++ src ++ drop (k + length src) dst.

(** [net.Conn] as the client writes to it: the byte strings handed to
    [Write], oldest first, and whether [Write] fails. A failed [Write] is
    taken to send nothing. *)
Record Conn := { outbox : list (list byte); writeFails : bool }.

Definition connWrite (bs : list byte) (conn : Conn) : bool * Conn :=
  if writeFails conn then (false, conn)
  else (true, {| outbox := outbox conn ++ [bs]; writeFails := writeFails conn |}).

(** The fields of [RadioClient] that the parser does not touch, next to
    the parser's ([base]). [client] is [None] for [nil]. *)
Record Control := {
  base : RadioClient;
  client : option Conn;
  availableSampleRates : list Z;
  channelCenterFrequency : Z;
  currentSampleRate : Z;
  currentSmartSampleRate : Z;
  channelDecimation : Z;
  smartDecimation : Z
}.

Definition set_base (v : RadioClient) (c : Control) : Control :=
  {| base := v; client := client c; availableSampleRates := availableSampleRates c;
     channelCenterFrequency := channelCenterFrequency c;
     currentSampleRate := currentSampleRate c;
     currentSmartSampleRate := currentSmartSampleRate c;
     channelDecimation := channelDecimation c; smartDecimation := smartDecimation c |}.
Definition set_client (v : option Conn) (c : Control) : Control :=
  {| base := base c; client := v; availableSampleRates := availableSampleRates c;
     channelCenterFrequency := channelCenterFrequency c;
     currentSampleRate := currentSampleRate c;
     currentSmartSampleRate := currentSmartSampleRate c;
     channelDecimation := channelDecimation c; smartDecimation := smartDecimation c |}.
Definition set_availableSampleRates (v : list Z) (c : Control) : Control :=
  {| base := base c; client := client c; availableSampleRates := v;
     channelCenterFrequency := channelCenterFrequency c;
     currentSampleRate := currentSampleRate c;
     currentSmartSampleRate := currentSmartSampleRate c;
     channelDecimation := channelDecimation c; smartDecimation := smartDecimation c |}.
Definition set_channelCenterFrequency (v : Z) (c : Control) : Control :=
  {| base := base c; client := client c; availableSampleRates := availableSampleRates c;
     channelCenterFrequency := v; currentSampleRate := currentSampleRate c;
     currentSmartSampleRate := currentSmartSampleRate c;
     channelDecimation := channelDecimation c; smartDecimation := smartDecimation c |}.
Definition set_currentSampleRate (v : Z) (c : Control) : Control :=
  {| base := base c; client := client c; availableSampleRates := availableSampleRates c;
     channelCenterFrequency := channelCenterFrequency c; currentSampleRate := v;
     currentSmartSampleRate := currentSmartSampleRate c;
     channelDecimation := channelDecimation c; smartDecimation := smartDecimation c |}.
Definition set_currentSmartSampleRate (v : Z) (c : Control) : Control :=
  {| base := base c; client := client c; availableSampleRates := availableSampleRates c;
     channelCenterFrequency := channelCenterFrequency c;
     currentSampleRate := currentSampleRate c; currentSmartSampleRate := v;
     channelDecimation := channelDecimation c; smartDecimation := smartDecimation c |}.
Definition set_channelDecimation (v : Z) (c : Control) : Control :=
  {| base := base c; client := client c; availableSampleRates := availableSampleRates c;
     channelCenterFrequency := channelCenterFrequency c;
     currentSampleRate := currentSampleRate c;
     currentSmartSampleRate := currentSmartSampleRate c; channelDecimation := v;
     smartDecimation := smartDecimation c |}.
Definition set_smartDecimation (v : Z) (c : Control) : Control :=
  {| base := base c; client := client c; availableSampleRates := availableSampleRates c;
     channelCenterFrequency := channelCenterFrequency c;
     currentSampleRate := currentSampleRate c;
     currentSmartSampleRate := currentSmartSampleRate c;
     channelDecimation := channelDecimation c; smartDecimation := v |}.

Definition onBase (g : RadioClient -> RadioClient) (c : Control) : Control :=
  set_base (g (base c)) c.

(** What [sendCommand] hands to [Write]: the command header (command
    type, then body size, 32 bits each) and the argument bytes. [None] is
    a [nil] slice. *)
Definition commandBytes (cmd : Z) (args : option (list byte)) : list byte :=
  let argsLen := match args with
                 | Some a => wrap32 (0 + len32 a)
                 | None => 0
                 end in
  le_bytes 4 cmd ++ le_bytes 4 argsLen ++
  match args with Some a => a | None => [] end.

Definition sendCommand (cmd : Z) (args : option (list byte)) (c : Control) : bool * Control :=
  match client c with
  | None => (false, c)
  | Some conn =>
      let (ok, conn') := connWrite (commandBytes cmd args) conn in
      (ok, set_client (Some conn') c)
  end.

Definition settingBytes (settingType : Z) (params : list Z) : list byte :=
  if nonEmpty params
  then le_bytes 4 settingType ++ concat (map (le_bytes 4) params)
  else [].

Definition setSetting (settingType : Z) (params : list Z) (c : Control) : bool * Control :=
  sendCommand CmdSetSetting (Some (settingBytes settingType params)) c.

(** [sayHello]; [softwareName] is the package variable of that name. *)
Definition helloBytes (softwareName : list byte) : list byte :=
  le_bytes 8 (ToUint64 CurrentProtocolVersion) ++ softwareName.

Definition sayHello (softwareName : list byte) (c : Control) : bool * Control :=
  sendCommand CmdHello (Some (helloBytes softwareName)) c.

Definition setStreamState (c : Control) : bool * Control :=
  if Streaming (base c)
  then setSetting SettingStreamingEnabled [1] c
  else setSetting SettingStreamingEnabled [0] c.

Definition Start (c : Control) : Control :=
  if negb (Streaming (base c))
  then snd (setStreamState
              (onBase (fun f => set_downStreamBytes 0 (set_Streaming true f)) c))
  else c.

Definition Stop (c : Control) : Control :=
  if Streaming (base c)
  then snd (setStreamState
              (onBase (fun f => set_downStreamBytes 0 (set_Streaming false f)) c))
  else c.

Definition GetSampleRate (c : Control) : Z := currentSampleRate c.
Definition GetCenterFrequency (c : Control) : Z := channelCenterFrequency c.
Definition GetDisplayCenterFrequency (c : Control) : Z := Client.SmartCenterFrequency (base c).
Definition GetStreamingMode (c : Control) : Z := streamingMode (base c).
Definition GetAvailableSampleRates (c : Control) : list Z := availableSampleRates c.
Definition GetDisplaySampleRate (c : Control) : Z := currentSmartSampleRate c.
Definition GetGain (c : Control) : Z := gain (base c).

(** The search of [SetSampleRate] and [SetSmartSampleRate]: the first
    index [i], from [i] on and within [n] rounds, whose rate is
    [sampleRate]; reading past the table panics. *)
Fixpoint findRate (n : nat) (i : Z) (rates : list Z) (sampleRate : Z) : Outcome (option Z) :=
  match n with
  | O => Ok None
  | S k =>
      match rates !! Z.to_nat i with
      | None => Panicked "index out of range"
      | Some r => if r =? sampleRate then Ok (Some i)
                  else findRate k (wrap32 (i + 1)) rates sampleRate
      end
  end.

Definition SetSmartCenterFrequency (centerFrequency : Z) (c : Control) : Z * Control :=
  let c1 :=
    if negb (Client.SmartCenterFrequency (base c) =? centerFrequency)
    then onBase (set_SmartCenterFrequency centerFrequency)
           (snd (setSetting SettingSmartFrequency [centerFrequency] c))
    else c in
  (Client.SmartCenterFrequency (base c1), c1).

Definition SetGain (gainValue : Z) (c : Control) : Z * Control :=
  if MaximumGainValue (deviceInfo (base c)) <? gainValue then (Invalid, c)
  else (gainValue, onBase (set_gain gainValue) (snd (setSetting SettingGains [gainValue; 0; 0] c))).

Definition SetDecimationStage (decimation : Z) (c : Control) : Outcome Z * Control :=
  if DecimationStages (deviceInfo (base c)) <? decimation then (Ok Invalid, c)
  else
    let c1 := set_channelDecimation decimation c in
    let c2 := snd (setSetting SettingIqDecimation [decimation] c1) in
    match availableSampleRates c2 !! Z.to_nat decimation with
    | None => (Panicked "index out of range", c2)
    | Some r => (Ok decimation, set_currentSampleRate r c2)
    end.

Definition SetSmartDecimation (decimation : Z) (c : Control) : Outcome Z * Control :=
  if DecimationStages (deviceInfo (base c)) <? decimation then (Ok Invalid, c)
  else
    let c1 := set_smartDecimation decimation c in
    let c2 := snd (setSetting SettingSmartDecimation [decimation] c1) in
    match availableSampleRates c2 !! Z.to_nat decimation with
    | None => (Panicked "index out of range", c2)
    | Some r => (Ok decimation, set_currentSmartSampleRate r c2)
    end.

Definition SetSmartSampleRate (sampleRate : Z) (c : Control) : Outcome Z * Control :=
  match findRate (Z.to_nat (DecimationStages (deviceInfo (base c)))) 0
                 (availableSampleRates c) sampleRate with
  | Ok (Some i) =>
      let c1 := set_smartDecimation i c in
      let c2 := snd (setSetting SettingSmartDecimation [i] c1) in
      (Ok sampleRate, set_currentSmartSampleRate sampleRate c2)
  | Ok None => (Ok Invalid, c)
  | Panicked msg => (Panicked msg, c)
  | Diverged => (Diverged, c)
  end.

Section ControlWithUpstream.
Context (up : Upstream).

Definition smartMode (c : Control) : bool :=
  (streamingMode (base c) =? StreamTypeSmartIQ up)
  || (streamingMode (base c) =? StreamTypeCombined up).

Definition SetSampleRate (sampleRate : Z) (c : Control) : Outcome Z * Control :=
  match findRate (Z.to_nat (DecimationStages (deviceInfo (base c)))) 0
                 (availableSampleRates c) sampleRate with
  | Ok (Some i) =>
      let c1 := set_channelDecimation i c in
      let c2 := snd (setSetting SettingIqDecimation [i] c1) in
      let c3 := set_currentSampleRate sampleRate c2 in
      if smartMode c3 && (currentSmartSampleRate c3 =? 0)
      then match SetSmartSampleRate sampleRate c3 with
           | (Ok _, c4) => (Ok sampleRate, c4)
           | (Panicked msg, c4) => (Panicked msg, c4)
           | (Diverged, c4) => (Diverged, c4)
           end
      else (Ok sampleRate, c3)
  | Ok None => (Ok Invalid, c)
  | Panicked msg => (Panicked msg, c)
  | Diverged => (Diverged, c)
  end.

Definition SetCenterFrequency (centerFrequency : Z) (c : Control) : Z * Control :=
  let c3 :=
    if negb (channelCenterFrequency c =? centerFrequency) then
      let c1 := snd (setSetting SettingIqFrequency [centerFrequency] c) in
      let c2 := set_channelCenterFrequency centerFrequency c1 in
      if smartMode c2 && (Client.SmartCenterFrequency (base c2) =? 0)
      then snd (SetSmartCenterFrequency centerFrequency c2)
      else c2
    else c in
  (channelCenterFrequency c3, c3).

Definition SetStreamingMode (streamMode : Z) (c : Control) : Control :=
  if negb (streamingMode (base c) =? streamMode) then
    let c1 := onBase (set_streamingMode streamMode) c in
    let c2 := snd (setSetting SettingStreamingMode [streamMode] c1) in
    if smartMode c2 then
      let c3 := if Client.SmartCenterFrequency (base c2) =? 0
                then snd (SetSmartCenterFrequency (GetCenterFrequency c2) c2)
                else c2 in
      snd (setSetting SettingSmartDecimation [smartDecimation c3] c3)
    else c2
  else c.

(** [threadLoop]. [reads] holds what the successive [client.Read] calls
    give: [None] for an error, [Some chunk] for the bytes read (maybe
    none). When [reads] runs out the loop is waiting in [Read]. *)
Fixpoint threadRounds (fuel : nat) (reads : list (option (list byte))) : M unit :=
  fun f =>
    if routineRunning f && negb (terminated f) then
      match reads with
      | [] => (Diverged, f)
      | None :: _ => (Ok tt, f)
      | Some chunk :: reads' =>
          if nonEmpty chunk
          then (parseMessage up fuel chunk ;;; threadRounds fuel reads') f
          else threadRounds fuel reads' f
      end
    else (Ok tt, f).

Definition threadLoop (fuel : nat) (reads : list (option (list byte))) : M unit :=
  modify (fun f => set_parserPosition 0 (set_parserPhase ParserAcquiringHeader f)) ;;;
  threadRounds fuel reads ;;;
  modify (fun f => cleanup up (set_routineRunning false f)).

End ControlWithUpstream.
End Client.

(** ** server/rpcCalls.go *)

Module Server.

(** The messages of the RPC interface. A [float] field is carried as its
    32-bit pattern: the server only passes these values on. *)
Inductive DeviceName := TestSignal | AirspyMini | RTLSDR | LimeSDRMini | LimeSDRUSB | HackRF.

Record DeviceInfo := {
  Name : DeviceName;
  Serial : string;
  MaximumSampleRate : Z;
  MinimumFrequency : Z;
  MaximumFrequency : Z;
  ADCResolution : Z;
  MaximumRXChannels : Z;
  MaximumTXChannels : Z
}.

Record ChannelConfig := {
  CenterFrequency : Z;
  NormalizedGain : Z;
  AnalogFilterBandwidth : Z;
  DigitalFilterBandwidth : Z;
  Antenna : string
}.

Record DeviceConfig := {
  SampleRate : Z;
  Oversample : Z;
  RXC : list ChannelConfig;
  TXC : list ChannelConfig
}.

Record DeviceState := { Info : DeviceInfo; Config : DeviceConfig }.

(** A [[]complex64] sample buffer, as pairs of bit patterns. *)
Definition Samples := list (Z * Z).

(** Modelled from the spec: the device session ([Session] with its methods
    [FullStop], [IsFullStopped], [KeepAlive], [TuneFrontend] and the
    [CG.IQRunning]/[CG.StartIQ] pair live outside these sources). A session
    has its token, the acquisition flag, the fully-stopped flag, the bound
    configuration, and a count of activity refreshes. *)
Record Session := {
  ID : string;
  iqRunning : bool;
  fullStopped : bool;
  boundConfig : DeviceConfig;
  keepAlives : nat
}.

(** [*Session]: the registry maps tokens to pointers, the objects are in
    a store of their own, so an entry can go while the object stays. *)
Definition ptr := positive.

Inductive Event :=
| EvLock
| EvUnlock
| EvMapGet (token : string)
| EvMapSet (token : string)
| EvMapDelete (token : string)
| EvStartIQ (p : ptr)
| EvFullStop (p : ptr)
| EvTuneFrontend (p : ptr) (cfg : DeviceConfig)
| EvKeepAlive (p : ptr)
| EvSend (p : ptr) (samples : Samples).

Record RadioServer := {
  sessions : gmap string ptr;
  store : gmap ptr Session;
  sessionLock : bool;
  events : list Event
}.

(** How a call ends: with a value, with an [error], with a run-time panic,
    waiting for the lock, or (for a stream) still attached when the
    observations run out. *)
Inductive Result (A : Type) :=
| Return (a : A)
| Error (msg : string)
| Fault (msg : string)
| Blocked
| Running.
Arguments Return {A} a.
Arguments Error {A} msg.
Arguments Fault {A} msg.
Arguments Blocked {A}.
Arguments Running {A}.

Definition log (e : Event) (rs : RadioServer) : RadioServer :=
  {| sessions := sessions rs; store := store rs; sessionLock := sessionLock rs;
     events := events rs ++ [e] |}.

Definition setLock (b : bool) (rs : RadioServer) : RadioServer :=
  {| sessions := sessions rs; store := store rs; sessionLock := b; events := events rs |}.

Definition setSessions (m : gmap string ptr) (rs : RadioServer) : RadioServer :=
  {| sessions := m; store := store rs; sessionLock := sessionLock rs; events := events rs |}.

Definition setStore (h : gmap ptr Session) (rs : RadioServer) : RadioServer :=
  {| sessions := sessions rs; store := h; sessionLock := sessionLock rs; events := events rs |}.

(** [rs.sessionLock.Lock()] and [Unlock()]. *)
Definition Lock (rs : RadioServer) : option RadioServer :=
  if sessionLock rs then None else Some (log EvLock (setLock true rs)).

Definition Unlock (rs : RadioServer) : RadioServer := log EvUnlock (setLock false rs).

(** [rs.sessions[token]], [rs.sessions[token] = p], [delete(rs.sessions, token)] *)
Definition mapGet (token : string) (rs : RadioServer) : option ptr * RadioServer :=
  (sessions rs !! token, log (EvMapGet token) rs).

Definition mapSet (token : string) (p : ptr) (rs : RadioServer) : RadioServer :=
  log (EvMapSet token) (setSessions (<[token := p]> (sessions rs)) rs).

Definition mapDelete (token : string) (rs : RadioServer) : RadioServer :=
  log (EvMapDelete token) (setSessions (delete token (sessions rs)) rs).

(** Modelled from the spec: the session methods. [FullStop] releases the
    device and stops any active stream; [StartIQ] marks acquisition
    active; [TuneFrontend] binds the new configuration; [KeepAlive]
    refreshes the activity stamp. *)
Definition onSession (g : Session -> Session) (p : ptr) (rs : RadioServer) : RadioServer :=
  setStore (alter g p (store rs)) rs.

Definition IQRunning (p : ptr) (rs : RadioServer) : bool :=
  match store rs !! p with Some s => iqRunning s | None => false end.

Definition StartIQ (p : ptr) (rs : RadioServer) : RadioServer :=
  log (EvStartIQ p)
      (onSession (fun s => {| ID := ID s; iqRunning := true; fullStopped := fullStopped s;
                              boundConfig := boundConfig s; keepAlives := keepAlives s |}) p rs).

Definition FullStop (p : ptr) (rs : RadioServer) : RadioServer :=
  log (EvFullStop p)
      (onSession (fun s => {| ID := ID s; iqRunning := false; fullStopped := true;
                              boundConfig := boundConfig s; keepAlives := keepAlives s |}) p rs).

Definition TuneFrontend (p : ptr) (cfg : DeviceConfig) (rs : RadioServer) : RadioServer :=
  log (EvTuneFrontend p cfg)
      (onSession (fun s => {| ID := ID s; iqRunning := iqRunning s; fullStopped := fullStopped s;
                              boundConfig := cfg; keepAlives := keepAlives s |}) p rs).

Definition KeepAlive (p : ptr) (rs : RadioServer) : RadioServer :=
  log (EvKeepAlive p)
      (onSession (fun s => {| ID := ID s; iqRunning := iqRunning s; fullStopped := fullStopped s;
                              boundConfig := boundConfig s; keepAlives := S (keepAlives s) |}) p rs).

Section WithFrontends.
(** [GenerateSession] of the frontend layer; [None] is [nil]. *)
Context (GenerateSession : DeviceState -> option Session).

Definition Provision (d : DeviceState) (rs : RadioServer) : Result string * RadioServer :=
  match Lock rs with
  | None => (Blocked, rs)
  | Some rs1 =>
      match GenerateSession d with
      | None => (Error "error provisioning", Unlock rs1)
      | Some s =>
          let p := fresh (dom (store rs1)) in
          let rs2 := setStore (<[p := s]> (store rs1)) rs1 in
          let rs3 := mapSet (ID s) p rs2 in
          (Return (ID s), Unlock rs3)
      end
  end.

End WithFrontends.

Definition Destroy (token : string) (rs : RadioServer) : Result unit * RadioServer :=
  match Lock rs with
  | None => (Blocked, rs)
  | Some rs1 =>
      match mapGet token rs1 with
      | (None, rs2) => (Error "session doesn't exist", Unlock rs2)
      | (Some s, rs2) =>
          let rs3 := mapDelete token rs2 in
          let rs4 := FullStop s rs3 in
          (Return tt, Unlock rs4)
      end
  end.

Definition Tune (token : string) (cfg : DeviceConfig) (rs : RadioServer)
  : Result DeviceConfig * RadioServer :=
  match mapGet token rs with
  | (None, rs1) => (Error "session doesn't exist", rs1)
  | (Some s, rs1) => (Return cfg, TuneFrontend s cfg rs1)
  end.

(** What the delivery loop of [RXIQ] observes, one entry per test of
    [s.IQFifo.Len() > 0]: no buffer ([Idle]: the inner loop ends, the
    pipeline sleeps and tests again), or a buffer with the outcome of
    [server.Send] ([None] is success) and the answer of [s.IsFullStopped()]
    after it. *)
Inductive Tick :=
| Idle
| Buffer (samples : Samples) (sendErr : option string) (expired : bool).

(** The two nested loops of [RXIQ]. They only end by a [return]; when the
    observations run out the stream is still [Running]. The reuse pool
    recycles payload storage only and is not modelled. *)
Fixpoint deliver (s : ptr) (script : list Tick) (rs : RadioServer) : Result unit * RadioServer :=
  match script with
  | [] => (Running, rs)
  | Idle :: script' => deliver s script' rs
  | Buffer samples sendErr expired :: script' =>
      let rs1 := log (EvSend s samples) rs in
      match sendErr with
      | Some err => (Error err, rs1)
      | None =>
          let rs2 := KeepAlive s rs1 in
          if expired then (Error "session expired", rs2)
          else deliver s script' rs2
      end
  end.

(** [RXIQ]: a [nil] session faults at [s.CG]; the two deferred calls run,
    last registered first, when the function returns. *)
Definition RXIQ (token : string) (script : list Tick) (rs : RadioServer)
  : Result unit * RadioServer :=
  match mapGet token rs with
  | (None, rs1) => (Fault "invalid memory address or nil pointer dereference", rs1)
  | (Some s, rs1) =>
      if IQRunning s rs1 then (Error "already running", rs1)
      else
        let rs2 := StartIQ s rs1 in
        match deliver s script rs2 with
        | (Running, rs3) => (Running, rs3)
        | (r, rs3) => (r, mapDelete token (FullStop s rs3))
        end
  end.

(** The lock discipline on a trace: every access to the session map
    happens between a [Lock] and the next [Unlock]. *)
Definition isMapAccess (e : Event) : bool :=
  match e with
  | EvMapGet _ | EvMapSet _ | EvMapDelete _ => true
  | _ => false
  end.

Fixpoint guardedFrom (held : bool) (tr : list Event) : bool :=
  match tr with
  | [] => true
  | EvLock :: tr' => guardedFrom true tr'
  | EvUnlock :: tr' => guardedFrom false tr'
  | e :: tr' => (if isMapAccess e then held else true) && guardedFrom held tr'
  end.

Definition guarded (tr : list Event) : bool := guardedFrom false tr.

(** The events a call added to the trace. *)
Definition added (rs rs' : RadioServer) : list Event :=
  drop (length (events rs)) (events rs').

Definition isFullStop (p : ptr) (e : Event) : bool :=
  match e with EvFullStop q => Pos.eqb p q | _ => false end.

Definition isDelete (token : string) (e : Event) : bool :=
  match e with EvMapDelete t => String.eqb token t | _ => false end.

Definition isTune (e : Event) : bool :=
  match e with EvTuneFrontend _ _ => true | _ => false end.

Definition isAnyFullStop (e : Event) : bool :=
  match e with EvFullStop _ => true | _ => false end.

Definition isStreamEvent (e : Event) : bool :=
  match e with
  | EvSend _ _ | EvKeepAlive _ => true
  | _ => false
  end.

Fixpoint count (P : Event -> bool) (tr : list Event) : nat :=
  match tr with
  | [] => O
  | e :: tr' => ((if P e then 1 else 0) + count P tr')%nat
  end.

(** A tick after which the delivery loop goes on. *)
Definition quiet (t : Tick) : bool :=
  match t with
  | Idle => true
  | Buffer _ None false => true
  | _ => false
  end.

Definition emptyServer : RadioServer :=
  {| sessions := ∅; store := ∅; sessionLock := false; events := [] |}.


(** The buffers a script makes the delivery loop push, in order: every
    buffer up to and including the first whose push fails or after which
    the session is found stopped. *)
Fixpoint pushed (script : list Tick) : list Samples :=
  match script with
  | [] => []
  | Idle :: script' => pushed script'
  | Buffer samples None false :: script' => samples :: pushed script'
  | Buffer samples _ _ :: _ => [samples]
  end.

(** The pushes of a script that succeed. *)
Fixpoint delivered (script : list Tick) : nat :=
  match script with
  | [] => O
  | Idle :: script' => delivered script'
  | Buffer _ None false :: script' => S (delivered script')
  | Buffer _ None true :: _ => 1
  | Buffer _ (Some _) _ :: _ => O
  end.

(** The payloads of the [Send] events of a trace, in order. *)
Fixpoint sends (tr : list Event) : list Samples :=
  match tr with
  | [] => []
  | EvSend _ samples :: tr' => samples :: sends tr'
  | _ :: tr' => sends tr'
  end.

Definition isKeepAlive (e : Event) : bool :=
  match e with EvKeepAlive _ => true | _ => false end.

(** What [FullStop] and [TuneFrontend] make of a session. *)
Definition stopped (s : Session) : Session :=
  {| ID := ID s; iqRunning := false; fullStopped := true;
     boundConfig := boundConfig s; keepAlives := keepAlives s |}.


(** A session after [n] more activity refreshes. *)
Definition refreshed (n : nat) (s : Session) : Session :=
  {| ID := ID s; iqRunning := iqRunning s; fullStopped := fullStopped s;
     boundConfig := boundConfig s; keepAlives := (n + keepAlives s)%nat |}.

Definition started (s : Session) : Session :=
  {| ID := ID s; iqRunning := true; fullStopped := fullStopped s;
     boundConfig := boundConfig s; keepAlives := keepAlives s |}.

End Server.

(** ** Concrete inputs *)

Module Inputs.
Import Protocol Client.

(** [threadLoop] hands every chunk it reads to [parseMessage], in order. *)
Fixpoint feed (up : Upstream) (fuel : nat) (chunks : list (list byte)) : M unit :=
  match chunks with
  | [] => ret tt
  | c :: cs => parseMessage up fuel c ;;; feed up fuel cs
  end.

Fixpoint feed_spec (up : Upstream) (fuel : nat) (chunks : list (list byte)) : M unit :=
  match chunks with
  | [] => ret tt
  | c :: cs => parseMessage_spec up fuel c ;;; feed_spec up fuel cs
  end.

Definition up0 : Upstream :=
  {| StreamTypeIQ := 0; StreamTypeSmartIQ := 1; StreamTypeCombined := 2;
     DeviceInvalid := 0; SamplesComplex32 := 0; SmartSamplesComplex32 := 1;
     readDeviceInfo := fun _ => None |}.

(** A client with a callback, as [threadLoop] first sees it. *)
Definition freshClient (up : Upstream) : RadioClient := connected up (SetCallback (MakeRadioClient up)).

Definition iqHeader (packet version size : Z) : MessageHeader :=
  {| PacketNumber := packet; ProtocolVersion := version; MessageType := MsgTypeIQ;
     Reserved := 0; BodySize := size |}.

Definition localVersion : Z := GenProtocolVersion CurrentProtocolVersion.

(** The four 16-bit integers 1, -2, 300, -32768. *)
Definition body8 : list byte := encodeInt16s [1; -2; 300; -32768].

(** A valid IQ frame: packet 7, the local version, 8 body bytes. *)
Definition frame7 : list byte := writeMessageHeader (iqHeader 7 localVersion 8) ++ body8.

(** The same frame from a server whose minor version is 2. *)
Definition frameMinor2 : list byte :=
  writeMessageHeader
    (iqHeader 7 (GenProtocolVersion {| Major := 0; Minor := 2; Hash := 0 |}) 8) ++ body8.

(** A header that declares a body of [2^20 + 1] bytes. *)
Definition headerOversize : list byte :=
  writeMessageHeader (iqHeader 7 localVersion (2 ^ 20 + 1)).

(** The client after the header of a frame went through [parseHeader] and
    the checks of [parseMessage]; [None] unless both returned. *)
Definition afterHeader (h : MessageHeader) (f : RadioClient) : option RadioClient :=
  match parseHeader (writeMessageHeader h) f with
  | (Ok _, f1) =>
      match checkHeader f1 with
      | (Ok _, f2) => Some f2
      | _ => None
      end
  | _ => None
  end.

(** The client of [up0] with the header of [frame7] read and checked. *)
Definition reading7 : RadioClient :=
  match afterHeader (iqHeader 7 localVersion 8) (freshClient up0) with
  | Some f => f
  | None => freshClient up0
  end.

(** 2048 integers, that is 1024 complex samples, and a client that holds
    them as the body of an IQ frame. *)
Definition ints2048 : list Z := map (fun i => i * 31 - 31744) (seqZ 0 2048).

Definition iq1024 : RadioClient :=
  set_bodyBuffer (encodeInt16s ints2048)
    (set_header (iqHeader 1 localVersion 4096) (freshClient up0)).

(** A registry with one session, and what a stream on it observes: no
    buffer, a buffer that goes out, a buffer whose push fails. *)
Definition config0 : Server.DeviceConfig :=
  {| Server.SampleRate := 0; Server.Oversample := 1; Server.RXC := []; Server.TXC := [] |}.

Definition session1 : Server.Session :=
  {| Server.ID := "tok"; Server.iqRunning := false; Server.fullStopped := false;
     Server.boundConfig := config0; Server.keepAlives := 0 |}.

Definition server1 : Server.RadioServer :=
  {| Server.sessions := {[ "tok" := 1%positive ]};
     Server.store := {[ 1%positive := session1 ]};
     Server.sessionLock := false;
     Server.events := [] |}.

Definition script1 : list Server.Tick :=
  [Server.Idle; Server.Buffer [(1, 2)] None false;
   Server.Buffer [(3, 4)] (Some "broken pipe") false].




(** A connected client of a device with three decimation stages and gains
    up to 20. *)
Definition conn0 : Conn := {| outbox := []; writeFails := false |}.

Definition control0 : Control :=
  {| base := set_deviceInfo
               {| DeviceType := 1; DeviceSerial := 0; MaximumSampleRate := 10000000;
                  MinimumFrequency := 0; MaximumFrequency := 0;
                  DecimationStages := 3; MaximumGainValue := 20 |}
               (freshClient up0);
     client := Some conn0;
     availableSampleRates := [10000000; 5000000; 2500000];
     channelCenterFrequency := 0; currentSampleRate := 0; currentSmartSampleRate := 0;
     channelDecimation := 0; smartDecimation := 1 |}.

(** A frontend that always hands out the same session, and a request. *)
Definition session2 : Server.Session :=
  {| Server.ID := "new"; Server.iqRunning := false; Server.fullStopped := false;
     Server.boundConfig := config0; Server.keepAlives := 0 |}.

Definition sessionTok : Server.Session :=
  {| Server.ID := "tok"; Server.iqRunning := false; Server.fullStopped := false;
     Server.boundConfig := config0; Server.keepAlives := 0 |}.

Definition state0 : Server.DeviceState :=
  {| Server.Info := {| Server.Name := Server.TestSignal; Server.Serial := "0";
                       Server.MaximumSampleRate := 10000000; Server.MinimumFrequency := 0;
                       Server.MaximumFrequency := 0; Server.ADCResolution := 16;
                       Server.MaximumRXChannels := 1; Server.MaximumTXChannels := 0 |};
     Server.Config := config0 |}.

Definition gen2 (d : Server.DeviceState) : option Server.Session := Some session2.
Definition genTok (d : Server.DeviceState) : option Server.Session := Some sessionTok.

(** Observations after which a stream is still attached. *)
Definition scriptQuiet : list Server.Tick :=
  [Server.Idle; Server.Buffer [(1, 2)] None false].

(** The default [softwareName]. *)
Definition softwareName : list byte := String.list_byte_of_string "RadioClient".

(** An IQ frame of the local version with packet number [packet] and body
    [body]; the frame is header-only when [body] is empty. *)
Definition iqFrame (packet : Z) (body : list byte) : list byte :=
  writeMessageHeader (iqHeader packet localVersion (Z.of_nat (length body))) ++ body.

End Inputs.

(** * Properties of the client parser *)

Module ClientFacts.
Import Protocol Client Inputs.

(** In the header phase the loop around [parseHeader] is guarded by
    [ParserReadingData], so it does not run. *)
Lemma acquireLoop_skips fuel buffer f :
  parserPhase f = ParserAcquiringHeader ->
  acquireLoop (S fuel) buffer f = (Ok buffer, f).
Proof.
  intros Hph. simpl. rewrite Hph. reflexivity.
Qed.

Lemma checkHeader_skips f :
  parserPhase f = ParserAcquiringHeader -> checkHeader f = (Ok tt, f).
Proof.
  intros Hph. unfold checkHeader. rewrite Hph. reflexivity.
Qed.

(** A round of the outer loop in the header phase changes neither the
    client nor the buffer, whatever the fuel. *)
Lemma parseLoop_acquiring_spins up fuel buffer f :
  parserPhase f = ParserAcquiringHeader ->
  terminated f = false ->
  buffer <> [] ->
  parseLoop up fuel buffer f = (Diverged, f).
Proof.
  intros Hph Hterm Hne.
  induction fuel as [|k IH]; [reflexivity|].
  destruct buffer as [|b buffer]; [congruence|].
  cbn [parseLoop nonEmpty]. rewrite Hterm. cbn [negb andb].
  unfold bind at 1. rewrite Hph. cbn [Z.eqb ParserAcquiringHeader].
  unfold bind at 1. unfold bind at 1.
  rewrite acquireLoop_skips by exact Hph.
  unfold bind at 1. rewrite checkHeader_skips by exact Hph.
  unfold ret at 1.
  unfold bind at 1. rewrite Hph. cbn.
  exact IH.
Qed.

Lemma parseMessage_acquiring_spins up fuel buffer f :
  parserPhase f = ParserAcquiringHeader ->
  terminated f = false ->
  buffer <> [] ->
  parseMessage up fuel buffer f
  = (Diverged, set_downStreamBytes (wrap64 (downStreamBytes f + 1)) f).
Proof.
  intros Hph Hterm Hne. unfold parseMessage, bind, modify.
  apply parseLoop_acquiring_spins; assumption.
Qed.

Lemma feed_acquiring_spins up fuel c cs f :
  parserPhase f = ParserAcquiringHeader ->
  terminated f = false ->
  c <> [] ->
  feed up fuel (c :: cs) f
  = (Diverged, set_downStreamBytes (wrap64 (downStreamBytes f + 1)) f).
Proof.
  intros Hph Hterm Hne. cbn [feed]. unfold bind at 1.
  rewrite parseMessage_acquiring_spins by assumption. reflexivity.
Qed.

Lemma freshClient_phase up : parserPhase (freshClient up) = ParserAcquiringHeader.
Proof. reflexivity. Qed.

Lemma freshClient_running up : terminated (freshClient up) = false.
Proof. reflexivity. Qed.

Lemma freshClient_spins up fuel c cs :
  c <> [] ->
  feed up fuel (c :: cs) (freshClient up) = (Diverged, set_downStreamBytes 1 (freshClient up)).
Proof.
  intros Hne.
  rewrite feed_acquiring_spins by (assumption || reflexivity). reflexivity.
Qed.

(** C1 (evaluated on the code): [frame7] is a valid encoded frame, a
    24-byte header that declares 8 body bytes followed by those 8 bytes.
    Fed to a freshly connected client as one chunk, or byte by byte, the
    parser never returns, whatever the number of rounds it is given, and
    the callback is never invoked: no message is dispatched. *)
Theorem C1_frame_never_dispatched (up : Upstream) (fuel : nat) :
  readMessageHeader (take 24 frame7) = Some (iqHeader 7 localVersion 8) /\
  length (drop 24 frame7) = 8%nat /\
  feed up fuel [frame7] (freshClient up) = (Diverged, set_downStreamBytes 1 (freshClient up)) /\
  feed up fuel (map (fun b => [b]) frame7) (freshClient up)
  = (Diverged, set_downStreamBytes 1 (freshClient up)) /\
  trace (set_downStreamBytes 1 (freshClient up)) = [].
Proof.
  split; [vm_compute; reflexivity|].
  split; [vm_compute; reflexivity|].
  split; [apply freshClient_spins; vm_compute; discriminate|].
  split; [|vm_compute; reflexivity].
  assert (Hcs : exists c cs, map (fun b : byte => [b]) frame7 = c :: cs /\ c <> []).
  { eexists _, _. split; [vm_compute; reflexivity|discriminate]. }
  destruct Hcs as (c & cs & -> & Hne). apply freshClient_spins, Hne.
Qed.

(** With the guard of the specification the same frame is dispatched once,
    as one chunk and byte by byte, with the same payload: the four
    integers of [body8] as two pairs. *)
Example spec_guard_dispatches_frame7 :
  let expected := [LogLost 7;
                   OnData 0 (Some [{| Real := 1; Imag := -2 |};
                                   {| Real := 300; Imag := -32768 |}])] in
  fst (feed_spec up0 4 [frame7] (freshClient up0)) = Ok tt /\
  trace (snd (feed_spec up0 4 [frame7] (freshClient up0))) = expected /\
  fst (feed_spec up0 4 (map (fun b => [b]) frame7) (freshClient up0)) = Ok tt /\
  trace (snd (feed_spec up0 4 (map (fun b => [b]) frame7) (freshClient up0))) = expected.
Proof. vm_compute. repeat split; reflexivity. Qed.

(** [parseHeader], called on the 24 header bytes of [frame7], does decode
    them and moves to the body phase. *)
Example parseHeader_decodes_frame7 :
  exists f',
    parseHeader (take 24 frame7) (freshClient up0) = (Ok 24, f') /\
    header f' = iqHeader 7 localVersion 8 /\
    parserPhase f' = ParserReadingData /\
    parserPosition f' = 0.
Proof. eexists. vm_compute. repeat split; reflexivity. Qed.

(** C2 (evaluated on the code): a one-byte chunk given to the parser in
    the header phase is not copied into the header buffer and the cursor
    stays at 0; the call does not come back for any number of rounds. *)
Theorem C2_header_byte_not_consumed (up : Upstream) (fuel : nat) (b : byte) :
  parserPhase (freshClient up) = ParserAcquiringHeader /\
  exists f',
    parseMessage up fuel [b] (freshClient up) = (Diverged, f') /\
    headerBuffer f' = headerBuffer (freshClient up) /\
    parserPosition f' = 0.
Proof.
  split; [reflexivity|].
  eexists. split.
  - apply parseMessage_acquiring_spins; [reflexivity|reflexivity|discriminate].
  - split; vm_compute; reflexivity.
Qed.

(** What the checks of a fresh header do when they are reached. *)
Lemma checkHeader_version_mismatch f :
  parserPhase f = ParserReadingData ->
  Major (SplitProtocolVersion (ProtocolVersion (header f))) <> Major CurrentProtocolVersion \/
  Minor (SplitProtocolVersion (ProtocolVersion (header f))) <> Minor CurrentProtocolVersion ->
  checkHeader f = (Panicked "Server is running an unsupported protocol version.", f).
Proof.
  intros Hph Hv. unfold checkHeader. rewrite Hph. cbn [Z.eqb ParserReadingData].
  cbv zeta.
  destruct (Major CurrentProtocolVersion =? Major (SplitProtocolVersion (ProtocolVersion (header f)))) eqn:E1;
  destruct (Minor CurrentProtocolVersion =? Minor (SplitProtocolVersion (ProtocolVersion (header f)))) eqn:E2;
    try reflexivity.
  apply Z.eqb_eq in E1, E2. destruct Hv; congruence.
Qed.

Lemma checkHeader_oversize f :
  parserPhase f = ParserReadingData ->
  Major (SplitProtocolVersion (ProtocolVersion (header f))) = Major CurrentProtocolVersion ->
  Minor (SplitProtocolVersion (ProtocolVersion (header f))) = Minor CurrentProtocolVersion ->
  MaxMessageBodySize < BodySize (header f) ->
  checkHeader f = (Panicked "Server sent more than expected body size.", f).
Proof.
  intros Hph Hmaj Hmin Hsz. unfold checkHeader. rewrite Hph. cbn [Z.eqb ParserReadingData].
  cbv zeta. rewrite Hmaj, Hmin, !Z.eqb_refl. cbn [negb orb].
  apply Z.ltb_lt in Hsz. rewrite Hsz. reflexivity.
Qed.

Lemma checkHeader_allocates f :
  parserPhase f = ParserReadingData ->
  Major (SplitProtocolVersion (ProtocolVersion (header f))) = Major CurrentProtocolVersion ->
  Minor (SplitProtocolVersion (ProtocolVersion (header f))) = Minor CurrentProtocolVersion ->
  BodySize (header f) <= MaxMessageBodySize ->
  checkHeader f
  = (Ok tt, set_bodyBuffer (replicate (Z.to_nat (BodySize (header f))) x00) f).
Proof.
  intros Hph Hmaj Hmin Hsz. unfold checkHeader. rewrite Hph. cbn [Z.eqb ParserReadingData].
  cbv zeta. rewrite Hmaj, Hmin, !Z.eqb_refl. cbn [negb orb].
  apply Z.ltb_ge in Hsz. rewrite Hsz. reflexivity.
Qed.

(** C3 (evaluated on the code): [frameMinor2] carries version 0.2, the
    client is at 0.1. The parser does not panic on it: it never decodes
    the header ([header] keeps its zero value), and does not come back. *)
Theorem C3_minor_mismatch_not_rejected (up : Upstream) (fuel : nat) :
  (exists h, readMessageHeader (take 24 frameMinor2) = Some h /\
             Minor (SplitProtocolVersion (ProtocolVersion h)) = 2 /\
             Minor CurrentProtocolVersion = 1) /\
  exists f',
    parseMessage up fuel frameMinor2 (freshClient up) = (Diverged, f') /\
    header f' = header (freshClient up).
Proof.
  split.
  - eexists. split; [vm_compute; reflexivity|]. split; vm_compute; reflexivity.
  - eexists. split.
    + apply parseMessage_acquiring_spins; [reflexivity|reflexivity|].
      vm_compute; discriminate.
    + vm_compute; reflexivity.
Qed.

(** C4 (evaluated on the code): on a header that declares [2^20 + 1] body
    bytes the parser does not panic and does not come back; and on the
    valid [frame7], whose header declares 8 bytes, no body buffer is
    allocated ([bodyBuffer] stays empty). *)
Theorem C4_oversize_not_rejected (up : Upstream) (fuel : nat) :
  (exists h, readMessageHeader headerOversize = Some h /\
             BodySize h = 2 ^ 20 + 1 /\ MaxMessageBodySize = 2 ^ 20) /\
  (exists f', parseMessage up fuel headerOversize (freshClient up) = (Diverged, f')) /\
  (exists f', parseMessage up fuel frame7 (freshClient up) = (Diverged, f') /\ bodyBuffer f' = []).
Proof.
  split; [|split].
  - eexists. split; [vm_compute; reflexivity|]. split; vm_compute; reflexivity.
  - eexists. apply parseMessage_acquiring_spins; [reflexivity|reflexivity|].
    vm_compute; discriminate.
  - eexists. split.
    + apply parseMessage_acquiring_spins; [reflexivity|reflexivity|].
      vm_compute; discriminate.
    + vm_compute; reflexivity.
Qed.

Lemma wrap32_small z : 0 <= z < 2 ^ 32 -> wrap32 z = z.
Proof. intros H. unfold wrap32. apply Z.mod_small. exact H. Qed.

Lemma copyLoop_ok src : forall dst pos i,
  0 <= pos -> 0 <= i ->
  pos + i + Z.of_nat (length src) <= Z.of_nat (length dst) ->
  Z.of_nat (length dst) < 2 ^ 32 ->
  exists dst', copyLoop dst pos i src = (dst', true) /\ length dst' = length dst.
Proof.
  induction src as [|b src IH]; intros dst pos i Hpos Hi Hfit Hlen.
  - exists dst. split; reflexivity.
  - cbn [copyLoop]. cbn [length] in Hfit.
    rewrite wrap32_small by lia.
    destruct (Z.ltb_spec (i + pos) (Z.of_nat (length dst))) as [_|Hge]; [|lia].
    destruct (IH (<[Z.to_nat (i + pos) := b]> dst) pos (i + 1)) as (dst' & Heq & Hl).
    + lia.
    + lia.
    + rewrite length_insert. lia.
    + rewrite length_insert. lia.
    + exists dst'. rewrite Heq, Hl, length_insert. split; reflexivity.
Qed.

(** A round of the outer loop in the body phase. *)
Lemma parseLoop_reading up k buffer f :
  parserPhase f = ParserReadingData ->
  terminated f = false ->
  buffer <> [] ->
  parseLoop up (S k) buffer f
  = bind (consumed <- parseBody buffer ;;
          b <- reslice consumed buffer ;;
          frameDone up ;;; ret b)
         (fun b2 => parseLoop up k b2) f.
Proof.
  intros Hph Hterm Hne.
  destruct buffer as [|b0 buffer]; [congruence|].
  cbn [parseLoop nonEmpty]. rewrite Hterm. cbn [negb andb].
  unfold bind at 1. rewrite Hph. cbn [Z.eqb ParserAcquiringHeader ParserReadingData].
  unfold bind at 1. rewrite Hph. cbn [Z.eqb ParserReadingData].
  cbn [Pos.eqb]. reflexivity.
Qed.

Lemma min_same a : Client.min a a = a.
Proof. unfold Client.min. rewrite Z.ltb_irrefl. reflexivity. Qed.

(** [parseBody] on a chunk that brings exactly the missing bytes. *)
Lemma parseBody_completes buffer f :
  0 <= parserPosition f < BodySize (header f) ->
  BodySize (header f) < 2 ^ 32 ->
  Z.of_nat (length (bodyBuffer f)) = BodySize (header f) ->
  Z.of_nat (length buffer) = BodySize (header f) - parserPosition f ->
  exists bb,
    length bb = length (bodyBuffer f) /\
    parseBody buffer f
    = (Ok (Z.of_nat (length buffer)),
       set_parserPhase ParserAcquiringHeader
         (set_parserPosition 0
            (set_parserPosition (BodySize (header f)) (set_bodyBuffer bb f)))).
Proof.
  intros Hpos Hsz Hbb Hlen.
  destruct (copyLoop_ok buffer (bodyBuffer f) (parserPosition f) 0) as (bb & Hcopy & Hl);
    [lia|lia|lia|lia|].
  exists bb. split; [exact Hl|].
  unfold parseBody.
  destruct buffer as [|b0 buffer]; [cbn [length] in Hlen; lia|].
  cbn [parseBodyLoop]. cbv beta zeta.
  set (buf := b0 :: buffer) in *.
  assert (HtW : Client.min (wrap32 (BodySize (header f) - parserPosition f)) (len32 buf)
                = Z.of_nat (length buf)).
  { unfold len32. rewrite <- Hlen. rewrite wrap32_small by lia. apply min_same. }
  rewrite HtW. rewrite Nat2Z.id. rewrite firstn_all. rewrite Hcopy.
  cbn [negb].
  destruct f. cbn [set_bodyBuffer set_parserPosition parserPosition header bodyBuffer] in *.
  rewrite Z.add_0_l.
  replace (parserPosition0 + Z.of_nat (length buf)) with (BodySize header0) by lia.
  rewrite !wrap32_small by lia.
  rewrite Z.eqb_refl. reflexivity.
Qed.

(** No handler touches the sequence accounting, and every handler comes back
    or panics. *)
Lemma handleNewMessage_counters up f :
  exists o f',
    handleNewMessage up f = (o, f') /\ o <> Diverged /\
    droppedBuffers f' = droppedBuffers f /\
    lastSequenceNumber f' = lastSequenceNumber f.
Proof.
  unfold handleNewMessage.
  destruct f. cbn [terminated header].
  destruct terminated0; [eexists _, _; repeat split; discriminate|].
  cbv zeta.
  repeat match goal with
         | |- context [if ?a =? ?b then _ else _] => destruct (a =? b)
         end;
    unfold processDeviceInfo, processClientSync, processIQ, processSmartIQ,
      processReadSetting, when, emit, modify, ret;
    cbn [bodyBuffer callback];
    repeat match goal with
           | |- context [match ?x with Some _ => _ | None => _ end] => destruct x
           | |- context [if ?b then _ else _] => destruct b
           end;
    eexists _, _; (split; [reflexivity|split; [discriminate|split; reflexivity]]).
Qed.

Lemma gap_value p g :
  0 <= g < 2 ^ 32 -> wrap32 (wrap32 (p + g + 1) - p - 1) = g.
Proof.
  intros Hg. unfold wrap32.
  replace ((p + g + 1) mod 2 ^ 32 - p - 1) with ((p + g + 1) mod 2 ^ 32 - (p + 1)) by lia.
  rewrite Zminus_mod_idemp_l.
  replace (p + g + 1 - (p + 1)) with g by lia.
  apply Z.mod_small. exact Hg.
Qed.

Lemma frameDone_counters up f :
  parserPhase f = ParserAcquiringHeader ->
  exists o f',
    frameDone up f = (o, f') /\ o <> Diverged /\
    droppedBuffers f'
    = wrap32 (droppedBuffers f
              + wrap32 (PacketNumber (header f) - lastSequenceNumber f - 1)) /\
    lastSequenceNumber f' = PacketNumber (header f).
Proof.
  intros Hph. unfold frameDone. rewrite Hph. cbn [Z.eqb ParserAcquiringHeader].
  cbv zeta. unfold bind, when, emit, modify, ret.
  destruct f. cbn [header lastSequenceNumber droppedBuffers set_lastSequenceNumber
                   set_droppedBuffers set_trace trace].
  match goal with
  | |- context [if ?c then _ else _] => destruct c
  end.
  - match goal with
    | |- context [handleNewMessage up ?x] =>
        destruct (handleNewMessage_counters up x) as (o & f' & -> & Ho & Hd & Hl)
    end.
    exists o, f'. destruct o; (split; [reflexivity|split; [exact Ho|split; assumption]]).
  - match goal with
    | |- context [handleNewMessage up ?x] =>
        destruct (handleNewMessage_counters up x) as (o & f' & -> & Ho & Hd & Hl)
    end.
    exists o, f'. destruct o; (split; [reflexivity|split; [exact Ho|split; assumption]]).
Qed.

(** The completion block of lines 244-257, taken from a client that is
    already in the body phase: when the chunk brings the missing body bytes
    of a frame whose packet number is [p + g + 1] in 32-bit arithmetic, [p]
    being [lastSequenceNumber], the call comes back or stops in the message
    handler, the dropped-buffer counter has grown by exactly [g] and
    [lastSequenceNumber] is the new number. [parseMessage] does not reach
    this phase from the header phase. *)
Lemma completion_accounts_gap up fuel f buffer p g :
  parserPhase f = ParserReadingData ->
  terminated f = false ->
  0 <= parserPosition f < BodySize (header f) ->
  BodySize (header f) < 2 ^ 32 ->
  Z.of_nat (length (bodyBuffer f)) = BodySize (header f) ->
  Z.of_nat (length buffer) = BodySize (header f) - parserPosition f ->
  0 <= p < 2 ^ 32 ->
  0 <= g < 2 ^ 32 ->
  0 <= droppedBuffers f < 2 ^ 32 ->
  lastSequenceNumber f = p ->
  PacketNumber (header f) = wrap32 (p + g + 1) ->
  exists o f',
    parseMessage up (S (S fuel)) buffer f = (o, f') /\ o <> Diverged /\
    droppedBuffers f' = wrap32 (droppedBuffers f + g) /\
    (g = 0 -> droppedBuffers f' = droppedBuffers f) /\
    lastSequenceNumber f' = wrap32 (p + g + 1).
Proof.
  intros Hph Hterm Hpos Hsz Hbb Hlen Hp Hg Hd Hlast Hpkt.
  unfold parseMessage. unfold bind at 1. unfold modify at 1.
  set (f0 := set_downStreamBytes (wrap64 (downStreamBytes f + 1)) f).
  assert (Hne : buffer <> []).
  { destruct buffer; [cbn [length] in Hlen; lia|discriminate]. }
  assert (H0 : parserPhase f0 = parserPhase f /\ terminated f0 = terminated f /\
               parserPosition f0 = parserPosition f /\ header f0 = header f /\
               bodyBuffer f0 = bodyBuffer f /\ droppedBuffers f0 = droppedBuffers f /\
               lastSequenceNumber f0 = lastSequenceNumber f).
  { subst f0. destruct f. repeat split. }
  destruct H0 as (E1 & E2 & E3 & E4 & E5 & E6 & E7).
  rewrite parseLoop_reading by congruence.
  destruct (parseBody_completes buffer f0) as (bb & Hbl & Hpb).
  { rewrite E3, E4. exact Hpos. }
  { rewrite E4. exact Hsz. }
  { rewrite E5, E4. exact Hbb. }
  { rewrite E3, E4. exact Hlen. }
  unfold bind at 1. unfold bind at 1. rewrite Hpb.
  unfold bind at 1. unfold reslice. rewrite Z.ltb_irrefl. unfold ret at 1.
  rewrite Nat2Z.id, skipn_all.
  set (f1 := set_parserPhase _ _).
  assert (H1 : parserPhase f1 = ParserAcquiringHeader /\ header f1 = header f /\
               droppedBuffers f1 = droppedBuffers f /\
               lastSequenceNumber f1 = lastSequenceNumber f).
  { subst f1 f0. destruct f. repeat split. }
  destruct H1 as (F1 & F2 & F3 & F4).
  destruct (frameDone_counters up f1 F1) as (o & f' & Hfd & Ho & Hdr & Hls).
  unfold bind at 1. rewrite Hfd.
  rewrite F2, F3, F4, Hlast, Hpkt, gap_value in Hdr by exact Hg.
  rewrite F2, Hpkt in Hls.
  destruct o as [[]| |]; [| |congruence].
  - exists (Ok tt), f'. unfold ret. cbn [parseLoop nonEmpty andb].
    split; [reflexivity|]. split; [discriminate|]. split; [exact Hdr|].
    split; [|exact Hls].
    intros ->. rewrite Hdr, Z.add_0_r. apply wrap32_small, Hd.
  - exists (Panicked msg), f'.
    split; [reflexivity|]. split; [discriminate|]. split; [exact Hdr|].
    split; [|exact Hls].
    intros ->. rewrite Hdr, Z.add_0_r. apply wrap32_small, Hd.
Qed.

Lemma u8_byte_of_Z z : u8 (byte_of_Z z) = z mod 256.
Proof.
  unfold u8, byte_of_Z.
  pose proof (Z.mod_pos_bound z 256 ltac:(lia)) as Hb.
  destruct (Byte.of_N (Z.to_N (z mod 256))) as [b|] eqn:E.
  - apply Byte.to_of_N in E. rewrite E. lia.
  - apply Byte.of_N_None_iff in E. lia.
Qed.

Lemma le_le_bytes_2 v : le (le_bytes 2 v) = v mod 2 ^ 16.
Proof.
  cbn [le le_bytes]. rewrite !u8_byte_of_Z.
  change (2 ^ 16) with (256 * 256).
  rewrite Z.rem_mul_r by lia. lia.
Qed.

Lemma int16_roundtrip v : - 2 ^ 15 <= v < 2 ^ 15 -> int16 (v mod 2 ^ 16) = v.
Proof.
  intros Hv. unfold int16.
  destruct (Z.lt_ge_cases v 0) as [Hneg|Hpos].
  - replace (v mod 2 ^ 16) with (v + 2 ^ 16)
      by (apply Z.mod_unique with (q := -1); lia).
    destruct (Z.ltb_spec (v + 2 ^ 16) (2 ^ 15)); lia.
  - rewrite Z.mod_small by lia.
    destruct (Z.ltb_spec v (2 ^ 15)); lia.
Qed.

Lemma length_encodeInt16s ints : length (encodeInt16s ints) = (2 * length ints)%nat.
Proof.
  unfold encodeInt16s. induction ints as [|v ints IH]; [reflexivity|].
  cbn [map concat]. rewrite length_app, IH. cbn [le_bytes length]. lia.
Qed.

Lemma le16s_encode k : forall ints,
  (k <= length ints)%nat ->
  Forall (fun v => - 2 ^ 15 <= v < 2 ^ 15) ints ->
  le16s k (encodeInt16s ints) = take k ints.
Proof.
  induction k as [|k IH]; intros ints Hk Hr; [reflexivity|].
  destruct ints as [|v ints]; [cbn [length] in Hk; lia|].
  inversion Hr as [|? ? Hv Hr']; subst.
  cbn [le16s]. unfold encodeInt16s. cbn [map concat].
  change (le_bytes 2 v) with [byte_of_Z v; byte_of_Z (v / 256)].
  cbn [app]. change (take 2 (?a :: ?b :: ?r)) with [a; b].
  change (drop 2 (?a :: ?b :: ?r)) with r.
  change [byte_of_Z v; byte_of_Z (v / 256)] with (le_bytes 2 v).
  rewrite le_le_bytes_2, int16_roundtrip by exact Hv.
  change (take (S k) (v :: ints)) with (v :: take k ints).
  f_equal. apply IH; [cbn [length] in Hk; lia|exact Hr'].
Qed.

Lemma decodeSamples_encoded f ints :
  Forall (fun v => - 2 ^ 15 <= v < 2 ^ 15) ints ->
  bodyBuffer f = encodeInt16s ints ->
  BodySize (header f) = 4 * (Z.of_nat (length ints) / 2) ->
  BodySize (header f) < 2 ^ 32 ->
  Z.of_nat (length (decodeSamples f)) = BodySize (header f) / 4 /\
  forall i : nat, (i < length (decodeSamples f))%nat ->
    decodeSamples f !! i
    = Some {| Real := nth (2 * i) ints 0; Imag := nth (2 * i + 1) ints 0 |}.
Proof.
  intros Hr Hbody Hsz Hlt.
  set (n := Z.of_nat (length ints)) in *.
  assert (Hn : 0 <= n) by (subst n; lia).
  assert (Hh : 0 <= n / 2) by (apply Z.div_pos; lia).
  assert (Hh2 : 2 * (n / 2) <= n) by (apply Z.mul_div_le; lia).
  assert (Hsc : BodySize (header f) / 4 = n / 2).
  { rewrite Hsz. rewrite Z.mul_comm. apply Z.div_mul. lia. }
  unfold decodeSamples. cbv zeta. rewrite Hsc.
  rewrite (wrap32_small (n / 2 * 2)) by lia.
  assert (Htmp : readInt16s (Z.to_nat (n / 2 * 2)) (bodyBuffer f)
                 = take (Z.to_nat (n / 2 * 2)) ints).
  { unfold readInt16s. rewrite Hbody, length_encodeInt16s.
    destruct (Nat.ltb_spec (2 * length ints) (2 * Z.to_nat (n / 2 * 2))) as [Hbad|_];
      [subst n; lia|].
    apply le16s_encode; [subst n; lia|exact Hr]. }
  rewrite Htmp.
  split.
  - rewrite length_map, length_seqZ. lia.
  - intros i Hi. rewrite length_map, length_seqZ in Hi.
    rewrite list_lookup_fmap, lookup_seqZ_lt by lia.
    cbn [fmap option_fmap option_map]. f_equal.
    rewrite !wrap32_small by lia.
    rewrite !nth_firstn.
    destruct (Nat.ltb_spec (Z.to_nat ((0 + Z.of_nat i) * 2)) (Z.to_nat (n / 2 * 2))); [|lia].
    destruct (Nat.ltb_spec (Z.to_nat ((0 + Z.of_nat i) * 2 + 1)) (Z.to_nat (n / 2 * 2))); [|lia].
    f_equal; f_equal; lia.
Qed.

(** C6: for an IQ frame ([smart = false]) or a SmartIQ frame whose body is
    the little-endian bytes of the 16-bit integers [ints], with
    [BodySize = 4 * (n / 2)] for [n] integers, and a callback set, the
    handler calls [OnData] once, with the tag of the stream kind and
    [BodySize / 4] pairs; pair [i] has real part [ints[2i]] and imaginary
    part [ints[2i+1]]. *)
Theorem C6_iq_pairs up f ints (smart : bool) :
  terminated f = false ->
  callback f = true ->
  MessageType (header f) = (if smart then MsgTypeSmartIQ else MsgTypeIQ) ->
  Forall (fun v => - 2 ^ 15 <= v < 2 ^ 15) ints ->
  bodyBuffer f = encodeInt16s ints ->
  BodySize (header f) = 4 * (Z.of_nat (length ints) / 2) ->
  BodySize (header f) < 2 ^ 32 ->
  exists pairs,
    handleNewMessage up f
    = (Ok tt,
       set_trace (trace f ++ [OnData (if smart then SmartSamplesComplex32 up
                                      else SamplesComplex32 up) (Some pairs)]) f) /\
    Z.of_nat (length pairs) = BodySize (header f) / 4 /\
    forall i : nat, (i < length pairs)%nat ->
      pairs !! i = Some {| Real := nth (2 * i) ints 0; Imag := nth (2 * i + 1) ints 0 |}.
Proof.
  intros Hterm Hcb Hmt Hr Hbody Hsz Hlt.
  exists (decodeSamples f). split.
  - unfold handleNewMessage. rewrite Hterm. cbv zeta. rewrite Hmt.
    destruct smart; cbn [Z.eqb Pos.eqb MsgTypeIQ MsgTypeSmartIQ MsgTypeDeviceInfo
                           MsgTypeClientSync MsgTypeReadSetting];
      unfold processIQ, processSmartIQ, when, emit, modify; rewrite Hcb; reflexivity.
  - apply decodeSamples_encoded; assumption.
Qed.

Ltac crunch :=
  vm_compute; repeat split; try reflexivity; try discriminate; try (intro; discriminate).

(** The completion block at [reading7]: the client was reset, so [p] is
    [2^32 - 1]; the frame carries packet number 7, so [g = 7] and
    [p + g + 1] wraps to 7. *)
Example completion_accounts_gap_reading7 :
  lastSequenceNumber reading7 = 4294967295 /\
  PacketNumber (header reading7) = 7 /\
  exists o f',
    parseMessage up0 2 body8 reading7 = (o, f') /\ o <> Diverged /\
    droppedBuffers f' = wrap32 (droppedBuffers reading7 + 7) /\
    (7 = 0 -> droppedBuffers f' = droppedBuffers reading7) /\
    lastSequenceNumber f' = wrap32 (4294967295 + 7 + 1).
Proof.
  split; [vm_compute; reflexivity|].
  split; [vm_compute; reflexivity|].
  apply (completion_accounts_gap up0 0%nat reading7 body8 4294967295 7); crunch.
Qed.

Lemma iqFrame_nonempty packet body : iqFrame packet body <> [].
Proof. unfold iqFrame, writeMessageHeader. cbn [le_bytes app]. discriminate. Qed.

Lemma wrap32_add_ne d g :
  0 <= d < 2 ^ 32 -> 0 < g < 2 ^ 32 -> wrap32 (d + g) <> d.
Proof.
  intros Hd Hg. unfold wrap32. intros H.
  destruct (Z_lt_ge_dec (d + g) (2 ^ 32)) as [Hlt|Hge].
  - rewrite Z.mod_small in H by lia. lia.
  - replace (d + g) with (d + g - 2 ^ 32 + 1 * 2 ^ 32) in H by lia.
    rewrite Z.mod_add in H by lia. rewrite Z.mod_small in H by lia. lia.
Qed.

(** C5 (evaluated on the code): two frames with packet numbers [p] and
    [p + g + 1] sent to a freshly connected client are never completed: the
    parser does not return from the first chunk, [lastSequenceNumber] stays
    at the reset value and the dropped-buffer counter at 0. The same holds
    between any two frames: from every running client in the header phase,
    which is where a completed frame leaves it, with [lastSequenceNumber]
    at [p], the frame numbered [p + g + 1] makes [parseMessage] spin, for
    every fuel; [lastSequenceNumber] stays [p] and is not the newer number,
    and the dropped-buffer counter is unchanged, so it has not grown by
    [g] when [g > 0]. *)
Theorem C5_gap_never_accounted up fuel f p g body :
  parserPhase f = ParserAcquiringHeader ->
  terminated f = false ->
  lastSequenceNumber f = p ->
  0 <= p < 2 ^ 32 ->
  0 <= g < 2 ^ 32 - 1 ->
  0 <= droppedBuffers f < 2 ^ 32 ->
  let first := iqFrame p body in
  let next := iqFrame (wrap32 (p + g + 1)) body in
  (feed up fuel [first; next] (freshClient up)
   = (Diverged, set_downStreamBytes 1 (freshClient up)) /\
   lastSequenceNumber (set_downStreamBytes 1 (freshClient up)) = 4294967295 /\
   droppedBuffers (set_downStreamBytes 1 (freshClient up)) = 0) /\
  exists f',
    parseMessage up fuel next f = (Diverged, f') /\
    parserPhase f' = ParserAcquiringHeader /\
    trace f' = trace f /\
    lastSequenceNumber f' = p /\
    lastSequenceNumber f' <> wrap32 (p + g + 1) /\
    droppedBuffers f' = droppedBuffers f /\
    (0 < g -> droppedBuffers f' <> wrap32 (droppedBuffers f + g)).
Proof.
  intros Hph Hterm Hlast Hp Hg Hd first next.
  split.
  - split; [apply freshClient_spins, iqFrame_nonempty|].
    split; reflexivity.
  - exists (set_downStreamBytes (wrap64 (downStreamBytes f + 1)) f).
    split; [apply parseMessage_acquiring_spins;
            [exact Hph|exact Hterm|apply iqFrame_nonempty]|].
    assert (Hw : wrap32 (p + g + 1) <> p).
    { replace (p + g + 1) with (p + (g + 1)) by lia. apply wrap32_add_ne; lia. }
    destruct f; cbn in *. subst.
    repeat split; try reflexivity; try assumption.
    + intros H. apply Hw. symmetry. exact H.
    + intros Hg0 H. apply (wrap32_add_ne droppedBuffers0 g); [lia|lia|].
      symmetry. exact H.
Qed.

(** C5 at the freshly connected client of [up0]: [p] is the reset value
    [2^32 - 1] and the frame carries packet number 7, a gap of 7; its
    header is well formed, and neither counter moves. *)
Lemma C5_gap_never_accounted_witness :
  readMessageHeader (take 24 (iqFrame 7 body8)) = Some (iqHeader 7 localVersion 8) /\
  exists f',
    parseMessage up0 5 (iqFrame (wrap32 (4294967295 + 7 + 1)) body8) (freshClient up0)
    = (Diverged, f') /\
    lastSequenceNumber f' = 4294967295 /\
    droppedBuffers f' = 0.
Proof.
  split; [vm_compute; reflexivity|].
  destruct (C5_gap_never_accounted up0 5%nat (freshClient up0) 4294967295 7 body8)
    as (_ & f' & H1 & _ & _ & H4 & _ & H6 & _);
    [reflexivity|reflexivity|reflexivity|lia|lia
    |vm_compute; split; [discriminate|reflexivity]|].
  exists f'. split; [exact H1|]. split; [exact H4|exact H6].
Defined.

(** With the guard of the specification in the header loop, frames with a
    body are accounted, but a header-only frame is not: it never enters
    the body phase, and the accounting of lines 248-256 sits inside the
    body branch. After packets 0 and 5 (header-only) the counter is 0 and
    [lastSequenceNumber] is 0; packets 0, 1 (header-only), 2 count one
    lost buffer though none is missing. *)
Example spec_guard_skips_header_only :
  let f1 := snd (feed_spec up0 4 [iqFrame 0 body8; iqFrame 5 []] (freshClient up0)) in
  let f2 := snd (feed_spec up0 4 [iqFrame 0 body8; iqFrame 1 []; iqFrame 2 body8]
                   (freshClient up0)) in
  fst (feed_spec up0 4 [iqFrame 0 body8; iqFrame 5 []] (freshClient up0)) = Ok tt /\
  lastSequenceNumber f1 = 0 /\ droppedBuffers f1 = 0 /\
  fst (feed_spec up0 4 [iqFrame 0 body8; iqFrame 1 []; iqFrame 2 body8] (freshClient up0))
  = Ok tt /\
  lastSequenceNumber f2 = 2 /\ droppedBuffers f2 = 1.
Proof. vm_compute. repeat split; reflexivity. Qed.

(** C6 at [iq1024]: 2048 integers, 4096 body bytes, 1024 pairs. *)
Lemma C6_iq_pairs_witness :
  BodySize (header iq1024) = 4096 /\
  exists pairs,
    handleNewMessage up0 iq1024
    = (Ok tt, set_trace (trace iq1024 ++ [OnData (SamplesComplex32 up0) (Some pairs)]) iq1024) /\
    Z.of_nat (length pairs) = BodySize (header iq1024) / 4 /\
    forall i : nat, (i < length pairs)%nat ->
      pairs !! i
      = Some {| Real := nth (2 * i) ints2048 0; Imag := nth (2 * i + 1) ints2048 0 |}.
Proof.
  split; [vm_compute; reflexivity|].
  apply (C6_iq_pairs up0 iq1024 ints2048 false).
  - vm_compute; reflexivity.
  - vm_compute; reflexivity.
  - vm_compute; reflexivity.
  - apply Stdlib.Lists.List.Forall_forall. intros v Hv. unfold ints2048 in Hv.
    apply in_map_iff in Hv as (i & <- & Hi).
    apply (proj2 (list_elem_of_In _ _)), elem_of_seqZ in Hi. lia.
  - reflexivity.
  - vm_compute; reflexivity.
  - vm_compute; reflexivity.
Defined.

End ClientFacts.

(** * Properties of the session registry and of the streaming pipeline *)

Module ServerFacts.
Import Server Inputs.

Lemma added_app rs rs' new : events rs' = events rs ++ new -> added rs rs' = new.
Proof. intros H. unfold added. rewrite H. apply drop_app_length. Qed.

Lemma count_app P tr1 tr2 : count P (tr1 ++ tr2) = (count P tr1 + count P tr2)%nat.
Proof. induction tr1 as [|e tr1 IH]; [reflexivity|]. cbn [app count]. rewrite IH. lia. Qed.

(** The events of [Destroy] and of [Tune]. *)
Lemma Destroy_trace token rs :
  sessionLock rs = false ->
  events (snd (Destroy token rs))
  = events rs ++
    match sessions rs !! token with
    | None => [EvLock; EvMapGet token; EvUnlock]
    | Some p => [EvLock; EvMapGet token; EvMapDelete token; EvFullStop p; EvUnlock]
    end.
Proof.
  intros Hl. destruct rs as [m h l ev]. cbn [sessionLock] in Hl. subst l.
  unfold Destroy, Lock. cbn [sessionLock]. unfold mapGet. cbn [sessions log setLock store events].
  destruct (m !! token) as [p|]; cbn; rewrite <- ?app_assoc; reflexivity.
Qed.

Lemma Destroy_guarded token rs : guarded (added rs (snd (Destroy token rs))) = true.
Proof.
  destruct (sessionLock rs) eqn:Hl.
  - unfold Destroy, Lock. rewrite Hl. cbn [snd]. unfold added.
    rewrite drop_all. reflexivity.
  - rewrite (added_app _ _ _ (Destroy_trace token rs Hl)).
    destruct (sessions rs !! token); reflexivity.
Qed.

Lemma Provision_guarded gen d rs : guarded (added rs (snd (Provision gen d rs))) = true.
Proof.
  destruct (sessionLock rs) eqn:Hl.
  - unfold Provision, Lock. rewrite Hl. cbn [snd]. unfold added.
    rewrite drop_all. reflexivity.
  - erewrite added_app.
    2:{ destruct rs as [m h l ev]. cbn [sessionLock] in Hl. subst l.
        unfold Provision, Lock. cbn [sessionLock].
        instantiate (1 := match gen d with
                          | None => [EvLock; EvUnlock]
                          | Some s => [EvLock; EvMapSet (ID s); EvUnlock]
                          end).
        destruct (gen d); cbn; rewrite <- ?app_assoc; reflexivity. }
    destruct (gen d); reflexivity.
Qed.

Lemma Tune_trace token cfg rs :
  events (snd (Tune token cfg rs))
  = events rs ++
    match sessions rs !! token with
    | None => [EvMapGet token]
    | Some p => [EvMapGet token; EvTuneFrontend p cfg]
    end.
Proof.
  destruct rs as [m h l ev]. unfold Tune, mapGet. cbn [sessions].
  destruct (m !! token) as [p|]; cbn; rewrite <- ?app_assoc; reflexivity.
Qed.

Lemma Tune_unguarded token cfg rs : guarded (added rs (snd (Tune token cfg rs))) = false.
Proof.
  rewrite (added_app _ _ _ (Tune_trace token cfg rs)).
  destruct (sessions rs !! token); reflexivity.
Qed.

Lemma count_none P tr : Forall (fun e => P e = false) tr -> count P tr = 0%nat.
Proof.
  induction 1 as [|e tr He _ IH]; [reflexivity|].
  cbn [count]. rewrite He, IH. reflexivity.
Qed.

(** The delivery loop only sends and refreshes: it leaves the map alone. *)
Lemma deliver_trace p : forall script rs,
  exists new,
    events (snd (deliver p script rs)) = events rs ++ new /\
    sessions (snd (deliver p script rs)) = sessions rs /\
    Forall (fun e => isStreamEvent e = true) new.
Proof.
  induction script as [|t script IH]; intros rs.
  - exists []. cbn. rewrite app_nil_r. auto.
  - destruct t as [|samples [err|] expired]; cbn [deliver].
    + apply IH.
    + exists [EvSend p samples]. cbn. auto.
    + destruct expired.
      * exists [EvSend p samples; EvKeepAlive p]. cbn. rewrite <- app_assoc. auto.
      * destruct (IH (KeepAlive p (log (EvSend p samples) rs))) as (new & He & Hs & Hf).
        exists (EvSend p samples :: EvKeepAlive p :: new).
        rewrite He, Hs. cbn. rewrite <- !app_assoc. auto.
Qed.

Lemma deliver_result p : forall script rs,
  fst (deliver p script rs) = Running \/ exists msg, fst (deliver p script rs) = Error msg.
Proof.
  induction script as [|t script IH]; intros rs; [left; reflexivity|].
  destruct t as [|samples [err|] expired]; cbn [deliver].
  - apply IH.
  - right. eexists. reflexivity.
  - destruct expired; [right; eexists; reflexivity|apply IH].
Qed.

Lemma deliver_push_failure p samples err expired post : forall pre rs,
  forallb quiet pre = true ->
  fst (deliver p (pre ++ Buffer samples (Some err) expired :: post) rs) = Error err.
Proof.
  induction pre as [|t pre IH]; intros rs Hq; [reflexivity|].
  cbn [forallb] in Hq. apply andb_true_iff in Hq as [Ht Hq].
  destruct t as [|s [e|] [|]]; try discriminate; cbn [app deliver]; apply IH, Hq.
Qed.

Lemma deliver_expired p samples post : forall pre rs,
  forallb quiet pre = true ->
  fst (deliver p (pre ++ Buffer samples None true :: post) rs) = Error "session expired".
Proof.
  induction pre as [|t pre IH]; intros rs Hq; [reflexivity|].
  cbn [forallb] in Hq. apply andb_true_iff in Hq as [Ht Hq].
  destruct t as [|s [e|] [|]]; try discriminate; cbn [app deliver]; apply IH, Hq.
Qed.

Lemma RXIQ_returns token script rs p :
  sessions rs !! token = Some p ->
  IQRunning p rs = false ->
  fst (RXIQ token script rs) = fst (deliver p script (StartIQ p (log (EvMapGet token) rs))).
Proof.
  intros Hs Hr. unfold RXIQ, mapGet. rewrite Hs.
  change (IQRunning p (log (EvMapGet token) rs)) with (IQRunning p rs). rewrite Hr.
  destruct (deliver p script _) as [[] ?]; reflexivity.
Qed.

Lemma RXIQ_cleanup token script rs p :
  sessions rs !! token = Some p ->
  IQRunning p rs = false ->
  fst (RXIQ token script rs) <> Running ->
  sessions (snd (RXIQ token script rs)) = delete token (sessions rs) /\
  count (isFullStop p) (added rs (snd (RXIQ token script rs))) = 1%nat /\
  count (isDelete token) (added rs (snd (RXIQ token script rs))) = 1%nat.
Proof.
  intros Hs Hr Hret.
  pose proof (RXIQ_returns token script rs p Hs Hr) as Hfst.
  destruct (deliver_trace p script (StartIQ p (log (EvMapGet token) rs)))
    as (new & He & Hss & Hf).
  assert (Hev : events (snd (RXIQ token script rs))
                = events rs ++ [EvMapGet token; EvStartIQ p] ++ new
                  ++ [EvFullStop p; EvMapDelete token] /\
                sessions (snd (RXIQ token script rs)) = delete token (sessions rs)).
  { revert Hret Hfst. unfold RXIQ, mapGet. rewrite Hs.
    change (IQRunning p (log (EvMapGet token) rs)) with (IQRunning p rs). rewrite Hr.
    destruct (deliver p script _) as [r rs3]. cbn [fst snd] in *.
    intros Hret Hfst.
    destruct r; cbn [fst snd] in *; try congruence;
      (split; [cbn; rewrite He; cbn; rewrite <- !app_assoc; reflexivity
              |cbn; rewrite Hss; reflexivity]). }
  destruct Hev as [Hev Hsess]. split; [exact Hsess|].
  rewrite (added_app _ _ _ Hev).
  rewrite !count_app.
  rewrite (count_none (isFullStop p) new), (count_none (isDelete token) new).
  - cbn [count app isFullStop isDelete]. rewrite Pos.eqb_refl, String.eqb_refl.
    split; reflexivity.
  - eapply Forall_impl; [exact Hf|]. intros [] Hse; cbn in Hse |- *; congruence.
  - eapply Forall_impl; [exact Hf|]. intros [] Hse; cbn in Hse |- *; congruence.
Qed.

Lemma RXIQ_first_access token script rs :
  exists tr, events (snd (RXIQ token script rs)) = events rs ++ EvMapGet token :: tr.
Proof.
  unfold RXIQ, mapGet.
  destruct (sessions rs !! token) as [p|]; [|exists []; reflexivity].
  change (IQRunning p (log (EvMapGet token) rs)) with (IQRunning p rs).
  destruct (IQRunning p rs); [exists []; reflexivity|].
  destruct (deliver_trace p script (StartIQ p (log (EvMapGet token) rs)))
    as (new & He & _ & _).
  destruct (deliver p script _) as [r rs3]. cbn [snd] in He.
  destruct r; cbn [snd]; eexists; cbn; rewrite He; cbn; rewrite <- ?app_assoc;
    cbn; reflexivity.
Qed.

Lemma RXIQ_unguarded token script rs :
  guarded (added rs (snd (RXIQ token script rs))) = false.
Proof.
  destruct (RXIQ_first_access token script rs) as (tr & He).
  rewrite (added_app _ _ _ He). reflexivity.
Qed.

(** C7 (evaluated on the code): [Provision] and [Destroy] reach the session
    map between [Lock] and [Unlock], whatever their arguments. [Tune] and
    [RXIQ] never do: for every token and every server their first event is
    a read of the map with no lock taken. *)
Theorem C7_map_access_outside_lock :
  (forall gen d rs, guarded (added rs (snd (Provision gen d rs))) = true) /\
  (forall token rs, guarded (added rs (snd (Destroy token rs))) = true) /\
  (forall token cfg rs, guarded (added rs (snd (Tune token cfg rs))) = false) /\
  (forall token script rs, guarded (added rs (snd (RXIQ token script rs))) = false) /\
  added server1 (snd (Tune "tok" config0 server1))
  = [EvMapGet "tok"; EvTuneFrontend 1%positive config0].
Proof.
  split; [exact Provision_guarded|].
  split; [exact Destroy_guarded|].
  split; [exact Tune_unguarded|].
  split; [exact RXIQ_unguarded|].
  vm_compute. reflexivity.
Qed.

(** C8: with the lock free, [Destroy] of a token that has no entry returns
    an error and leaves the map and the sessions as they were, with no full
    stop; [Tune] of such a token returns an error, changes neither and
    forwards nothing; [Destroy] of a token bound to session [p] returns,
    the map is the old one without that token, and [p] is fully stopped
    once. *)
Theorem C8_unknown_and_known_token token cfg rs :
  sessionLock rs = false ->
  (sessions rs !! token = None ->
   (fst (Destroy token rs) = Error "session doesn't exist" /\
    sessions (snd (Destroy token rs)) = sessions rs /\
    store (snd (Destroy token rs)) = store rs /\
    count isAnyFullStop (added rs (snd (Destroy token rs))) = 0%nat) /\
   (fst (Tune token cfg rs) = Error "session doesn't exist" /\
    sessions (snd (Tune token cfg rs)) = sessions rs /\
    store (snd (Tune token cfg rs)) = store rs /\
    count isTune (added rs (snd (Tune token cfg rs))) = 0%nat)) /\
  (forall p, sessions rs !! token = Some p ->
   fst (Destroy token rs) = Return tt /\
   sessions (snd (Destroy token rs)) = delete token (sessions rs) /\
   store (snd (Destroy token rs)) !! p
   = (fun s => {| ID := ID s; iqRunning := false; fullStopped := true;
                  boundConfig := boundConfig s; keepAlives := keepAlives s |})
     <$> store rs !! p /\
   count (isFullStop p) (added rs (snd (Destroy token rs))) = 1%nat /\
   count isAnyFullStop (added rs (snd (Destroy token rs))) = 1%nat).
Proof.
  intros Hl. split.
  - intros Hnone. split.
    + rewrite (added_app _ _ _ (Destroy_trace token rs Hl)).
      unfold Destroy, Lock, mapGet. rewrite Hl. cbn [sessions log setLock].
      rewrite Hnone. cbn. auto.
    + rewrite (added_app _ _ _ (Tune_trace token cfg rs)).
      unfold Tune, mapGet. rewrite Hnone. cbn. auto.
  - intros p Hsome.
    rewrite (added_app _ _ _ (Destroy_trace token rs Hl)).
    unfold Destroy, Lock, mapGet. rewrite Hl. cbn [sessions log setLock].
    rewrite Hsome. cbn. rewrite Pos.eqb_refl.
    split; [reflexivity|]. split; [reflexivity|].
    split; [apply lookup_alter_eq|]. split; reflexivity.
Qed.

(** C8 at [server1]: "nope" has no entry, "tok" is bound to session 1. *)
Lemma C8_unknown_and_known_token_witness :
  Destroy "nope" server1
  = (Error "session doesn't exist",
     Unlock (log (EvMapGet "nope") (log EvLock (setLock true server1)))) /\
  fst (Tune "nope" config0 server1) = Error "session doesn't exist" /\
  fst (Destroy "tok" server1) = Return tt /\
  sessions (snd (Destroy "tok" server1)) = delete "tok" (sessions server1) /\
  count (isFullStop 1%positive) (added server1 (snd (Destroy "tok" server1))) = 1%nat.
Proof.
  pose proof (C8_unknown_and_known_token "nope" config0 server1 eq_refl) as [Hu _].
  pose proof (C8_unknown_and_known_token "tok" config0 server1 eq_refl) as [_ Hk].
  specialize (Hu ltac:(vm_compute; reflexivity)).
  specialize (Hk 1%positive ltac:(vm_compute; reflexivity)).
  destruct Hu as [_ (Ht & _)]. destruct Hk as (Hd1 & Hd2 & _ & Hd3 & _).
  split; [vm_compute; reflexivity|].
  split; [exact Ht|]. split; [exact Hd1|]. split; [exact Hd2|exact Hd3].
Defined.

(** C9: a stream attached to session [p] of [token], the session not
    already streaming. When [RXIQ] returns, whatever the observations, it
    returns an error, the token is gone from the map, and the trace of the
    call holds one full stop of [p] and one delete of the token. It does
    return, with the transport's error, at the first failed push, and with
    "session expired" at the first buffer after which the session is found
    fully stopped. *)
Theorem C9_cleanup_on_every_return token script rs p :
  sessions rs !! token = Some p ->
  IQRunning p rs = false ->
  (fst (RXIQ token script rs) <> Running ->
   (exists msg, fst (RXIQ token script rs) = Error msg) /\
   sessions (snd (RXIQ token script rs)) = delete token (sessions rs) /\
   count (isFullStop p) (added rs (snd (RXIQ token script rs))) = 1%nat /\
   count (isDelete token) (added rs (snd (RXIQ token script rs))) = 1%nat) /\
  (forall pre samples err expired post,
     forallb quiet pre = true ->
     script = pre ++ Buffer samples (Some err) expired :: post ->
     fst (RXIQ token script rs) = Error err) /\
  (forall pre samples post,
     forallb quiet pre = true ->
     script = pre ++ Buffer samples None true :: post ->
     fst (RXIQ token script rs) = Error "session expired").
Proof.
  intros Hs Hr.
  pose proof (RXIQ_returns token script rs p Hs Hr) as Hfst.
  split; [|split].
  - intros Hret. split.
    + rewrite Hfst in Hret |- *.
      destruct (deliver_result p script (StartIQ p (log (EvMapGet token) rs)));
        [contradiction|assumption].
    + apply RXIQ_cleanup; assumption.
  - intros pre samples err expired post Hq ->. rewrite Hfst.
    apply deliver_push_failure, Hq.
  - intros pre samples post Hq ->. rewrite Hfst.
    apply deliver_expired, Hq.
Qed.

(** C9 at [server1] and [script1]: the second buffer fails to go out. *)
Lemma C9_cleanup_on_every_return_witness :
  fst (RXIQ "tok" script1 server1) = Error "broken pipe" /\
  sessions (snd (RXIQ "tok" script1 server1)) = delete "tok" (sessions server1) /\
  count (isFullStop 1%positive) (added server1 (snd (RXIQ "tok" script1 server1))) = 1%nat /\
  count (isDelete "tok") (added server1 (snd (RXIQ "tok" script1 server1))) = 1%nat.
Proof.
  pose proof (C9_cleanup_on_every_return "tok" script1 server1 1%positive
                ltac:(vm_compute; reflexivity) ltac:(vm_compute; reflexivity))
    as (Hc & Hpush & _).
  assert (He : fst (RXIQ "tok" script1 server1) = Error "broken pipe").
  { apply (Hpush [Idle; Buffer [(1, 2)] None false] [(3, 4)] "broken pipe" false []);
      reflexivity. }
  split; [exact He|].
  apply Hc. rewrite He. discriminate.
Defined.

Lemma RXIQ_unknown_token_faults token script rs :
  sessions rs !! token = None ->
  RXIQ token script rs
  = (Fault "invalid memory address or nil pointer dereference", log (EvMapGet token) rs).
Proof.
  intros Hnone. unfold RXIQ, mapGet. rewrite Hnone. reflexivity.
Qed.

(** C10 (evaluated on the code): on a registry with no entry, [RXIQ] with
    any token dereferences the [nil] session and faults; it does not
    return an error. [Tune] and [Destroy] do return "session doesn't
    exist" for the same token. *)
Theorem C10_unknown_token_faults token script cfg :
  RXIQ token script emptyServer
  = (Fault "invalid memory address or nil pointer dereference",
     log (EvMapGet token) emptyServer) /\
  fst (Tune token cfg emptyServer) = Error "session doesn't exist" /\
  fst (Destroy token emptyServer) = Error "session doesn't exist".
Proof.
  assert (Hnone : sessions emptyServer !! token = None) by apply lookup_empty.
  split; [apply RXIQ_unknown_token_faults, Hnone|].
  split.
  - unfold Tune, mapGet. rewrite Hnone. reflexivity.
  - unfold Destroy, Lock, mapGet. cbn [sessionLock emptyServer sessions log setLock].
    rewrite lookup_empty. reflexivity.
Qed.


End ServerFacts.

(** * Further properties

    ** protocol.go: version packing and the setting tables *)

Module ProtocolFacts.
Import Protocol.

Lemma land_shiftl_low a b k :
  0 <= k -> 0 <= a < 2 ^ k -> Z.land (Z.shiftl b k) a = 0.
Proof.
  intros Hk Ha. apply Z.bits_inj'. intros n Hn.
  rewrite Z.land_spec, Z.bits_0.
  destruct (Z.lt_ge_cases n k) as [Hlt|Hge].
  - rewrite Z.shiftl_spec_low by exact Hlt. reflexivity.
  - destruct (Z.eq_dec a 0) as [->|Hnz].
    + rewrite Z.bits_0. apply andb_false_r.
    + rewrite (Z.bits_above_log2 a n); [apply andb_false_r|lia|].
      apply Z.lt_le_trans with k; [|exact Hge].
      apply Z.log2_lt_pow2; lia.
Qed.

Lemma lor_shiftl_add a b k :
  0 <= k -> 0 <= a < 2 ^ k -> Z.lor (Z.shiftl b k) a = b * 2 ^ k + a.
Proof.
  intros Hk Ha.
  rewrite <- Z.lxor_lor by (apply land_shiftl_low; assumption).
  rewrite <- Z.add_nocarry_lxor by (apply land_shiftl_low; assumption).
  rewrite Z.shiftl_mul_pow2 by exact Hk. reflexivity.
Qed.

Lemma GenProtocolVersion_value v :
  0 <= Major v < 256 -> 0 <= Minor v < 256 -> 0 <= Hash v < 2 ^ 32 ->
  GenProtocolVersion v = Major v * 2 ^ 40 + Minor v * 2 ^ 32 + Hash v.
Proof.
  intros HM Hm Hh. unfold GenProtocolVersion, wrap64.
  rewrite (Z.shiftl_mul_pow2 (Major v) 40), (Z.shiftl_mul_pow2 (Minor v) 32) by lia.
  rewrite (Z.mod_small (Major v * 2 ^ 40)), (Z.mod_small (Minor v * 2 ^ 32)) by lia.
  replace (Major v * 2 ^ 40) with (Z.shiftl (Z.shiftl (Major v) 8) 32)
    by (rewrite !Z.shiftl_mul_pow2 by lia; lia).
  rewrite <- (Z.shiftl_mul_pow2 (Minor v) 32) by lia.
  rewrite <- Z.shiftl_lor.
  rewrite (lor_shiftl_add (Minor v) (Major v) 8) by lia.
  rewrite lor_shiftl_add by lia.
  rewrite Z.mod_small by lia. rewrite !Z.shiftl_mul_pow2 by lia. lia.
Qed.

Lemma SplitProtocolVersion_value p :
  SplitProtocolVersion p
  = {| Major := (p / 2 ^ 40) mod 256; Minor := (p / 2 ^ 32) mod 256; Hash := p mod 2 ^ 32 |}.
Proof.
  unfold SplitProtocolVersion, wrap32.
  rewrite !Z.shiftr_land.
  change (Z.shiftr (Z.shiftl 255 40) 40) with (Z.ones 8).
  change (Z.shiftr (Z.shiftl 255 32) 32) with (Z.ones 8).
  change 255 with (Z.ones 8). change 4294967295 with (Z.ones 32).
  rewrite !Z.land_ones by lia. rewrite !Z.shiftr_div_pow2 by lia.
  change (2 ^ 8) with 256.
  rewrite !Z.mod_mod by lia.
  f_equal.
  - apply Z.mod_small. pose proof (Z.mod_pos_bound (p / 2 ^ 40) 256). lia.
  - apply Z.mod_small. pose proof (Z.mod_pos_bound (p / 2 ^ 32) 256). lia.
Qed.

Lemma Split_Gen v :
  0 <= Major v < 256 -> 0 <= Minor v < 256 -> 0 <= Hash v < 2 ^ 32 ->
  SplitProtocolVersion (GenProtocolVersion v) = v.
Proof.
  intros HM Hm Hh.
  rewrite SplitProtocolVersion_value, GenProtocolVersion_value by assumption.
  destruct v as [M m h]. cbn [Major Minor Hash] in *.
  f_equal.
  - replace (M * 2 ^ 40 + m * 2 ^ 32 + h) with (M * 2 ^ 40 + (m * 2 ^ 32 + h)) by lia.
    rewrite Z.div_add_l by lia. rewrite (Z.div_small (m * 2 ^ 32 + h)) by lia.
    rewrite Z.add_0_r. apply Z.mod_small. lia.
  - replace (M * 2 ^ 40 + m * 2 ^ 32 + h) with ((M * 256 + m) * 2 ^ 32 + h) by lia.
    rewrite Z.div_add_l by lia. rewrite (Z.div_small h) by lia.
    rewrite Z.add_0_r. rewrite Z.add_comm, Z.mod_add by lia. apply Z.mod_small. lia.
  - replace (M * 2 ^ 40 + m * 2 ^ 32 + h) with (h + (M * 256 + m) * 2 ^ 32) by lia.
    rewrite Z.mod_add by lia. apply Z.mod_small. lia.
Qed.

(** X1. [SplitProtocolVersion] undoes [GenProtocolVersion] on every version whose
    major and minor fit 8 bits and whose hash fits 32 bits. *)
Theorem version_round_trip v :
  0 <= Major v < 256 -> 0 <= Minor v < 256 -> 0 <= Hash v < 2 ^ 32 ->
  SplitProtocolVersion (GenProtocolVersion v) = v.
Proof. exact (Split_Gen v). Qed.

Lemma version_round_trip_witness :
  SplitProtocolVersion (GenProtocolVersion {| Major := 3; Minor := 7; Hash := 3735928559 |})
  = {| Major := 3; Minor := 7; Hash := 3735928559 |}.
Proof. apply version_round_trip; cbn [Major Minor Hash]; lia. Defined.

(** X2. Whatever 64-bit (or other) value comes in, [SplitProtocolVersion] gives a
    major and a minor below 256 and a hash below [2^32]. *)
Theorem SplitProtocolVersion_bounds p :
  0 <= Major (SplitProtocolVersion p) < 256 /\
  0 <= Minor (SplitProtocolVersion p) < 256 /\
  0 <= Hash (SplitProtocolVersion p) < 2 ^ 32.
Proof.
  rewrite SplitProtocolVersion_value. cbn [Major Minor Hash].
  split; [apply Z.mod_pos_bound; lia|].
  split; apply Z.mod_pos_bound; lia.
Qed.

(** X3. The setting tables agree: a setting is possible exactly when it is one of
    the eight identifiers 0..7, which is exactly when it has a name; only
    [SettingGains] affects all clients, and it is possible. *)
Theorem settings_tables s :
  (IsSettingPossible s = true <-> 0 <= s <= 7) /\
  (IsSettingPossible s = true <-> is_Some (SettingNames !! s)) /\
  (SettingAffectsGlobal s = true <-> s = SettingGains) /\
  (SettingAffectsGlobal s = true -> IsSettingPossible s = true).
Proof.
  assert (H1 : IsSettingPossible s = true <-> 0 <= s <= 7).
  { unfold IsSettingPossible, PossibleSettings. cbn [rangeFinds].
    unfold SettingStreamingMode, SettingStreamingEnabled, SettingGains, SettingDigitalGain,
      SettingIqFrequency, SettingIqDecimation, SettingSmartFrequency, SettingSmartDecimation.
    repeat match goal with
           | |- context [s =? ?k] => destruct (Z.eqb_spec s k)
           end; split; intros; (lia || congruence). }
  assert (H2 : is_Some (SettingNames !! s) <-> 0 <= s <= 7).
  { unfold SettingNames. cbn [list_to_map foldr fst snd].
    unfold SettingStreamingMode, SettingStreamingEnabled, SettingGains, SettingDigitalGain,
      SettingIqFrequency, SettingIqDecimation, SettingSmartFrequency, SettingSmartDecimation.
    rewrite !lookup_insert_is_Some', lookup_empty. split.
    - intros H. repeat (destruct H as [H|H]; [lia|]). destruct H as [? H]. discriminate.
    - intros H. assert (s = 0 \/ s = 1 \/ s = 2 \/ s = 5 \/ s = 3 \/ s = 4 \/ s = 6 \/ s = 7) by lia.
      intuition (subst; auto). }
  assert (H3 : SettingAffectsGlobal s = true <-> s = SettingGains).
  { unfold SettingAffectsGlobal, GlobalAffectedSettings. cbn [rangeFinds].
    destruct (Z.eqb_spec s SettingGains); split; intros; congruence. }
  split; [exact H1|]. split; [rewrite H1, H2; reflexivity|]. split; [exact H3|].
  intros H. apply H3 in H. apply H1. unfold SettingGains in H. lia.
Qed.

End ProtocolFacts.


(** ** radioclient.go: [parseHeader], [parseBody] and the body phase of
    [parseMessage] *)

Module ParserFacts.
Import Protocol Client Inputs ClientFacts ProtocolFacts.

Lemma length_splice dst k src :
  (k + length src <= length dst)%nat -> length (splice dst k src) = length dst.
Proof.
  intros H. unfold splice. rewrite !length_app, length_take, length_drop. lia.
Qed.

Lemma splice_splice dst k a b :
  (k + length a + length b <= length dst)%nat ->
  splice (splice dst k a) (k + length a) b = splice dst k (a ++ b).
Proof.
  intros H. unfold splice.
  rewrite take_app_ge by (rewrite length_take; lia).
  rewrite length_take_le by lia.
  rewrite take_app_ge by lia.
  replace (k + length a - k - length a)%nat with 0%nat by lia. rewrite take_0, app_nil_r.
  rewrite drop_app_ge by (rewrite length_take; lia).
  rewrite length_take_le by lia.
  rewrite drop_app_ge by lia.
  rewrite drop_drop. rewrite length_app, <- !app_assoc.
  replace (k + length a + (k + length a + length b - k - length a))%nat
    with (k + (length a + length b))%nat by lia. reflexivity.
Qed.

Lemma copyLoop_content src : forall dst pos i,
  0 <= pos -> 0 <= i ->
  pos + i + Z.of_nat (length src) <= Z.of_nat (length dst) ->
  Z.of_nat (length dst) < 2 ^ 32 ->
  copyLoop dst pos i src = (splice dst (Z.to_nat (pos + i)) src, true).
Proof.
  induction src as [|b src IH]; intros dst pos i Hpos Hi Hfit Hlen.
  - cbn [copyLoop]. unfold splice. cbn [app length]. rewrite Nat.add_0_r, take_drop.
    reflexivity.
  - cbn [copyLoop]. cbn [length] in Hfit.
    rewrite wrap32_small by lia.
    destruct (Z.ltb_spec (i + pos) (Z.of_nat (length dst))) as [_|Hge]; [|lia].
    rewrite IH by (rewrite ?length_insert; lia).
    f_equal. unfold splice.
    replace (Z.to_nat (pos + (i + 1))) with (S (Z.to_nat (i + pos))) by lia.
    replace (Z.to_nat (pos + i)) with (Z.to_nat (i + pos)) by lia.
    set (k := Z.to_nat (i + pos)).
    assert (Hk : (k < length dst)%nat) by lia.
    rewrite (take_S_r _ k b) by (apply list_lookup_insert_eq; exact Hk).
    rewrite take_insert_ge by lia.
    rewrite drop_insert_lt by lia.
    rewrite <- app_assoc. cbn [app length].
    replace (S k + length src)%nat with (k + S (length src))%nat by lia. reflexivity.
Qed.

Lemma min_l a b : a <= b -> Client.min a b = a.
Proof.
  intros H. unfold Client.min. destruct (Z.ltb_spec a b); [reflexivity|lia].
Qed.

Lemma min_r a b : b <= a -> Client.min a b = b.
Proof.
  intros H. unfold Client.min. destruct (Z.ltb_spec a b); [lia|reflexivity].
Qed.

Lemma len32_small {A} (l : list A) :
  Z.of_nat (length l) < 2 ^ 32 -> len32 l = Z.of_nat (length l).
Proof. intros H. unfold len32. apply wrap32_small. lia. Qed.

Lemma parseHeader_partial buffer f :
  buffer <> [] ->
  0 <= parserPosition f ->
  parserPosition f + Z.of_nat (length buffer) < MessageHeaderSize ->
  Z.of_nat (length (headerBuffer f)) = MessageHeaderSize ->
  parseHeader buffer f
  = (Ok (Z.of_nat (length buffer)),
     set_parserPosition (parserPosition f + Z.of_nat (length buffer))
       (set_headerBuffer (splice (headerBuffer f) (Z.to_nat (parserPosition f)) buffer) f)).
Proof.
  intros Hne Hpos Hfit Hhb. unfold MessageHeaderSize in *.
  unfold parseHeader.
  destruct buffer as [|b0 buffer]; [congruence|].
  cbn [parseHeaderLoop]. cbv beta zeta.
  set (buf := b0 :: buffer) in *.
  assert (HtW : Client.min (wrap32 (MessageHeaderSize - parserPosition f)) (len32 buf)
                = Z.of_nat (length buf)).
  { unfold MessageHeaderSize. rewrite len32_small, wrap32_small by lia. apply min_r. lia. }
  rewrite HtW. rewrite Nat2Z.id, firstn_all.
  rewrite copyLoop_content by lia. rewrite Z.add_0_r.
  cbn [negb]. rewrite skipn_all.
  destruct f. cbn [set_headerBuffer set_parserPosition parserPosition headerBuffer] in *.
  rewrite Z.add_0_l, !wrap32_small by lia.
  destruct (Z.eqb_spec (parserPosition0 + Z.of_nat (length buf)) MessageHeaderSize) as [He|_];
    [unfold MessageHeaderSize in He; lia|].
  destruct (Z.eqb_spec (Z.of_nat (length buf)) 0) as [He|_];
    [subst buf; cbn [length] in He; lia|].
  subst buf. cbn [length parseHeaderLoop]. reflexivity.
Qed.

Lemma parseHeader_completes buffer f :
  0 <= parserPosition f < MessageHeaderSize ->
  MessageHeaderSize - parserPosition f <= Z.of_nat (length buffer) ->
  Z.of_nat (length buffer) < 2 ^ 32 ->
  Z.of_nat (length (headerBuffer f)) = MessageHeaderSize ->
  let n := MessageHeaderSize - parserPosition f in
  let hb := splice (headerBuffer f) (Z.to_nat (parserPosition f)) (take (Z.to_nat n) buffer) in
  exists h,
    readMessageHeader hb = Some h /\
    parseHeader buffer f
    = (Ok n,
       (if 0 <? BodySize h then set_parserPhase ParserReadingData else fun f' => f')
         (set_header h
            (set_parserPosition 0
               (set_parserPosition MessageHeaderSize (set_headerBuffer hb f))))).
Proof.
  intros Hpos Hfit Hlen Hhb n hb. unfold MessageHeaderSize in *.
  assert (Hn : length (take (Z.to_nat n) buffer) = Z.to_nat n).
  { apply length_take_le. subst n. lia. }
  assert (Hhbl : length hb = length (headerBuffer f)).
  { subst hb. apply length_splice. rewrite Hn. subst n. lia. }
  assert (Hrd : exists h, readMessageHeader hb = Some h).
  { unfold readMessageHeader, MessageHeaderSize. rewrite Hhbl.
    destruct (Z.ltb_spec (Z.of_nat (length (headerBuffer f))) 24); [lia|]. eauto. }
  destruct Hrd as [h Hrd]. exists h. split; [exact Hrd|].
  unfold parseHeader.
  destruct buffer as [|b0 buffer]; [cbn [length] in Hfit; lia|].
  cbn [parseHeaderLoop]. cbv beta zeta.
  set (buf := b0 :: buffer) in *.
  assert (HtW : Client.min (wrap32 (MessageHeaderSize - parserPosition f)) (len32 buf) = n).
  { unfold MessageHeaderSize. rewrite len32_small, wrap32_small by lia. apply min_l. lia. }
  rewrite HtW.
  rewrite copyLoop_content by (rewrite ?Hn; subst n; lia). rewrite Z.add_0_r.
  fold hb. cbn [negb].
  destruct f. cbn [set_headerBuffer set_parserPosition parserPosition headerBuffer] in *.
  rewrite Z.add_0_l, !wrap32_small by (subst n; lia).
  replace (parserPosition0 + n) with 24 by (subst n; lia).
  cbn [Z.eqb Pos.eqb MessageHeaderSize]. rewrite Hrd.
  destruct (0 <? BodySize h); reflexivity.
Qed.

Lemma length_le_bytes n : forall z, length (le_bytes n z) = n.
Proof. induction n as [|n IH]; intros z; [reflexivity|]. cbn [le_bytes length]. rewrite IH. reflexivity. Qed.

Lemma le_le_bytes n : forall z, le (le_bytes n z) = z mod 2 ^ (8 * Z.of_nat n).
Proof.
  induction n as [|n IH]; intros z.
  - cbn [le le_bytes]. change (2 ^ (8 * Z.of_nat 0)) with 1. rewrite Z.mod_1_r. reflexivity.
  - cbn [le le_bytes]. rewrite u8_byte_of_Z, IH.
    replace (2 ^ (8 * Z.of_nat (S n))) with (256 * 2 ^ (8 * Z.of_nat n)).
    + rewrite Z.rem_mul_r by lia. reflexivity.
    + replace (8 * Z.of_nat (S n)) with (8 + 8 * Z.of_nat n) by lia.
      rewrite Z.pow_add_r by lia. reflexivity.
Qed.

Lemma le_le_bytes_small n z :
  0 <= z < 2 ^ (8 * Z.of_nat n) -> le (le_bytes n z) = z.
Proof. intros H. rewrite le_le_bytes. apply Z.mod_small, H. Qed.

Lemma take_le_bytes n z rest : take n (le_bytes n z ++ rest) = le_bytes n z.
Proof. apply take_app_length'. symmetry. apply length_le_bytes. Qed.

Lemma drop_le_bytes n z rest : drop n (le_bytes n z ++ rest) = rest.
Proof. apply drop_app_length'. symmetry. apply length_le_bytes. Qed.

Lemma length_writeMessageHeader h : length (writeMessageHeader h) = 24%nat.
Proof. unfold writeMessageHeader. rewrite !length_app, !length_le_bytes. reflexivity. Qed.

Lemma readMessageHeader_write h rest :
  validHeader h -> readMessageHeader (writeMessageHeader h ++ rest) = Some h.
Proof.
  intros (Hp & Hv & Ht & Hr & Hb).
  unfold readMessageHeader. rewrite length_app, length_writeMessageHeader.
  unfold MessageHeaderSize.
  destruct (Z.ltb_spec (Z.of_nat (24 + length rest)) 24) as [Hlt|_]; [lia|].
  unfold writeMessageHeader. rewrite <- !app_assoc.
  change 20%nat with (4 + (8 + (4 + 4)))%nat.
  change 16%nat with (4 + (8 + 4))%nat.
  change 12%nat with (4 + 8)%nat.
  rewrite <- !drop_drop.
  repeat (rewrite take_le_bytes || rewrite drop_le_bytes).
  rewrite !le_le_bytes_small by (cbn; lia).
  destruct h. reflexivity.
Qed.

(** X4. [parseHeader] decodes what the wire format says: from cursor 0, on the 24
    little-endian bytes of a header [h] followed by anything, it takes
    exactly 24 bytes, stores [h], puts the cursor back to 0, and goes to the
    body phase only when [h] declares a body; a header-only frame leaves
    the phase as it was. *)
Theorem parseHeader_decodes h rest f :
  validHeader h ->
  parserPosition f = 0 ->
  Z.of_nat (length (headerBuffer f)) = MessageHeaderSize ->
  Z.of_nat (length rest) < 2 ^ 32 - 24 ->
  exists f',
    parseHeader (writeMessageHeader h ++ rest) f = (Ok 24, f') /\
    header f' = h /\
    headerBuffer f' = writeMessageHeader h /\
    parserPosition f' = 0 /\
    parserPhase f' = (if 0 <? BodySize h then ParserReadingData else parserPhase f).
Proof.
  intros Hv Hpos Hhb Hrest.
  destruct (parseHeader_completes (writeMessageHeader h ++ rest) f) as (h' & Hrd & Hph).
  - rewrite Hpos. unfold MessageHeaderSize. lia.
  - rewrite Hpos, length_app, length_writeMessageHeader. unfold MessageHeaderSize. lia.
  - rewrite length_app, length_writeMessageHeader. lia.
  - exact Hhb.
  - revert Hrd Hph. rewrite Hpos. unfold MessageHeaderSize in *.
    change (Z.to_nat (24 - 0)) with 24%nat. change (Z.to_nat 0) with 0%nat.
    rewrite take_app_length' by (symmetry; apply length_writeMessageHeader).
    assert (Hsp : splice (headerBuffer f) 0 (writeMessageHeader h) = writeMessageHeader h).
    { unfold splice. rewrite take_0, length_writeMessageHeader.
      rewrite drop_ge by lia. cbn [app]. apply app_nil_r. }
    rewrite Hsp. intros Hrd Hph.
    rewrite <- (app_nil_r (writeMessageHeader h)) in Hrd at 1.
    rewrite readMessageHeader_write in Hrd by exact Hv.
    injection Hrd as <-.
    eexists. split; [exact Hph|].
    destruct f. destruct (0 <? BodySize h); repeat split.
Qed.

Lemma parseHeader_decodes_witness :
  exists f',
    parseHeader (writeMessageHeader (iqHeader 7 localVersion 8) ++ body8) (freshClient up0)
    = (Ok 24, f') /\
    header f' = iqHeader 7 localVersion 8 /\
    parserPosition f' = 0 /\
    parserPhase f' = ParserReadingData.
Proof.
  destruct (parseHeader_decodes (iqHeader 7 localVersion 8) body8 (freshClient up0))
    as (f' & H1 & H2 & _ & H4 & H5); [unfold validHeader; crunch|crunch..|].
  exists f'. split; [exact H1|]. split; [exact H2|]. split; [exact H4|exact H5].
Defined.

(** X5. [parseHeader] is re-entrant: a header that arrives in two chunks, the
    first one ending inside the header, leaves the client exactly as the
    two chunks in one piece do, and the bytes taken add up; the second
    chunk is taken only up to the end of the header. *)
Theorem parseHeader_split a b f :
  a <> [] -> b <> [] ->
  0 <= parserPosition f ->
  parserPosition f + Z.of_nat (length a) < MessageHeaderSize ->
  Z.of_nat (length (headerBuffer f)) = MessageHeaderSize ->
  Z.of_nat (length b) < 2 ^ 32 - 24 ->
  exists f1 c2 f2,
    parseHeader a f = (Ok (Z.of_nat (length a)), f1) /\
    parseHeader b f1 = (Ok c2, f2) /\
    parseHeader (a ++ b) f = (Ok (Z.of_nat (length a) + c2), f2) /\
    c2 = Client.min (MessageHeaderSize - parserPosition f1) (Z.of_nat (length b)).
Proof.
  intros Ha Hb Hpos Hfit Hhb Hlen. unfold MessageHeaderSize in *.
  assert (Hab : a ++ b <> []) by (destruct a; [congruence|discriminate]).
  rewrite (parseHeader_partial a f) by (assumption || (unfold MessageHeaderSize; lia)).
  set (f1 := set_parserPosition _ _).
  assert (Hf1 : parserPosition f1 = parserPosition f + Z.of_nat (length a) /\
                headerBuffer f1 = splice (headerBuffer f) (Z.to_nat (parserPosition f)) a).
  { subst f1. destruct f. split; reflexivity. }
  destruct Hf1 as [Hp1 Hh1].
  assert (Hl1 : length (headerBuffer f1) = length (headerBuffer f)).
  { rewrite Hh1. apply length_splice. lia. }
  exists f1.
  destruct (Z.lt_ge_cases (parserPosition f + Z.of_nat (length a) + Z.of_nat (length b)) 24)
    as [Hshort|Hfull].
  - rewrite (parseHeader_partial b f1)
      by (try assumption; unfold MessageHeaderSize; rewrite ?Hp1, ?Hl1; lia).
    rewrite (parseHeader_partial (a ++ b) f)
      by (try assumption; unfold MessageHeaderSize; rewrite ?length_app; lia).
    eexists _, _. split; [reflexivity|]. split; [reflexivity|]. split.
    + rewrite length_app, Nat2Z.inj_add. f_equal.
      rewrite Hp1, Hh1.
      replace (Z.to_nat (parserPosition f + Z.of_nat (length a)))
        with (Z.to_nat (parserPosition f) + length a)%nat by lia.
      rewrite splice_splice by lia.
      subst f1. destruct f.
      cbn [set_parserPosition set_headerBuffer parserPosition headerBuffer].
      replace (parserPosition0 + Z.of_nat (length a) + Z.of_nat (length b))
        with (parserPosition0 + (Z.of_nat (length a) + Z.of_nat (length b))) by lia.
      reflexivity.
    + rewrite min_r by (rewrite Hp1; lia). reflexivity.
  - destruct (parseHeader_completes b f1) as (h & Hrd & Hpb);
      [unfold MessageHeaderSize; rewrite ?Hp1, ?Hl1; lia..|].
    destruct (parseHeader_completes (a ++ b) f) as (h' & Hrd' & Hpab);
      [unfold MessageHeaderSize; rewrite ?length_app; lia..|].
    cbv zeta in *. unfold MessageHeaderSize in *.
    assert (Hsp : splice (headerBuffer f) (Z.to_nat (parserPosition f))
                    (take (Z.to_nat (24 - parserPosition f)) (a ++ b))
                  = splice (headerBuffer f1) (Z.to_nat (parserPosition f1))
                      (take (Z.to_nat (24 - parserPosition f1)) b)).
    { rewrite Hh1, Hp1.
      replace (Z.to_nat (parserPosition f + Z.of_nat (length a)))
        with (Z.to_nat (parserPosition f) + length a)%nat by lia.
      rewrite splice_splice by (rewrite length_take; lia).
      f_equal. rewrite take_app_ge by lia. f_equal. f_equal. lia. }
    rewrite Hsp in Hrd', Hpab. rewrite Hrd in Hrd'. injection Hrd' as <-.
    rewrite Hpb, Hpab.
    eexists _, _. split; [reflexivity|]. split; [reflexivity|]. split.
    + replace (24 - parserPosition f)
        with (Z.of_nat (length a) + (24 - parserPosition f1)) by lia.
      reflexivity.
    + rewrite min_l by (rewrite Hp1; lia). reflexivity.
Qed.

Lemma parseHeader_split_witness :
  exists f1 c2 f2,
    parseHeader (take 10 frame7) (freshClient up0) = (Ok 10, f1) /\
    parseHeader (drop 10 frame7) f1 = (Ok c2, f2) /\
    parseHeader (take 10 frame7 ++ drop 10 frame7) (freshClient up0) = (Ok (10 + c2), f2) /\
    c2 = 14.
Proof.
  destruct (parseHeader_split (take 10 frame7) (drop 10 frame7) (freshClient up0))
    as (f1 & c2 & f2 & H1 & H2 & H3 & H4); [crunch..|].
  exists f1, c2, f2. split; [exact H1|]. split; [exact H2|]. split; [exact H3|].
  rewrite H4.
  replace (parserPosition f1) with 10; [reflexivity|].
  assert (E : snd (parseHeader (take 10 frame7) (freshClient up0)) = f1) by (rewrite H1; reflexivity).
  rewrite <- E. vm_compute. reflexivity.
Defined.

Lemma parseBody_partial buffer f :
  buffer <> [] ->
  0 <= parserPosition f ->
  parserPosition f + Z.of_nat (length buffer) < BodySize (header f) ->
  BodySize (header f) <= Z.of_nat (length (bodyBuffer f)) ->
  Z.of_nat (length (bodyBuffer f)) < 2 ^ 32 ->
  parseBody buffer f
  = (Ok (Z.of_nat (length buffer)),
     set_parserPosition (parserPosition f + Z.of_nat (length buffer))
       (set_bodyBuffer (splice (bodyBuffer f) (Z.to_nat (parserPosition f)) buffer) f)).
Proof.
  intros Hne Hpos Hfit Hbb Hlen.
  unfold parseBody.
  destruct buffer as [|b0 buffer]; [congruence|].
  cbn [parseBodyLoop]. cbv beta zeta.
  set (buf := b0 :: buffer) in *.
  assert (HtW : Client.min (wrap32 (BodySize (header f) - parserPosition f)) (len32 buf)
                = Z.of_nat (length buf)).
  { rewrite len32_small, wrap32_small by lia. apply min_r. lia. }
  rewrite HtW. rewrite Nat2Z.id, firstn_all.
  rewrite copyLoop_content by lia. rewrite Z.add_0_r.
  cbn [negb]. rewrite skipn_all.
  destruct f. cbn [set_bodyBuffer set_parserPosition parserPosition bodyBuffer header] in *.
  rewrite Z.add_0_l, !wrap32_small by lia.
  destruct (Z.eqb_spec (parserPosition0 + Z.of_nat (length buf)) (BodySize header0)) as [He|_];
    [lia|].
  destruct (Z.eqb_spec (Z.of_nat (length buf)) 0) as [He|_];
    [subst buf; cbn [length] in He; lia|].
  subst buf. cbn [length parseBodyLoop]. reflexivity.
Qed.

Lemma parseBody_finishes buffer f :
  0 <= parserPosition f < BodySize (header f) ->
  BodySize (header f) <= Z.of_nat (length (bodyBuffer f)) ->
  Z.of_nat (length (bodyBuffer f)) < 2 ^ 32 ->
  BodySize (header f) - parserPosition f <= Z.of_nat (length buffer) ->
  Z.of_nat (length buffer) < 2 ^ 32 ->
  let n := BodySize (header f) - parserPosition f in
  parseBody buffer f
  = (Ok n,
     set_parserPhase ParserAcquiringHeader
       (set_parserPosition 0
          (set_parserPosition (BodySize (header f))
             (set_bodyBuffer
                (splice (bodyBuffer f) (Z.to_nat (parserPosition f))
                        (take (Z.to_nat n) buffer)) f)))).
Proof.
  intros Hpos Hbb Hbl Hfit Hlen n.
  assert (Hn : length (take (Z.to_nat n) buffer) = Z.to_nat n).
  { apply length_take_le. subst n. lia. }
  unfold parseBody.
  destruct buffer as [|b0 buffer]; [cbn [length] in Hfit; lia|].
  cbn [parseBodyLoop]. cbv beta zeta.
  set (buf := b0 :: buffer) in *.
  assert (HtW : Client.min (wrap32 (BodySize (header f) - parserPosition f)) (len32 buf) = n).
  { rewrite len32_small, wrap32_small by lia. apply min_l. subst n. lia. }
  rewrite HtW.
  rewrite copyLoop_content by (rewrite ?Hn; subst n; lia). rewrite Z.add_0_r.
  cbn [negb].
  destruct f. cbn [set_bodyBuffer set_parserPosition parserPosition bodyBuffer header] in *.
  rewrite Z.add_0_l, !wrap32_small by (subst n; lia).
  replace (parserPosition0 + n) with (BodySize header0) by (subst n; lia).
  rewrite Z.eqb_refl. reflexivity.
Qed.

Ltac rsimpl :=
  cbv beta iota delta
   [fst snd orb andb negb set_callback set_terminated set_routineRunning set_gotDeviceInfo set_gotSyncInfo
    set_streamingMode set_gain set_parserPhase set_deviceInfo set_header
    set_lastSequenceNumber set_droppedBuffers set_downStreamBytes set_parserPosition
    set_bodyBuffer set_headerBuffer set_Streaming set_CanControl
    set_MinimumTunableFrequency set_MaximumTunableFrequency set_DeviceCenterFrequency
    set_SmartCenterFrequency set_trace Client.callback Client.terminated
    Client.routineRunning Client.gotDeviceInfo Client.gotSyncInfo Client.streamingMode
    Client.gain Client.parserPhase Client.deviceInfo Client.header
    Client.lastSequenceNumber Client.droppedBuffers Client.downStreamBytes
    Client.parserPosition Client.bodyBuffer Client.headerBuffer Client.Streaming
    Client.CanControl Client.MinimumTunableFrequency Client.MaximumTunableFrequency
    Client.DeviceCenterFrequency Client.SmartCenterFrequency Client.trace].

Ltac commute_downStream :=
  match goal with
  | f : RadioClient |- _ => destruct f
  end;
  match goal with
  | c : bool, t : bool |- context [{| callback := ?c'; terminated := ?t' |}] => idtac
  | _ => idtac
  end;
  rsimpl;
  repeat match goal with
         | |- context [Z.eqb ?a ?b] => destruct (Z.eqb a b); rsimpl
         | |- context [match ?x with Some _ => _ | None => _ end] => destruct x; rsimpl
         | |- context [if ?b then _ else _] => is_var b; destruct b; rsimpl
         end;
  reflexivity.

Lemma processDeviceInfo_downStream up d f :
  processDeviceInfo up (set_downStreamBytes d f)
  = (fst (processDeviceInfo up f), set_downStreamBytes d (snd (processDeviceInfo up f))).
Proof. unfold processDeviceInfo. commute_downStream. Qed.

Lemma processClientSync_downStream up d f :
  processClientSync up (set_downStreamBytes d f)
  = (fst (processClientSync up f), set_downStreamBytes d (snd (processClientSync up f))).
Proof. unfold processClientSync, when, emit, modify, ret. commute_downStream. Qed.

Lemma processIQ_downStream up d f :
  processIQ up (set_downStreamBytes d f)
  = (fst (processIQ up f), set_downStreamBytes d (snd (processIQ up f))).
Proof. unfold processIQ, when, emit, modify, ret, decodeSamples. commute_downStream. Qed.

Lemma processSmartIQ_downStream up d f :
  processSmartIQ up (set_downStreamBytes d f)
  = (fst (processSmartIQ up f), set_downStreamBytes d (snd (processSmartIQ up f))).
Proof. unfold processSmartIQ, when, emit, modify, ret, decodeSamples. commute_downStream. Qed.

Lemma handleNewMessage_downStream up d f :
  handleNewMessage up (set_downStreamBytes d f)
  = (fst (handleNewMessage up f), set_downStreamBytes d (snd (handleNewMessage up f))).
Proof.
  unfold handleNewMessage.
  replace (terminated (set_downStreamBytes d f)) with (terminated f) by (destruct f; reflexivity).
  replace (header (set_downStreamBytes d f)) with (header f) by (destruct f; reflexivity).
  destruct (terminated f); [reflexivity|]. cbv zeta.
  destruct (MessageType (header f) =? MsgTypeDeviceInfo); [apply processDeviceInfo_downStream|].
  destruct (MessageType (header f) =? MsgTypeClientSync); [apply processClientSync_downStream|].
  destruct (MessageType (header f) =? MsgTypeIQ); [apply processIQ_downStream|].
  destruct (MessageType (header f) =? MsgTypeSmartIQ); [apply processSmartIQ_downStream|].
  destruct (MessageType (header f) =? MsgTypeReadSetting); reflexivity.
Qed.

Lemma frameDone_downStream up d f :
  frameDone up (set_downStreamBytes d f)
  = (fst (frameDone up f), set_downStreamBytes d (snd (frameDone up f))).
Proof.
  unfold frameDone.
  replace (parserPhase (set_downStreamBytes d f)) with (parserPhase f) by (destruct f; reflexivity).
  destruct (parserPhase f =? ParserAcquiringHeader); [|reflexivity].
  cbv zeta. unfold bind, when, emit, modify, ret.
  replace (header (set_downStreamBytes d f)) with (header f) by (destruct f; reflexivity).
  replace (lastSequenceNumber (set_downStreamBytes d f)) with (lastSequenceNumber f)
    by (destruct f; reflexivity).
  destruct (0 <? wrap32 (PacketNumber (header f) - lastSequenceNumber f - 1)).
  - match goal with
    | |- context [handleNewMessage up ?x] =>
        match x with
        | context [set_downStreamBytes d f] =>
            replace x with (set_downStreamBytes d
              (set_trace
                 (trace (set_droppedBuffers
                           (wrap32 (droppedBuffers (set_lastSequenceNumber (PacketNumber (header f)) f)
                                    + wrap32 (PacketNumber (header f) - lastSequenceNumber f - 1)))
                           (set_lastSequenceNumber (PacketNumber (header f)) f))
                  ++ [LogLost (wrap32 (PacketNumber (header f) - lastSequenceNumber f - 1))])
                 (set_droppedBuffers
                    (wrap32 (droppedBuffers (set_lastSequenceNumber (PacketNumber (header f)) f)
                             + wrap32 (PacketNumber (header f) - lastSequenceNumber f - 1)))
                    (set_lastSequenceNumber (PacketNumber (header f)) f))))
              by (destruct f; reflexivity)
        end
    end.
    rewrite handleNewMessage_downStream.
    destruct (handleNewMessage up _) as [[] ?]; reflexivity.
  - match goal with
    | |- context [handleNewMessage up ?x] =>
        match x with
        | context [set_downStreamBytes d f] =>
            replace x with (set_downStreamBytes d
                 (set_droppedBuffers
                    (wrap32 (droppedBuffers (set_lastSequenceNumber (PacketNumber (header f)) f)
                             + wrap32 (PacketNumber (header f) - lastSequenceNumber f - 1)))
                    (set_lastSequenceNumber (PacketNumber (header f)) f)))
              by (destruct f; reflexivity)
        end
    end.
    rewrite handleNewMessage_downStream.
    destruct (handleNewMessage up _) as [[] ?]; reflexivity.
Qed.

Lemma frameDone_reading up f :
  parserPhase f = ParserReadingData -> frameDone up f = (Ok tt, f).
Proof. intros Hph. unfold frameDone. rewrite Hph. reflexivity. Qed.

Lemma parseMessage_body_partial up fuel a f :
  parserPhase f = ParserReadingData ->
  terminated f = false ->
  a <> [] ->
  0 <= parserPosition f ->
  parserPosition f + Z.of_nat (length a) < BodySize (header f) ->
  BodySize (header f) <= Z.of_nat (length (bodyBuffer f)) ->
  Z.of_nat (length (bodyBuffer f)) < 2 ^ 32 ->
  parseMessage up (S (S fuel)) a f
  = (Ok tt,
     set_parserPosition (parserPosition f + Z.of_nat (length a))
       (set_bodyBuffer (splice (bodyBuffer f) (Z.to_nat (parserPosition f)) a)
          (set_downStreamBytes (wrap64 (downStreamBytes f + 1)) f))).
Proof.
  intros Hph Hterm Hne Hpos Hfit Hbb Hbl.
  unfold parseMessage. unfold bind at 1. unfold modify at 1.
  set (f0 := set_downStreamBytes (wrap64 (downStreamBytes f + 1)) f).
  assert (H0 : parserPhase f0 = parserPhase f /\ terminated f0 = terminated f /\
               parserPosition f0 = parserPosition f /\ header f0 = header f /\
               bodyBuffer f0 = bodyBuffer f).
  { subst f0. destruct f. repeat split. }
  destruct H0 as (E1 & E2 & E3 & E4 & E5).
  rewrite parseLoop_reading by congruence.
  unfold bind at 1. unfold bind at 1.
  rewrite parseBody_partial by (rewrite ?E3, ?E4, ?E5; assumption).
  unfold bind at 1. unfold reslice. rewrite Z.ltb_irrefl. unfold ret at 1.
  rewrite Nat2Z.id, skipn_all.
  unfold bind at 1. rewrite frameDone_reading by (destruct f; exact Hph).
  unfold ret. cbn [parseLoop nonEmpty andb].
  rewrite E3, E5. reflexivity.
Qed.

(** X7. A chunk that ends inside the body of a frame is buffered: [parseMessage]
    returns, the bytes are written into [bodyBuffer] at the cursor, the
    cursor advances by the chunk length, and nothing else changes but the
    call counter: no dispatch, no sequence accounting. *)
Theorem body_chunk_buffered up fuel a f :
  parserPhase f = ParserReadingData ->
  terminated f = false ->
  a <> [] ->
  0 <= parserPosition f ->
  parserPosition f + Z.of_nat (length a) < BodySize (header f) ->
  BodySize (header f) <= Z.of_nat (length (bodyBuffer f)) ->
  Z.of_nat (length (bodyBuffer f)) < 2 ^ 32 ->
  parseMessage up (S (S fuel)) a f
  = (Ok tt,
     set_parserPosition (parserPosition f + Z.of_nat (length a))
       (set_bodyBuffer (splice (bodyBuffer f) (Z.to_nat (parserPosition f)) a)
          (set_downStreamBytes (wrap64 (downStreamBytes f + 1)) f))).
Proof. exact (parseMessage_body_partial up fuel a f). Qed.

Lemma body_chunk_buffered_witness :
  parseMessage up0 2 (take 3 body8) reading7
  = (Ok tt,
     set_parserPosition (parserPosition reading7 + Z.of_nat (length (take 3 body8)))
       (set_bodyBuffer
          (splice (bodyBuffer reading7) (Z.to_nat (parserPosition reading7)) (take 3 body8))
          (set_downStreamBytes (wrap64 (downStreamBytes reading7 + 1)) reading7))).
Proof. apply (body_chunk_buffered up0 0%nat (take 3 body8) reading7); crunch. Defined.

Lemma parseMessage_body_end up fuel c f :
  parserPhase f = ParserReadingData ->
  terminated f = false ->
  0 <= parserPosition f < BodySize (header f) ->
  BodySize (header f) <= Z.of_nat (length (bodyBuffer f)) ->
  Z.of_nat (length (bodyBuffer f)) < 2 ^ 32 ->
  Z.of_nat (length c) = BodySize (header f) - parserPosition f ->
  parseMessage up (S (S fuel)) c f
  = frameDone up
      (set_parserPhase ParserAcquiringHeader
         (set_parserPosition 0
            (set_bodyBuffer (splice (bodyBuffer f) (Z.to_nat (parserPosition f)) c)
               (set_downStreamBytes (wrap64 (downStreamBytes f + 1)) f)))).
Proof.
  intros Hph Hterm Hpos Hbb Hbl Hlen.
  unfold parseMessage. unfold bind at 1. unfold modify at 1.
  set (f0 := set_downStreamBytes (wrap64 (downStreamBytes f + 1)) f).
  assert (Hne : c <> []).
  { destruct c; [cbn [length] in Hlen; lia|discriminate]. }
  assert (H0 : parserPhase f0 = parserPhase f /\ terminated f0 = terminated f /\
               parserPosition f0 = parserPosition f /\ header f0 = header f /\
               bodyBuffer f0 = bodyBuffer f).
  { subst f0. destruct f. repeat split. }
  destruct H0 as (E1 & E2 & E3 & E4 & E5).
  rewrite parseLoop_reading by congruence.
  unfold bind at 1. unfold bind at 1.
  rewrite parseBody_finishes by (rewrite ?E3, ?E4, ?E5; lia).
  rewrite E3, E4, E5, <- Hlen, Nat2Z.id, firstn_all.
  unfold bind at 1. unfold reslice. rewrite Z.ltb_irrefl. unfold ret at 1.
  rewrite Nat2Z.id, skipn_all.
  unfold bind at 1.
  match goal with
  | |- context [frameDone up ?x] =>
      replace x with
        (set_parserPhase ParserAcquiringHeader
           (set_parserPosition 0
              (set_bodyBuffer (splice (bodyBuffer f) (Z.to_nat (parserPosition f)) c) f0)))
        by reflexivity
  end.
  destruct (frameDone up _) as [[[]| |] f']; reflexivity.
Qed.

(** X8. In the body phase the chunking does not matter: a body remainder fed as
    two chunks [a] and [b] ends with the same outcome and the same client
    (dispatched events, buffers, counters) as [a ++ b] fed at once, except
    for [downStreamBytes], which counts calls. *)
Theorem body_chunking_independent up fuel a b f :
  parserPhase f = ParserReadingData ->
  terminated f = false ->
  a <> [] ->
  0 <= parserPosition f ->
  BodySize (header f) <= Z.of_nat (length (bodyBuffer f)) ->
  Z.of_nat (length (bodyBuffer f)) < 2 ^ 32 ->
  Z.of_nat (length a) + Z.of_nat (length b) = BodySize (header f) - parserPosition f ->
  b <> [] ->
  exists f1,
    parseMessage up (S (S fuel)) a f = (Ok tt, f1) /\
    fst (parseMessage up (S (S fuel)) b f1) = fst (parseMessage up (S (S fuel)) (a ++ b) f) /\
    snd (parseMessage up (S (S fuel)) b f1)
    = set_downStreamBytes (wrap64 (downStreamBytes f1 + 1))
        (snd (parseMessage up (S (S fuel)) (a ++ b) f)).
Proof.
  intros Hph Hterm Ha Hpos Hbb Hbl Hlen Hb.
  assert (Hlb : (0 < length b)%nat) by (destruct b; [congruence|cbn [length]; lia]).
  rewrite (parseMessage_body_partial up fuel a f) by (assumption || lia).
  set (f1 := set_parserPosition _ _).
  exists f1. split; [reflexivity|].
  assert (H1 : parserPhase f1 = parserPhase f /\ terminated f1 = terminated f /\
               parserPosition f1 = parserPosition f + Z.of_nat (length a) /\
               header f1 = header f /\
               bodyBuffer f1 = splice (bodyBuffer f) (Z.to_nat (parserPosition f)) a).
  { subst f1. destruct f. repeat split. }
  destruct H1 as (E1 & E2 & E3 & E4 & E5).
  assert (Hl1 : length (bodyBuffer f1) = length (bodyBuffer f)).
  { rewrite E5. apply length_splice. lia. }
  rewrite (parseMessage_body_end up fuel b f1)
    by (rewrite ?E1, ?E2, ?E3, ?E4, ?Hl1; (assumption || lia)).
  rewrite (parseMessage_body_end up fuel (a ++ b) f)
    by (rewrite ?length_app; (assumption || lia)).
  rewrite E5, E3.
  replace (Z.to_nat (parserPosition f + Z.of_nat (length a)))
    with (Z.to_nat (parserPosition f) + length a)%nat by lia.
  rewrite splice_splice by lia.
  match goal with
  | |- context [frameDone up (set_parserPhase ?p (set_parserPosition ?q (set_bodyBuffer ?s
                                (set_downStreamBytes ?d f1)))) ] =>
      replace (set_parserPhase p (set_parserPosition q (set_bodyBuffer s (set_downStreamBytes d f1))))
        with (set_downStreamBytes d
                (set_parserPhase p (set_parserPosition q (set_bodyBuffer s
                   (set_downStreamBytes (wrap64 (downStreamBytes f + 1)) f)))))
        by reflexivity
  end.
  rewrite frameDone_downStream. split; reflexivity.
Qed.

Lemma body_chunking_independent_witness :
  exists f1,
    parseMessage up0 2 (take 3 body8) reading7 = (Ok tt, f1) /\
    fst (parseMessage up0 2 (drop 3 body8) f1)
    = fst (parseMessage up0 2 (take 3 body8 ++ drop 3 body8) reading7) /\
    snd (parseMessage up0 2 (drop 3 body8) f1)
    = set_downStreamBytes (wrap64 (downStreamBytes f1 + 1))
        (snd (parseMessage up0 2 (take 3 body8 ++ drop 3 body8) reading7)).
Proof.
  apply (body_chunking_independent up0 0%nat (take 3 body8) (drop 3 body8) reading7); crunch.
Defined.

(** X6. The header checks, for a peer that packs its version with
    [GenProtocolVersion]: any major.minor other than 0.1 is refused,
    whatever the hash; with 0.1 and any hash a body above [2^20] bytes is
    refused, and otherwise a zeroed body buffer of exactly [BodySize] bytes
    is allocated. *)
Theorem checkHeader_by_major_minor f v :
  parserPhase f = ParserReadingData ->
  0 <= Major v < 256 -> 0 <= Minor v < 256 -> 0 <= Hash v < 2 ^ 32 ->
  ProtocolVersion (header f) = GenProtocolVersion v ->
  (Major v <> 0 \/ Minor v <> 1 ->
   checkHeader f = (Panicked "Server is running an unsupported protocol version.", f)) /\
  (Major v = 0 -> Minor v = 1 -> 2 ^ 20 < BodySize (header f) ->
   checkHeader f = (Panicked "Server sent more than expected body size.", f)) /\
  (Major v = 0 -> Minor v = 1 -> BodySize (header f) <= 2 ^ 20 ->
   checkHeader f = (Ok tt, set_bodyBuffer (replicate (Z.to_nat (BodySize (header f))) x00) f)).
Proof.
  intros Hph HM Hm Hh Hv.
  assert (Hsplit : SplitProtocolVersion (ProtocolVersion (header f)) = v).
  { rewrite Hv. apply Split_Gen; assumption. }
  split; [|split].
  - intros Hne. apply checkHeader_version_mismatch; [exact Hph|].
    rewrite Hsplit. cbn [Major Minor CurrentProtocolVersion]. exact Hne.
  - intros H0 H1 Hbig. apply checkHeader_oversize; [exact Hph|rewrite Hsplit; exact H0
                                                     |rewrite Hsplit; exact H1|exact Hbig].
  - intros H0 H1 Hok. apply checkHeader_allocates; [exact Hph|rewrite Hsplit; exact H0
                                                    |rewrite Hsplit; exact H1|exact Hok].
Qed.

Lemma checkHeader_by_major_minor_witness :
  checkHeader reading7
  = (Ok tt, set_bodyBuffer (replicate (Z.to_nat (BodySize (header reading7))) x00) reading7).
Proof.
  destruct (checkHeader_by_major_minor reading7 CurrentProtocolVersion) as (_ & _ & H);
    [crunch..|].
  apply H; crunch.
Defined.




Lemma threadRounds_empty_reads up fuel rest : forall k f,
  threadRounds up fuel (replicate k (Some []) ++ None :: rest) f = (Ok tt, f).
Proof.
  induction k as [|k IH]; intros f; cbn [replicate app threadRounds nonEmpty].
  - destruct (routineRunning f && negb (terminated f)); reflexivity.
  - destruct (routineRunning f && negb (terminated f)); [apply IH|reflexivity].
Qed.

Lemma parseMessage_terminated up fuel buffer f :
  terminated f = true ->
  parseMessage up (S fuel) buffer f
  = (Ok tt, set_downStreamBytes (wrap64 (downStreamBytes f + 1)) f).
Proof.
  intros Ht. unfold parseMessage, bind, modify. cbn [parseLoop].
  replace (terminated (set_downStreamBytes (wrap64 (downStreamBytes f + 1)) f))
    with (terminated f) by (destruct f; reflexivity).
  rewrite Ht, andb_false_r. reflexivity.
Qed.

Lemma cleanup_fields up f :
  terminated (cleanup up f) = true /\ routineRunning (cleanup up f) = routineRunning f /\
  Streaming (cleanup up f) = false /\ lastSequenceNumber (cleanup up f) = 4294967295 /\
  droppedBuffers (cleanup up f) = 0 /\ downStreamBytes (cleanup up f) = 0 /\
  callback (cleanup up f) = callback f /\ trace (cleanup up f) = trace f /\
  parserPhase (cleanup up f) = ParserAcquiringHeader /\ parserPosition (cleanup up f) = 0.
Proof. destruct f. repeat split. Qed.

(** X10. [threadLoop] ends by [cleanup]: after any number of empty reads, a read
    error stops the loop and leaves the client terminated, not running,
    not streaming, with the sequence state reset, the registered callback
    kept and not called; from then on [parseMessage] drops whatever it is
    given. *)
Theorem threadLoop_ends_clean up fuel k rest f :
  let f' := cleanup up (set_routineRunning false
                          (set_parserPosition 0 (set_parserPhase ParserAcquiringHeader f))) in
  threadLoop up fuel (replicate k (Some []) ++ None :: rest) f = (Ok tt, f') /\
  terminated f' = true /\ routineRunning f' = false /\ Streaming f' = false /\
  lastSequenceNumber f' = 4294967295 /\ droppedBuffers f' = 0 /\
  callback f' = callback f /\ trace f' = trace f /\
  forall buffer, parseMessage up (S fuel) buffer f' = (Ok tt, set_downStreamBytes 1 f').
Proof.
  intros f'. split.
  - unfold threadLoop, bind, modify. rewrite threadRounds_empty_reads. reflexivity.
  - destruct (cleanup_fields up (set_routineRunning false
                 (set_parserPosition 0 (set_parserPhase ParserAcquiringHeader f))))
      as (H1 & H2 & H3 & H4 & H5 & H6 & H7 & H8 & _).
    fold f' in H1, H2, H3, H4, H5, H6, H7, H8.
    split; [exact H1|]. split; [rewrite H2; destruct f; reflexivity|].
    split; [exact H3|]. split; [exact H4|]. split; [exact H5|].
    split; [rewrite H7; destruct f; reflexivity|].
    split; [rewrite H8; destruct f; reflexivity|].
    intros buffer. rewrite parseMessage_terminated by exact H1. rewrite H6. reflexivity.
Qed.

End ParserFacts.


(** ** radioclient.go: the command encoder and the public setters *)

Module ControlFacts.
Import Protocol Client Inputs ClientFacts ProtocolFacts ParserFacts.

Lemma u32At_le_bytes i pre z rest :
  length pre = (4 * i)%nat -> 0 <= z < 2 ^ 32 ->
  u32At i (pre ++ le_bytes 4 z ++ rest) = z.
Proof.
  intros Hpre Hz. unfold u32At.
  rewrite drop_app_length' by (symmetry; exact Hpre).
  rewrite take_le_bytes. apply le_le_bytes_small. cbn. exact Hz.
Qed.

Lemma length_commandBytes cmd args :
  length (commandBytes cmd (Some args)) = (8 + length args)%nat.
Proof. unfold commandBytes. rewrite !length_app, !length_le_bytes. lia. Qed.

Lemma u32At_shift k i pre l :
  length pre = (4 * k)%nat -> u32At (k + i) (pre ++ l) = u32At i l.
Proof.
  intros Hpre. unfold u32At.
  replace (4 * (k + i))%nat with (length pre + 4 * i)%nat by lia.
  rewrite <- drop_drop, drop_app_length. reflexivity.
Qed.

Lemma length_words ps : length (concat (map (le_bytes 4) ps)) = (4 * length ps)%nat.
Proof.
  induction ps as [|p ps IH]; [reflexivity|].
  cbn [map concat]. rewrite length_app, length_le_bytes, IH. cbn [length]. lia.
Qed.

Lemma u32At_words ps : forall i p,
  Forall (fun p => 0 <= p < 2 ^ 32) ps ->
  ps !! i = Some p ->
  forall rest, u32At i (concat (map (le_bytes 4) ps) ++ rest) = p.
Proof.
  induction ps as [|q ps IH]; intros i p Hr Hi rest; [discriminate|].
  inversion Hr as [|? ? Hq Hr']; subst.
  cbn [map concat]. rewrite <- app_assoc.
  destruct i as [|i].
  - injection Hi as <-. apply (u32At_le_bytes 0 []); [reflexivity|exact Hq].
  - cbn [lookup list_lookup] in Hi.
    change (S i) with (1 + i)%nat.
    rewrite u32At_shift by apply length_le_bytes.
    apply IH; assumption.
Qed.

Lemma sendCommand_ok cmd args c conn :
  client c = Some conn ->
  writeFails conn = false ->
  sendCommand cmd args c
  = (true, set_client (Some {| outbox := outbox conn ++ [commandBytes cmd args];
                               writeFails := false |}) c).
Proof.
  intros Hc Hw. unfold sendCommand, connWrite. rewrite Hc, Hw. reflexivity.
Qed.

Lemma commandBytes_header cmd args :
  0 <= cmd < 2 ^ 32 ->
  Z.of_nat (length args) < 2 ^ 32 ->
  u32At 0 (commandBytes cmd (Some args)) = cmd /\
  u32At 1 (commandBytes cmd (Some args)) = Z.of_nat (length args).
Proof.
  intros Hcmd Hlen. unfold commandBytes. split.
  - apply (u32At_le_bytes 0 []); [reflexivity|exact Hcmd].
  - rewrite Z.add_0_l, len32_small, wrap32_small by lia.
    apply (u32At_le_bytes 1 (le_bytes 4 cmd)); [apply length_le_bytes|lia].
Qed.

(** X11. [sendCommand] frames its arguments: on a working connection one byte
    string goes out, whose first word is the command, whose second word is
    the number of argument bytes, and whose rest is the arguments. *)
Theorem sendCommand_frames cmd args c conn :
  client c = Some conn ->
  writeFails conn = false ->
  0 <= cmd < 2 ^ 32 ->
  Z.of_nat (length args) < 2 ^ 32 ->
  exists m,
    sendCommand cmd (Some args) c
    = (true, set_client (Some {| outbox := outbox conn ++ [m]; writeFails := false |}) c) /\
    u32At 0 m = cmd /\
    u32At 1 m = Z.of_nat (length args) /\
    drop 8 m = args.
Proof.
  intros Hc Hw Hcmd Hlen.
  exists (commandBytes cmd (Some args)).
  destruct (commandBytes_header cmd args Hcmd Hlen) as [H0 H1].
  split; [apply sendCommand_ok; assumption|].
  split; [exact H0|]. split; [exact H1|].
  unfold commandBytes. rewrite app_assoc.
  apply drop_app_length'. rewrite length_app, !length_le_bytes. reflexivity.
Qed.

Lemma sendCommand_frames_witness :
  exists m,
    sendCommand CmdPing (Some [x01; x02]) control0
    = (true, set_client (Some {| outbox := outbox conn0 ++ [m]; writeFails := false |})
               control0) /\
    u32At 0 m = CmdPing /\ u32At 1 m = 2 /\ drop 8 m = [x01; x02].
Proof. apply (sendCommand_frames CmdPing [x01; x02] control0 conn0); crunch. Defined.

(** X12. [setSetting] on a working connection sends one [CmdSetSetting] command
    whose declared body size is the number of bytes that follow. With
    parameters the body is the setting identifier and then the parameters,
    32 bits each; with no parameter the body is empty, so the setting
    identifier is not sent at all. *)
Theorem setSetting_encoding settingType params c conn :
  client c = Some conn ->
  writeFails conn = false ->
  0 <= settingType < 2 ^ 32 ->
  Forall (fun p => 0 <= p < 2 ^ 32) params ->
  4 + 4 * Z.of_nat (length params) < 2 ^ 32 ->
  exists m,
    setSetting settingType params c
    = (true, set_client (Some {| outbox := outbox conn ++ [m]; writeFails := false |}) c) /\
    u32At 0 m = CmdSetSetting /\
    Z.of_nat (length m) = 8 + u32At 1 m /\
    (params = [] -> length m = 8%nat) /\
    (params <> [] ->
     u32At 2 m = settingType /\
     length m = (12 + 4 * length params)%nat /\
     forall i p, params !! i = Some p -> u32At (3 + i) m = p).
Proof.
  intros Hc Hw Hst Hps Hlen.
  exists (commandBytes CmdSetSetting (Some (settingBytes settingType params))).
  assert (Hbl : length (settingBytes settingType params)
                = if nonEmpty params then (4 + 4 * length params)%nat else 0%nat).
  { unfold settingBytes. destruct (nonEmpty params); [|reflexivity].
    rewrite length_app, length_le_bytes, length_words. reflexivity. }
  assert (Hsmall : Z.of_nat (length (settingBytes settingType params)) < 2 ^ 32).
  { rewrite Hbl. destruct (nonEmpty params); lia. }
  destruct (commandBytes_header CmdSetSetting (settingBytes settingType params))
    as [H0 H1]; [unfold CmdSetSetting; lia|exact Hsmall|].
  split; [apply sendCommand_ok; assumption|].
  split; [exact H0|].
  split; [rewrite H1, length_commandBytes; lia|].
  split.
  - intros ->. rewrite length_commandBytes. reflexivity.
  - intros Hne.
    assert (Hn : nonEmpty params = true) by (destruct params; [congruence|reflexivity]).
    rewrite length_commandBytes, Hbl, Hn.
    unfold commandBytes, settingBytes. rewrite Hn.
    rewrite (app_assoc (le_bytes 4 CmdSetSetting)).
    match goal with
    | |- context [(le_bytes 4 CmdSetSetting ++ le_bytes 4 ?x) ++ _] =>
        set (hdr := le_bytes 4 CmdSetSetting ++ le_bytes 4 x)
    end.
    assert (Hh : length hdr = 8%nat) by (subst hdr; rewrite length_app, !length_le_bytes; reflexivity).
    split; [|split; [lia|]].
    + change 2%nat with (2 + 0)%nat. rewrite u32At_shift by exact Hh.
      rewrite <- (app_nil_l (le_bytes 4 settingType ++ _)).
      apply (u32At_le_bytes 0 []); [reflexivity|exact Hst].
    + intros i p Hi.
      change (3 + i)%nat with (2 + (1 + i))%nat. rewrite u32At_shift by exact Hh.
      rewrite u32At_shift by apply length_le_bytes.
      rewrite <- (app_nil_r (concat _)). apply u32At_words; assumption.
Qed.

Lemma setSetting_encoding_witness :
  exists m,
    setSetting SettingGains [5; 0; 0] control0
    = (true, set_client (Some {| outbox := outbox conn0 ++ [m]; writeFails := false |})
               control0) /\
    u32At 0 m = CmdSetSetting /\
    u32At 2 m = SettingGains /\
    length m = 24%nat /\
    u32At 3 m = 5.
Proof.
  destruct (setSetting_encoding SettingGains [5; 0; 0] control0 conn0)
    as (m & H1 & H2 & _ & _ & H5);
    [reflexivity|reflexivity|unfold SettingGains; lia|repeat constructor; lia|cbn; lia|].
  destruct (H5 ltac:(discriminate)) as (H6 & H7 & H8).
  exists m. split; [exact H1|]. split; [exact H2|]. split; [exact H6|]. split; [exact H7|].
  apply (H8 0%nat 5). reflexivity.
Defined.

(** X13. [sayHello] on a working connection sends one [CmdHello] command; its body
    is 8 bytes that [SplitProtocolVersion] reads back as the client's
    version, followed by the software name, not length-prefixed. *)
Theorem sayHello_encoding softwareName c conn :
  client c = Some conn ->
  writeFails conn = false ->
  Z.of_nat (length softwareName) < 2 ^ 32 - 8 ->
  exists m,
    sayHello softwareName c
    = (true, set_client (Some {| outbox := outbox conn ++ [m]; writeFails := false |}) c) /\
    u32At 0 m = CmdHello /\
    u32At 1 m = 8 + Z.of_nat (length softwareName) /\
    SplitProtocolVersion (le (take 8 (drop 8 m))) = CurrentProtocolVersion /\
    drop 16 m = softwareName.
Proof.
  intros Hc Hw Hlen.
  exists (commandBytes CmdHello (Some (helloBytes softwareName))).
  assert (Hbl : length (helloBytes softwareName) = (8 + length softwareName)%nat).
  { unfold helloBytes. rewrite length_app, length_le_bytes. reflexivity. }
  destruct (commandBytes_header CmdHello (helloBytes softwareName)) as [H0 H1];
    [unfold CmdHello; lia|lia|].
  split; [apply sendCommand_ok; assumption|].
  split; [exact H0|]. split; [rewrite H1, Hbl; lia|].
  unfold commandBytes, helloBytes.
  rewrite (app_assoc (le_bytes 4 CmdHello)).
  match goal with
  | |- context [(le_bytes 4 CmdHello ++ le_bytes 4 ?x) ++ _] =>
      set (hdr := le_bytes 4 CmdHello ++ le_bytes 4 x)
  end.
  assert (Hh : length hdr = 8%nat) by (subst hdr; rewrite length_app, !length_le_bytes; reflexivity).
  split.
  - rewrite drop_app_length' by (symmetry; exact Hh).
    rewrite take_le_bytes. vm_compute. reflexivity.
  - change 16%nat with (8 + 8)%nat. rewrite <- drop_drop.
    rewrite drop_app_length' by (symmetry; exact Hh).
    apply drop_le_bytes.
Qed.

Lemma sayHello_encoding_witness :
  exists m,
    sayHello softwareName control0
    = (true, set_client (Some {| outbox := outbox conn0 ++ [m]; writeFails := false |})
               control0) /\
    u32At 1 m = 19 /\
    SplitProtocolVersion (le (take 8 (drop 8 m))) = CurrentProtocolVersion /\
    drop 16 m = softwareName.
Proof.
  destruct (sayHello_encoding softwareName control0 conn0) as (m & H1 & _ & H3 & H4 & H5);
    [crunch..|].
  exists m. split; [exact H1|]. split; [exact H3|]. split; [exact H4|exact H5].
Defined.

Lemma sendCommand_keeps cmd args c :
  base (snd (sendCommand cmd args c)) = base c /\
  availableSampleRates (snd (sendCommand cmd args c)) = availableSampleRates c /\
  channelCenterFrequency (snd (sendCommand cmd args c)) = channelCenterFrequency c /\
  currentSampleRate (snd (sendCommand cmd args c)) = currentSampleRate c /\
  currentSmartSampleRate (snd (sendCommand cmd args c)) = currentSmartSampleRate c /\
  channelDecimation (snd (sendCommand cmd args c)) = channelDecimation c /\
  smartDecimation (snd (sendCommand cmd args c)) = smartDecimation c.
Proof.
  unfold sendCommand. destruct (client c) as [conn|]; [|repeat split].
  destruct (connWrite _ conn). destruct c. repeat split.
Qed.

Lemma setSetting_keeps st ps c :
  base (snd (setSetting st ps c)) = base c /\
  availableSampleRates (snd (setSetting st ps c)) = availableSampleRates c /\
  channelCenterFrequency (snd (setSetting st ps c)) = channelCenterFrequency c /\
  currentSampleRate (snd (setSetting st ps c)) = currentSampleRate c /\
  currentSmartSampleRate (snd (setSetting st ps c)) = currentSmartSampleRate c /\
  channelDecimation (snd (setSetting st ps c)) = channelDecimation c /\
  smartDecimation (snd (setSetting st ps c)) = smartDecimation c.
Proof. apply sendCommand_keeps. Qed.

(** X14. [Start] and [Stop] are idempotent: after [Start] the client is streaming
    and a second [Start] changes nothing and sends nothing; the same for
    [Stop]. This holds with or without a connection. *)
Theorem Start_Stop_idempotent c :
  Streaming (base (Start c)) = true /\
  Streaming (base (Stop c)) = false /\
  Start (Start c) = Start c /\
  Stop (Stop c) = Stop c.
Proof.
  assert (H1 : Streaming (base (Start c)) = true).
  { unfold Start. destruct (Streaming (base c)) eqn:E; cbn [negb]; [exact E|].
    unfold setStreamState.
    destruct (Streaming (base (onBase _ c)));
      match goal with
      | |- context [setSetting ?a ?b ?x] =>
          destruct (setSetting_keeps a b x) as (-> & _)
      end; destruct c as [[] ? ? ? ? ? ? ?]; reflexivity. }
  assert (H2 : Streaming (base (Stop c)) = false).
  { unfold Stop. destruct (Streaming (base c)) eqn:E; [|exact E].
    unfold setStreamState.
    destruct (Streaming (base (onBase _ c)));
      match goal with
      | |- context [setSetting ?a ?b ?x] =>
          destruct (setSetting_keeps a b x) as (-> & _)
      end; destruct c as [[] ? ? ? ? ? ? ?]; reflexivity. }
  split; [exact H1|]. split; [exact H2|]. split.
  - unfold Start at 1. rewrite H1. reflexivity.
  - unfold Stop at 1. rewrite H2. reflexivity.
Qed.

(** X15. On a working connection, [Start] then [Stop] from a client that is not
    streaming sends exactly two commands, streaming-enabled 1 and then 0,
    and leaves the client not streaming with the byte counter at 0. *)
Theorem Start_Stop_commands c conn :
  client c = Some conn ->
  writeFails conn = false ->
  Streaming (base c) = false ->
  client (Stop (Start c))
  = Some {| outbox := outbox conn ++
                      [commandBytes CmdSetSetting (Some (settingBytes SettingStreamingEnabled [1]));
                       commandBytes CmdSetSetting (Some (settingBytes SettingStreamingEnabled [0]))];
            writeFails := false |} /\
  Streaming (base (Stop (Start c))) = false /\
  downStreamBytes (base (Stop (Start c))) = 0.
Proof.
  intros Hc Hw Hs.
  destruct c as [b cl rates ccf csr cssr cd sd]. cbn [client base] in *. subst cl.
  destruct b. cbn [Streaming] in Hs. subst.
  destruct conn as [ob wf]. cbn [writeFails] in Hw. subst wf.
  unfold Start, Stop, setStreamState, setSetting, sendCommand, connWrite, onBase.
  cbn. rewrite <- app_assoc. repeat split.
Qed.

Lemma Start_Stop_commands_witness :
  client (Stop (Start control0))
  = Some {| outbox := outbox conn0 ++
                      [commandBytes CmdSetSetting (Some (settingBytes SettingStreamingEnabled [1]));
                       commandBytes CmdSetSetting (Some (settingBytes SettingStreamingEnabled [0]))];
            writeFails := false |} /\
  Streaming (base (Stop (Start control0))) = false /\
  downStreamBytes (base (Stop (Start control0))) = 0.
Proof. apply (Start_Stop_commands control0 conn0); crunch. Defined.

(** X16. [SetGain] keeps the gain within the device's maximum: a gain above
    [MaximumGainValue] is refused with [Invalid] and changes nothing, any
    other is stored and returned, so a gain that is within the maximum
    stays within it. *)
Theorem SetGain_bounded g c :
  gain (base c) <= MaximumGainValue (deviceInfo (base c)) ->
  gain (base (snd (SetGain g c))) <= MaximumGainValue (deviceInfo (base (snd (SetGain g c)))) /\
  (MaximumGainValue (deviceInfo (base c)) < g -> SetGain g c = (Invalid, c)) /\
  (g <= MaximumGainValue (deviceInfo (base c)) ->
   fst (SetGain g c) = g /\ gain (base (snd (SetGain g c))) = g).
Proof.
  intros Hinv. unfold SetGain.
  destruct (Z.ltb_spec (MaximumGainValue (deviceInfo (base c))) g) as [Hbig|Hok].
  - split; [exact Hinv|]. split; [reflexivity|lia].
  - cbn [fst snd].
    destruct (setSetting_keeps SettingGains [g; 0; 0] c) as (Hb & _).
    assert (Hg : gain (base (onBase (set_gain g) (snd (setSetting SettingGains [g; 0; 0] c)))) = g
                 /\ deviceInfo (base (onBase (set_gain g) (snd (setSetting SettingGains [g; 0; 0] c))))
                    = deviceInfo (base c)).
    { destruct (snd (setSetting SettingGains [g; 0; 0] c)) as [b' ? ? ? ? ? ? ?].
      cbn [base] in Hb. subst b'. destruct c as [[] ? ? ? ? ? ? ?]. split; reflexivity. }
    destruct Hg as [Hg Hd]. rewrite Hg, Hd.
    split; [exact Hok|]. split; [lia|]. intros _. split; reflexivity.
Qed.

Lemma SetGain_bounded_witness :
  SetGain 21 control0 = (Invalid, control0) /\
  fst (SetGain 20 control0) = 20 /\
  gain (base (snd (SetGain 20 control0))) = 20.
Proof.
  destruct (SetGain_bounded 21 control0) as (_ & H1 & _); [crunch|].
  destruct (SetGain_bounded 20 control0) as (_ & _ & H2); [crunch|].
  split; [apply H1; crunch|]. apply H2; crunch.
Defined.

Lemma currentSampleRate_set r x : currentSampleRate (set_currentSampleRate r x) = r.
Proof. destruct x; reflexivity. Qed.

Lemma channelDecimation_set_rate r x :
  channelDecimation (set_currentSampleRate r x) = channelDecimation x.
Proof. destruct x; reflexivity. Qed.

(** X17. [SetDecimationStage], with the sample-rate table as long as the device has
    decimation stages: a stage above the count is refused with [Invalid]
    and changes nothing; a stage below it selects that table entry; but the
    stage equal to the count passes the guard, the command is sent, and
    the table lookup then panics with an index out of range. *)
Theorem SetDecimationStage_bounds d c :
  Z.of_nat (length (availableSampleRates c)) = DecimationStages (deviceInfo (base c)) ->
  0 <= d ->
  (DecimationStages (deviceInfo (base c)) < d -> SetDecimationStage d c = (Ok Invalid, c)) /\
  (d < DecimationStages (deviceInfo (base c)) ->
   exists r,
     availableSampleRates c !! Z.to_nat d = Some r /\
     fst (SetDecimationStage d c) = Ok d /\
     currentSampleRate (snd (SetDecimationStage d c)) = r /\
     channelDecimation (snd (SetDecimationStage d c)) = d) /\
  (d = DecimationStages (deviceInfo (base c)) ->
   fst (SetDecimationStage d c) = Panicked "index out of range" /\
   channelDecimation (snd (SetDecimationStage d c)) = d /\
   snd (SetDecimationStage d c)
   = snd (setSetting SettingIqDecimation [d] (set_channelDecimation d c))).
Proof.
  intros Hlen Hd. unfold SetDecimationStage.
  destruct (setSetting_keeps SettingIqDecimation [d] (set_channelDecimation d c))
    as (_ & Hr & _ & _ & _ & Hcd & _).
  assert (Hr' : availableSampleRates (snd (setSetting SettingIqDecimation [d]
                                             (set_channelDecimation d c)))
                = availableSampleRates c) by (rewrite Hr; destruct c; reflexivity).
  assert (Hcd' : channelDecimation (snd (setSetting SettingIqDecimation [d]
                                            (set_channelDecimation d c))) = d)
    by (rewrite Hcd; destruct c; reflexivity).
  split; [|split].
  - intros Hbig. destruct (Z.ltb_spec (DecimationStages (deviceInfo (base c))) d); [reflexivity|lia].
  - intros Hin. destruct (Z.ltb_spec (DecimationStages (deviceInfo (base c))) d); [lia|].
    cbv zeta. rewrite Hr'.
    destruct (lookup_lt_is_Some_2 (availableSampleRates c) (Z.to_nat d)) as [r Hr0]; [lia|].
    exists r. rewrite Hr0. split; [reflexivity|]. split; [reflexivity|].
    cbn [fst snd]. split.
    + apply currentSampleRate_set.
    + rewrite channelDecimation_set_rate. exact Hcd'.
  - intros ->. rewrite Z.ltb_irrefl. cbv zeta. rewrite Hr'.
    rewrite (lookup_ge_None_2 (availableSampleRates c)) by lia.
    cbn [fst snd]. split; [reflexivity|]. split; [exact Hcd'|reflexivity].
Qed.

Lemma SetDecimationStage_bounds_witness :
  fst (SetDecimationStage 3 control0) = Panicked "index out of range" /\
  SetDecimationStage 4 control0 = (Ok Invalid, control0) /\
  exists r,
    availableSampleRates control0 !! Z.to_nat 2 = Some r /\
    fst (SetDecimationStage 2 control0) = Ok 2 /\
    currentSampleRate (snd (SetDecimationStage 2 control0)) = r.
Proof.
  destruct (SetDecimationStage_bounds 3 control0) as (_ & _ & H3); [crunch..|].
  destruct (SetDecimationStage_bounds 4 control0) as (H4 & _ & _); [crunch..|].
  destruct (SetDecimationStage_bounds 2 control0) as (_ & H2 & _); [crunch..|].
  split; [apply H3; reflexivity|]. split; [apply H4; crunch|].
  destruct (H2 ltac:(crunch)) as (r & Hr & Ho & Hc & _).
  exists r. split; [exact Hr|]. split; [exact Ho|exact Hc].
Defined.

Lemma findRate_none rates sr : forall n i,
  0 <= i ->
  i + Z.of_nat n <= Z.of_nat (length rates) ->
  Z.of_nat (length rates) < 2 ^ 32 ->
  (forall j, (Z.to_nat i <= j < Z.to_nat i + n)%nat -> rates !! j <> Some sr) ->
  findRate n i rates sr = Ok None.
Proof.
  induction n as [|n IH]; intros i Hi Hfit Hlen Hno; [reflexivity|].
  cbn [findRate].
  destruct (lookup_lt_is_Some_2 rates (Z.to_nat i)) as [r Hr]; [lia|].
  rewrite Hr.
  destruct (Z.eqb_spec r sr) as [->|Hne].
  - exfalso. apply (Hno (Z.to_nat i)); [lia|exact Hr].
  - rewrite wrap32_small by lia. apply IH; [lia|lia|exact Hlen|].
    intros j Hj. apply Hno. lia.
Qed.

Lemma findRate_first rates sr k : forall n i,
  0 <= i ->
  i + Z.of_nat n <= Z.of_nat (length rates) ->
  Z.of_nat (length rates) < 2 ^ 32 ->
  (Z.to_nat i <= k < Z.to_nat i + n)%nat ->
  rates !! k = Some sr ->
  (forall j, (Z.to_nat i <= j < k)%nat -> rates !! j <> Some sr) ->
  findRate n i rates sr = Ok (Some (Z.of_nat k)).
Proof.
  induction n as [|n IH]; intros i Hi Hfit Hlen Hk Hsr Hno; [lia|].
  cbn [findRate].
  destruct (lookup_lt_is_Some_2 rates (Z.to_nat i)) as [r Hr]; [lia|].
  rewrite Hr.
  destruct (Z.eqb_spec r sr) as [->|Hne].
  - destruct (Nat.eq_dec (Z.to_nat i) k) as [<-|Hik]; [f_equal; f_equal; lia|].
    exfalso. apply (Hno (Z.to_nat i)); [lia|exact Hr].
  - assert (Z.to_nat i <> k) by (intros <-; congruence).
    rewrite wrap32_small by lia. apply IH; try lia; try assumption.
    intros j Hj. apply Hno. lia.
Qed.

Lemma SetSmartSampleRate_keeps sr c :
  channelDecimation (snd (SetSmartSampleRate sr c)) = channelDecimation c /\
  currentSampleRate (snd (SetSmartSampleRate sr c)) = currentSampleRate c.
Proof.
  unfold SetSmartSampleRate.
  destruct (findRate _ _ _ _) as [[i|]| |]; try (split; reflexivity).
  destruct (setSetting_keeps SettingSmartDecimation [i] (set_smartDecimation i c))
    as (_ & _ & _ & Hsr & _ & Hcd & _).
  cbn [snd].
  replace (channelDecimation (set_currentSmartSampleRate sr _))
    with (channelDecimation (snd (setSetting SettingSmartDecimation [i] (set_smartDecimation i c))))
    by (destruct (snd (setSetting _ _ _)); reflexivity).
  replace (currentSampleRate (set_currentSmartSampleRate sr _))
    with (currentSampleRate (snd (setSetting SettingSmartDecimation [i] (set_smartDecimation i c))))
    by (destruct (snd (setSetting _ _ _)); reflexivity).
  rewrite Hsr, Hcd. destruct c; split; reflexivity.
Qed.

(** X18. [SetSampleRate], with the sample-rate table as long as the device has
    decimation stages: a rate that is not in the table gives [Invalid] and
    changes nothing; a rate in the table is returned, selected, and the
    decimation becomes the first index that holds it. *)
Theorem SetSampleRate_search up sr c :
  Z.of_nat (length (availableSampleRates c)) = DecimationStages (deviceInfo (base c)) ->
  Z.of_nat (length (availableSampleRates c)) < 2 ^ 32 ->
  ((forall j, availableSampleRates c !! j <> Some sr) ->
   SetSampleRate up sr c = (Ok Invalid, c)) /\
  (forall k,
     availableSampleRates c !! k = Some sr ->
     (forall j, (j < k)%nat -> availableSampleRates c !! j <> Some sr) ->
     fst (SetSampleRate up sr c) = Ok sr /\
     channelDecimation (snd (SetSampleRate up sr c)) = Z.of_nat k /\
     currentSampleRate (snd (SetSampleRate up sr c)) = sr).
Proof.
  intros Hlen Hsmall. split.
  - intros Hno. unfold SetSampleRate.
    rewrite findRate_none; [reflexivity|lia|lia|exact Hsmall|].
    intros j _. apply Hno.
  - intros k Hk Hfirst.
    assert (Hkl : (k < length (availableSampleRates c))%nat)
      by (apply lookup_lt_is_Some_1; eauto).
    unfold SetSampleRate.
    rewrite (findRate_first _ sr k); [|lia|lia|exact Hsmall|lia|exact Hk|].
    2:{ intros j Hj. apply Hfirst. lia. }
    set (c3 := set_currentSampleRate sr _).
    destruct (setSetting_keeps SettingIqDecimation [Z.of_nat k]
                (set_channelDecimation (Z.of_nat k) c))
      as (Hb & Hr & _ & _ & _ & Hcd & _).
    assert (H3 : channelDecimation c3 = Z.of_nat k /\ currentSampleRate c3 = sr /\
                 availableSampleRates c3 = availableSampleRates c /\ base c3 = base c).
    { subst c3. rewrite currentSampleRate_set, channelDecimation_set_rate, Hcd.
      replace (availableSampleRates (set_currentSampleRate sr _))
        with (availableSampleRates (snd (setSetting SettingIqDecimation [Z.of_nat k]
                (set_channelDecimation (Z.of_nat k) c))))
        by (destruct (snd (setSetting _ _ _)); reflexivity).
      replace (base (set_currentSampleRate sr _))
        with (base (snd (setSetting SettingIqDecimation [Z.of_nat k]
                (set_channelDecimation (Z.of_nat k) c))))
        by (destruct (snd (setSetting _ _ _)); reflexivity).
      rewrite Hr, Hb. destruct c; repeat split. }
    destruct H3 as (Hc3 & Hs3 & Hr3 & Hb3).
    destruct (smartMode up c3 && (currentSmartSampleRate c3 =? 0)).
    + destruct (SetSmartSampleRate_keeps sr c3) as [Hk1 Hk2].
      assert (Hok : exists v, fst (SetSmartSampleRate sr c3) = Ok v).
      { unfold SetSmartSampleRate. rewrite Hr3, Hb3.
        rewrite (findRate_first _ sr k); [eexists; reflexivity|lia|lia|exact Hsmall|lia|exact Hk|].
        intros j Hj. apply Hfirst. lia. }
      destruct Hok as [v Hv].
      destruct (SetSmartSampleRate sr c3) as [o c4]. cbn [fst snd] in *. subst o.
      cbn [fst snd]. rewrite Hk1, Hk2. auto.
    + cbn [fst snd]. auto.
Qed.

Lemma SetSampleRate_search_witness :
  SetSampleRate up0 7 control0 = (Ok Invalid, control0) /\
  fst (SetSampleRate up0 5000000 control0) = Ok 5000000 /\
  channelDecimation (snd (SetSampleRate up0 5000000 control0)) = 1.
Proof.
  destruct (SetSampleRate_search up0 7 control0) as (Hno & _); [crunch..|].
  destruct (SetSampleRate_search up0 5000000 control0) as (_ & Hyes); [crunch..|].
  split.
  - apply Hno. intros [|[|[|j]]]; discriminate.
  - destruct (Hyes 1%nat) as (H1 & H2 & _); [reflexivity| |split; [exact H1|exact H2]].
    intros [|j] Hj; [discriminate|lia].
Defined.

Lemma onBase_keeps g x :
  base (onBase g x) = g (base x) /\
  channelCenterFrequency (onBase g x) = channelCenterFrequency x /\
  smartDecimation (onBase g x) = smartDecimation x.
Proof. destruct x; repeat split. Qed.

Lemma SetSmartCenterFrequency_post cf c :
  Client.SmartCenterFrequency (base (snd (SetSmartCenterFrequency cf c))) = cf /\
  channelCenterFrequency (snd (SetSmartCenterFrequency cf c)) = channelCenterFrequency c /\
  streamingMode (base (snd (SetSmartCenterFrequency cf c))) = streamingMode (base c) /\
  fst (SetSmartCenterFrequency cf c) = cf.
Proof.
  unfold SetSmartCenterFrequency. cbn [fst snd].
  destruct (Z.eqb_spec (Client.SmartCenterFrequency (base c)) cf) as [He|Hne]; cbn [negb].
  - repeat split; exact He.
  - destruct (setSetting_keeps SettingSmartFrequency [cf] c) as (Hb & _ & Hccf & _).
    destruct (onBase_keeps (set_SmartCenterFrequency cf)
                (snd (setSetting SettingSmartFrequency [cf] c))) as (Hob & Hoc & _).
    rewrite Hob, Hoc, Hb, Hccf. destruct (base c); repeat split.
Qed.

Lemma SetCenterFrequency_post up cf c :
  channelCenterFrequency (snd (SetCenterFrequency up cf c)) = cf /\
  fst (SetCenterFrequency up cf c) = cf.
Proof.
  unfold SetCenterFrequency. cbn [fst snd].
  destruct (Z.eqb_spec (channelCenterFrequency c) cf) as [He|Hne]; cbn [negb].
  - split; exact He.
  - destruct (setSetting_keeps SettingIqFrequency [cf] c) as (Hb & _ & Hccf & _).
    set (c2 := set_channelCenterFrequency cf _).
    assert (H2 : channelCenterFrequency c2 = cf) by (subst c2; destruct (snd _); reflexivity).
    destruct (smartMode up c2 && _).
    + destruct (SetSmartCenterFrequency_post cf c2) as (_ & -> & _). split; exact H2.
    + split; exact H2.
Qed.

Lemma SetStreamingMode_post up m c :
  streamingMode (base (SetStreamingMode up m c)) = m.
Proof.
  unfold SetStreamingMode.
  destruct (Z.eqb_spec (streamingMode (base c)) m) as [He|Hne]; cbn [negb]; [exact He|].
  set (c1 := onBase (set_streamingMode m) c).
  assert (H1 : streamingMode (base c1) = m) by (subst c1; destruct c as [[] ? ? ? ? ? ? ?]; reflexivity).
  destruct (setSetting_keeps SettingStreamingMode [m] c1) as (Hb & _).
  set (c2 := snd (setSetting SettingStreamingMode [m] c1)) in *.
  assert (H2 : streamingMode (base c2) = m) by (rewrite Hb; exact H1).
  destruct (smartMode up c2); [|exact H2].
  set (c3 := if Client.SmartCenterFrequency (base c2) =? 0 then _ else c2).
  assert (H3 : streamingMode (base c3) = m).
  { subst c3. destruct (Client.SmartCenterFrequency (base c2) =? 0); [|exact H2].
    destruct (SetSmartCenterFrequency_post (GetCenterFrequency c2) c2) as (_ & _ & -> & _).
    exact H2. }
  destruct (setSetting_keeps SettingSmartDecimation [smartDecimation c3] c3) as (-> & _).
  exact H3.
Qed.

(** X19. Tuning requests are idempotent: a second [SetSmartCenterFrequency],
    [SetCenterFrequency] or [SetStreamingMode] with the same value returns
    the same value and leaves the client, connection included, as the
    first call left it: nothing is sent again. *)
Theorem tuning_idempotent up cf m c :
  SetSmartCenterFrequency cf (snd (SetSmartCenterFrequency cf c))
  = (cf, snd (SetSmartCenterFrequency cf c)) /\
  SetCenterFrequency up cf (snd (SetCenterFrequency up cf c))
  = (cf, snd (SetCenterFrequency up cf c)) /\
  SetStreamingMode up m (SetStreamingMode up m c) = SetStreamingMode up m c.
Proof.
  split; [|split].
  - destruct (SetSmartCenterFrequency_post cf c) as (H & _).
    unfold SetSmartCenterFrequency at 1. rewrite H, Z.eqb_refl. cbn [negb]. rewrite H.
    reflexivity.
  - destruct (SetCenterFrequency_post up cf c) as (H & _).
    unfold SetCenterFrequency at 1. rewrite H, Z.eqb_refl. cbn [negb]. rewrite H.
    reflexivity.
  - pose proof (SetStreamingMode_post up m c) as H.
    unfold SetStreamingMode at 1. rewrite H, Z.eqb_refl. reflexivity.
Qed.

End ControlFacts.


(** ** rpcCalls.go: the registry and the pipeline, further *)

Module RegistryFacts.
Import Server Inputs ServerFacts.

Lemma Provision_effects gen d s rs :
  sessionLock rs = false ->
  gen d = Some s ->
  let p := fresh (dom (store rs)) in
  let rs' := snd (Provision gen d rs) in
  fst (Provision gen d rs) = Return (ID s) /\
  store rs !! p = None /\
  sessions rs' = <[ID s := p]> (sessions rs) /\
  store rs' = <[p := s]> (store rs) /\
  sessions rs' !! ID s = Some p /\
  store rs' !! p = Some s /\
  (forall q, is_Some (store rs !! q) -> store rs' !! q = store rs !! q) /\
  sessionLock rs' = false.
Proof.
  intros Hl Hg p rs'.
  assert (Hp : store rs !! p = None).
  { apply not_elem_of_dom. subst p. apply is_fresh. }
  subst rs'. unfold Provision, Lock. rewrite Hl. cbn [store log setLock]. rewrite Hg.
  cbn. fold p.
  split; [reflexivity|]. split; [exact Hp|]. split; [reflexivity|]. split; [reflexivity|].
  split; [apply lookup_insert_eq|]. split; [apply lookup_insert_eq|].
  split; [|reflexivity].
  intros q [sq Hq]. apply lookup_insert_ne. intros <-. congruence.
Qed.

(** X20. A successful [Provision] returns the token of the new session, stores
    the session under a pointer that was free, enters the token, and
    releases the lock: the token then leads to the session, and no session
    that existed is altered. *)
Theorem Provision_registers gen d s rs :
  sessionLock rs = false ->
  gen d = Some s ->
  let p := fresh (dom (store rs)) in
  let rs' := snd (Provision gen d rs) in
  fst (Provision gen d rs) = Return (ID s) /\
  store rs !! p = None /\
  sessions rs' = <[ID s := p]> (sessions rs) /\
  store rs' = <[p := s]> (store rs) /\
  sessions rs' !! ID s = Some p /\
  store rs' !! p = Some s /\
  (forall q, is_Some (store rs !! q) -> store rs' !! q = store rs !! q) /\
  sessionLock rs' = false.
Proof. exact (Provision_effects gen d s rs). Qed.

Lemma Provision_registers_witness :
  fst (Provision gen2 state0 server1) = Return "new" /\
  sessions (snd (Provision gen2 state0 server1)) !! "new"
  = Some (fresh (dom (store server1))) /\
  store (snd (Provision gen2 state0 server1)) !! fresh (dom (store server1)) = Some session2.
Proof.
  destruct (Provision_registers gen2 state0 session2 server1)
    as (H1 & _ & _ & _ & H5 & H6 & _); [reflexivity..|].
  split; [exact H1|]. split; [exact H5|exact H6].
Defined.

Lemma Destroy_known token rs p :
  sessionLock rs = false ->
  sessions rs !! token = Some p ->
  Destroy token rs
  = (Return tt,
     Unlock (FullStop p (mapDelete token (log (EvMapGet token) (log EvLock (setLock true rs)))))).
Proof.
  intros Hl Hs. unfold Destroy, Lock, mapGet. rewrite Hl. cbn [sessions log setLock].
  rewrite Hs. reflexivity.
Qed.

Lemma Destroy_unknown token rs :
  sessionLock rs = false ->
  sessions rs !! token = None ->
  Destroy token rs
  = (Error "session doesn't exist",
     Unlock (log (EvMapGet token) (log EvLock (setLock true rs)))).
Proof.
  intros Hl Hs. unfold Destroy, Lock, mapGet. rewrite Hl. cbn [sessions log setLock].
  rewrite Hs. reflexivity.
Qed.

(** X21. [Provision] then [Destroy] of the returned token gives the registry map
    back as it was (the token was not in use), leaves the new session in
    the store fully stopped, and the lock free. *)
Theorem Provision_Destroy_round_trip gen d s rs :
  sessionLock rs = false ->
  gen d = Some s ->
  sessions rs !! ID s = None ->
  let p := fresh (dom (store rs)) in
  let rs1 := snd (Provision gen d rs) in
  let rs2 := snd (Destroy (ID s) rs1) in
  fst (Destroy (ID s) rs1) = Return tt /\
  sessions rs2 = sessions rs /\
  store rs2 = <[p := stopped s]> (store rs) /\
  sessionLock rs2 = false.
Proof.
  intros Hl Hg Hnew p rs1 rs2.
  destruct (Provision_effects gen d s rs Hl Hg) as (_ & Hp & Hs1 & Hst1 & Hlk & _ & _ & Hl1).
  fold p in Hp, Hs1, Hst1, Hlk. fold rs1 in Hs1, Hst1, Hlk, Hl1.
  subst rs2. rewrite (Destroy_known (ID s) rs1 p Hl1 Hlk).
  cbn [fst snd]. split; [reflexivity|].
  cbn. rewrite Hs1, Hst1.
  split; [rewrite delete_insert_eq; apply delete_id, Hnew|].
  split; [|reflexivity].
  apply map_eq. intros q. destruct (decide (p = q)) as [<-|Hne].
  - rewrite lookup_alter_eq, !lookup_insert_eq. reflexivity.
  - rewrite lookup_alter_ne, !lookup_insert_ne by exact Hne. reflexivity.
Qed.

Lemma Provision_Destroy_round_trip_witness :
  fst (Destroy "new" (snd (Provision gen2 state0 server1))) = Return tt /\
  sessions (snd (Destroy "new" (snd (Provision gen2 state0 server1)))) = sessions server1.
Proof.
  destruct (Provision_Destroy_round_trip gen2 state0 session2 server1) as (H1 & H2 & _);
    [reflexivity|reflexivity|vm_compute; reflexivity|].
  split; [exact H1|exact H2].
Defined.

(** X22. [Provision] does not check the token: when the frontend hands out a
    session whose token is already registered, the entry is overwritten
    with the new session; the session it pointed to stays in the store
    untouched, and no full stop is requested for it. *)
Theorem Provision_replaces_entry gen d s rs q sq :
  sessionLock rs = false ->
  gen d = Some s ->
  sessions rs !! ID s = Some q ->
  store rs !! q = Some sq ->
  let rs' := snd (Provision gen d rs) in
  exists p,
    sessions rs' !! ID s = Some p /\ p <> q /\
    store rs' !! q = Some sq /\
    count isAnyFullStop (added rs rs') = 0%nat.
Proof.
  intros Hl Hg Hold Hq rs'.
  destruct (Provision_effects gen d s rs Hl Hg) as (_ & Hp & _ & _ & Hlk & _ & Hkeep & _).
  exists (fresh (dom (store rs))). fold rs' in Hlk, Hkeep.
  split; [exact Hlk|].
  split; [intros He; rewrite He in Hp; congruence|].
  split; [rewrite Hkeep by eauto; exact Hq|].
  subst rs'. unfold added, Provision, Lock. rewrite Hl. cbn [store log setLock]. rewrite Hg.
    cbn. rewrite <- !app_assoc, drop_app_length. reflexivity.
Qed.

Lemma Provision_replaces_entry_witness :
  exists p,
    sessions (snd (Provision genTok state0 server1)) !! "tok" = Some p /\
    p <> 1%positive /\
    store (snd (Provision genTok state0 server1)) !! 1%positive = Some session1 /\
    count isAnyFullStop (added server1 (snd (Provision genTok state0 server1))) = 0%nat.
Proof.
  apply (Provision_replaces_entry genTok state0 sessionTok server1 1%positive session1);
    vm_compute; reflexivity.
Defined.

(** X23. [Destroy] of a registered token touches that entry and that session
    only: the token is gone, every other token and every other session is
    as before, the session is fully stopped, the lock is free; and a
    second [Destroy] of the token fails and changes neither map nor
    store. *)
Theorem Destroy_isolated token rs p :
  sessionLock rs = false ->
  sessions rs !! token = Some p ->
  let rs' := snd (Destroy token rs) in
  sessions rs' !! token = None /\
  (forall t, t <> token -> sessions rs' !! t = sessions rs !! t) /\
  (forall q, q <> p -> store rs' !! q = store rs !! q) /\
  store rs' !! p = stopped <$> store rs !! p /\
  sessionLock rs' = false /\
  fst (Destroy token rs') = Error "session doesn't exist" /\
  sessions (snd (Destroy token rs')) = sessions rs' /\
  store (snd (Destroy token rs')) = store rs'.
Proof.
  intros Hl Hs rs'. subst rs'. rewrite (Destroy_known token rs p Hl Hs). cbn [snd].
  set (rs' := Unlock _).
  assert (Hs' : sessions rs' = delete token (sessions rs)) by reflexivity.
  assert (Hst' : store rs' = alter stopped p (store rs)) by reflexivity.
  assert (Hl' : sessionLock rs' = false) by reflexivity.
  split; [rewrite Hs'; apply lookup_delete_eq|].
  split; [intros t Ht; rewrite Hs'; apply lookup_delete_ne; congruence|].
  split; [intros q Hq; rewrite Hst'; apply lookup_alter_ne; congruence|].
  split; [rewrite Hst'; apply lookup_alter_eq|].
  split; [exact Hl'|].
  rewrite (Destroy_unknown token rs' Hl') by (rewrite Hs'; apply lookup_delete_eq).
  repeat split.
Qed.

Lemma Destroy_isolated_witness :
  sessions (snd (Destroy "tok" server1)) !! "tok" = None /\
  store (snd (Destroy "tok" server1)) !! 1%positive = stopped <$> store server1 !! 1%positive /\
  fst (Destroy "tok" (snd (Destroy "tok" server1))) = Error "session doesn't exist".
Proof.
  destruct (Destroy_isolated "tok" server1 1%positive) as (H1 & _ & _ & H4 & _ & H6 & _);
    [reflexivity|vm_compute; reflexivity|].
  split; [exact H1|]. split; [exact H4|exact H6].
Defined.

(** X24. [Provision] and [Destroy], entered with the lock free, leave it free on
    every path, error paths included; a [Provision] the frontend refuses
    returns an error and changes neither the map nor the store. *)
Theorem registry_lock_released gen d token rs :
  sessionLock rs = false ->
  sessionLock (snd (Provision gen d rs)) = false /\
  sessionLock (snd (Destroy token rs)) = false /\
  (gen d = None ->
   fst (Provision gen d rs) = Error "error provisioning" /\
   sessions (snd (Provision gen d rs)) = sessions rs /\
   store (snd (Provision gen d rs)) = store rs).
Proof.
  intros Hl. split; [|split].
  - unfold Provision, Lock. rewrite Hl. destruct (gen d); reflexivity.
  - unfold Destroy, Lock, mapGet. rewrite Hl. cbn [sessions log setLock].
    destruct (sessions rs !! token); reflexivity.
  - intros Hg. unfold Provision, Lock. rewrite Hl, Hg. repeat split.
Qed.

Lemma registry_lock_released_witness :
  sessionLock (snd (Provision gen2 state0 server1)) = false /\
  sessionLock (snd (Destroy "nope" server1)) = false.
Proof.
  destruct (registry_lock_released gen2 state0 "nope" server1) as (H1 & H2 & _);
    [reflexivity|].
  split; [exact H1|exact H2].
Defined.



Lemma sends_app tr1 tr2 : sends (tr1 ++ tr2) = sends tr1 ++ sends tr2.
Proof.
  induction tr1 as [|e tr1 IH]; [reflexivity|].
  destruct e; cbn [app sends]; rewrite IH; reflexivity.
Qed.

Lemma deliver_effects p : forall script rs,
  exists new,
    events (snd (deliver p script rs)) = events rs ++ new /\
    sends new = pushed script /\
    count isKeepAlive new = delivered script /\
    sessions (snd (deliver p script rs)) = sessions rs /\
    sessionLock (snd (deliver p script rs)) = sessionLock rs /\
    forall q, store (snd (deliver p script rs)) !! q
              = if decide (q = p) then refreshed (delivered script) <$> store rs !! q
                else store rs !! q.
Proof.
  induction script as [|t script IH]; intros rs.
  - exists []. cbn. rewrite app_nil_r. repeat split.
    intros q. destruct (decide (q = p)); [|reflexivity].
    destruct (store rs !! q) as [[]|]; reflexivity.
  - destruct t as [|samples [err|] expired]; cbn [deliver pushed delivered].
    + apply IH.
    + exists [EvSend p samples]. cbn. repeat split.
      intros q. destruct (decide (q = p)); [|reflexivity].
      destruct (store rs !! q) as [[]|]; reflexivity.
    + destruct expired.
      * exists [EvSend p samples; EvKeepAlive p]. cbn. rewrite <- app_assoc.
        repeat split. intros q. destruct (decide (q = p)) as [->|Hne].
        -- rewrite lookup_alter_eq. destruct (store rs !! p) as [[]|]; reflexivity.
        -- rewrite lookup_alter_ne by congruence. reflexivity.
      * destruct (IH (KeepAlive p (log (EvSend p samples) rs)))
          as (new & He & Hs & Hc & Hss & Hl & Hst).
        exists (EvSend p samples :: EvKeepAlive p :: new).
        rewrite He, Hss, Hl. cbn. rewrite <- !app_assoc, Hs, Hc.
        repeat split. intros q. rewrite Hst. cbn.
        destruct (decide (q = p)) as [->|Hne].
        -- rewrite lookup_alter_eq. destruct (store rs !! p) as [[]|]; cbn; [|reflexivity].
           unfold refreshed. cbn. do 2 f_equal. lia.
        -- rewrite lookup_alter_ne by congruence. reflexivity.
Qed.

Lemma RXIQ_attached token script rs p :
  sessions rs !! token = Some p ->
  IQRunning p rs = false ->
  RXIQ token script rs
  = match deliver p script (StartIQ p (log (EvMapGet token) rs)) with
    | (Running, rs3) => (Running, rs3)
    | (r, rs3) => (r, mapDelete token (FullStop p rs3))
    end.
Proof.
  intros Hs Hr. unfold RXIQ, mapGet. rewrite Hs.
  change (IQRunning p (log (EvMapGet token) rs)) with (IQRunning p rs). rewrite Hr.
  reflexivity.
Qed.

(** X26. The pipeline pushes the buffers in the order they are produced, each
    once, up to and including the first whose push fails or after which
    the session is found stopped, and refreshes the activity stamp once
    per successful push. *)
Theorem RXIQ_pushes_in_order token script rs p :
  sessions rs !! token = Some p ->
  IQRunning p rs = false ->
  sends (added rs (snd (RXIQ token script rs))) = pushed script /\
  count isKeepAlive (added rs (snd (RXIQ token script rs))) = delivered script.
Proof.
  intros Hs Hr. rewrite (RXIQ_attached token script rs p Hs Hr).
  destruct (deliver_effects p script (StartIQ p (log (EvMapGet token) rs)))
    as (new & He & Hsn & Hc & _).
  destruct (deliver p script _) as [r rs3]. cbn [snd] in He.
  assert (Hev : exists tail,
             events (snd (match r with
                          | Running => (Running, rs3)
                          | _ => (r, mapDelete token (FullStop p rs3))
                          end))
             = events rs ++ [EvMapGet token; EvStartIQ p] ++ new ++ tail /\
             sends tail = [] /\ count isKeepAlive tail = 0%nat).
  { assert (Hdone : events (mapDelete token (FullStop p rs3))
                     = events rs ++ [EvMapGet token; EvStartIQ p] ++ new
                       ++ [EvFullStop p; EvMapDelete token]).
    { cbn. rewrite He. cbn. rewrite <- !app_assoc. reflexivity. }
    destruct r; cbn [snd];
      try (exists [EvFullStop p; EvMapDelete token]; split; [exact Hdone|split; reflexivity]).
    exists (@nil Event). rewrite He. cbn. rewrite <- !app_assoc, app_nil_r. repeat split. }
  destruct Hev as (tail & Hev & Ht1 & Ht2).
  destruct r; rewrite (added_app _ _ _ Hev);
    rewrite !sends_app, !count_app, Ht1, Ht2, Hsn, Hc; cbn; rewrite app_nil_r; split; lia || reflexivity.
Qed.

Lemma RXIQ_pushes_in_order_witness :
  sends (added server1 (snd (RXIQ "tok" script1 server1))) = [[(1, 2)]; [(3, 4)]] /\
  count isKeepAlive (added server1 (snd (RXIQ "tok" script1 server1))) = 1%nat.
Proof.
  apply (RXIQ_pushes_in_order "tok" script1 server1 1%positive); vm_compute; reflexivity.
Defined.

Lemma StartIQ_store token rs p s :
  store rs !! p = Some s ->
  store (StartIQ p (log (EvMapGet token) rs)) !! p = Some (started s).
Proof. intros Hp. cbn. rewrite lookup_alter_eq, Hp. reflexivity. Qed.

(** X27. At most one stream per session: while a stream is attached the session is
    marked running and still registered, and a second [RXIQ] for the token
    fails at once with "already running", without stopping the session or
    touching the registry. *)
Theorem RXIQ_single_stream token script script2 rs p s :
  sessions rs !! token = Some p ->
  store rs !! p = Some s ->
  iqRunning s = false ->
  fst (RXIQ token script rs) = Running ->
  let rs1 := snd (RXIQ token script rs) in
  IQRunning p rs1 = true /\
  sessions rs1 = sessions rs /\
  RXIQ token script2 rs1 = (Error "already running", log (EvMapGet token) rs1) /\
  count isAnyFullStop (added rs rs1) = 0%nat.
Proof.
  intros Hs Hp Hrun Hres rs1.
  assert (Hr : IQRunning p rs = false) by (unfold IQRunning; rewrite Hp; exact Hrun).
  subst rs1. revert Hres. rewrite (RXIQ_attached token script rs p Hs Hr).
  destruct (deliver_effects p script (StartIQ p (log (EvMapGet token) rs)))
    as (new & He & Hsn & _ & Hss & _ & Hst).
  destruct (deliver_trace p script (StartIQ p (log (EvMapGet token) rs)))
    as (new' & He' & _ & Hf).
  destruct (deliver p script _) as [r rs3]. cbn [snd] in *.
  destruct r; cbn [fst snd]; intros Hres; try discriminate.
  assert (Hrun3 : IQRunning p rs3 = true).
  { unfold IQRunning. rewrite Hst. destruct (decide (p = p)) as [_|Hne]; [|congruence].
    rewrite (StartIQ_store token rs p s Hp). reflexivity. }
  split; [exact Hrun3|]. split; [exact Hss|]. split.
  - unfold RXIQ, mapGet. rewrite Hss. cbn [sessions StartIQ log onSession setStore].
    rewrite Hs.
    change (IQRunning p (log (EvMapGet token) rs3)) with (IQRunning p rs3).
    rewrite Hrun3. reflexivity.
  - assert (Hev : events rs3 = events rs ++ [EvMapGet token; EvStartIQ p] ++ new').
    { rewrite He'. cbn. rewrite <- !app_assoc. reflexivity. }
    rewrite (added_app _ _ _ Hev). rewrite count_app. cbn [count isAnyFullStop].
    rewrite count_none; [reflexivity|].
    eapply Forall_impl; [exact Hf|]. intros [] Hse; cbn in Hse |- *; congruence.
Qed.

Lemma RXIQ_single_stream_witness :
  IQRunning 1%positive (snd (RXIQ "tok" scriptQuiet server1)) = true /\
  RXIQ "tok" script1 (snd (RXIQ "tok" scriptQuiet server1))
  = (Error "already running",
     log (EvMapGet "tok") (snd (RXIQ "tok" scriptQuiet server1))).
Proof.
  destruct (RXIQ_single_stream "tok" scriptQuiet script1 server1 1%positive session1)
    as (H1 & _ & H3 & _); [vm_compute; reflexivity..|].
  split; [exact H1|exact H3].
Defined.

(** X28. After a stream has ended the session is gone for good: its token is no
    longer registered, the session is fully stopped, a new [RXIQ] with the
    token faults on the [nil] session, and [Tune] reports that the session
    does not exist. *)
Theorem RXIQ_after_return token script script2 cfg rs p s :
  sessions rs !! token = Some p ->
  store rs !! p = Some s ->
  iqRunning s = false ->
  fst (RXIQ token script rs) <> Running ->
  let rs1 := snd (RXIQ token script rs) in
  sessions rs1 !! token = None /\
  store rs1 !! p = Some (stopped (refreshed (delivered script) (started s))) /\
  fst (RXIQ token script2 rs1) = Fault "invalid memory address or nil pointer dereference" /\
  fst (Tune token cfg rs1) = Error "session doesn't exist".
Proof.
  intros Hs Hp Hrun Hres rs1.
  assert (Hr : IQRunning p rs = false) by (unfold IQRunning; rewrite Hp; exact Hrun).
  subst rs1. revert Hres. rewrite (RXIQ_attached token script rs p Hs Hr).
  destruct (deliver_effects p script (StartIQ p (log (EvMapGet token) rs)))
    as (new & _ & _ & _ & Hss & _ & Hst).
  destruct (deliver p script _) as [r rs3]. cbn [snd] in *.
  assert (Hgone : sessions (mapDelete token (FullStop p rs3)) !! token = None).
  { cbn. apply lookup_delete_eq. }
  assert (Hobj : store (mapDelete token (FullStop p rs3)) !! p
                 = Some (stopped (refreshed (delivered script) (started s)))).
  { cbn. rewrite lookup_alter_eq, Hst. destruct (decide (p = p)) as [_|Hne]; [|congruence].
    rewrite (StartIQ_store token rs p s Hp). reflexivity. }
  destruct r; cbn [fst snd]; intros Hres; try congruence.
  all: split; [exact Hgone|]; split; [exact Hobj|]; split;
    [rewrite RXIQ_unknown_token_faults by exact Hgone; reflexivity
    |unfold Tune, mapGet; rewrite Hgone; reflexivity].
Qed.

Lemma RXIQ_after_return_witness :
  sessions (snd (RXIQ "tok" script1 server1)) !! "tok" = None /\
  fst (RXIQ "tok" script1 (snd (RXIQ "tok" script1 server1)))
  = Fault "invalid memory address or nil pointer dereference" /\
  fst (Tune "tok" config0 (snd (RXIQ "tok" script1 server1))) = Error "session doesn't exist".
Proof.
  destruct (RXIQ_after_return "tok" script1 script1 config0 server1 1%positive session1)
    as (H1 & _ & H3 & H4); [vm_compute; reflexivity..| |].
  - vm_compute. discriminate.
  - split; [exact H1|]. split; [exact H3|exact H4].
Defined.

End RegistryFacts.
